(** * YieldFarm: the interest calculator and the account ledger

    A shallow embedding of the JavaScript sources of the platform:
    the three Express servers (the Vercel-ready file-backed server, the
    plain file-backed server and the in-memory server) and the calculator
    and mock registration of the browser scripts.

    Numbers.  JavaScript numbers are modelled as the real numbers extended
    with [NaN], [+Infinity] and [-Infinity]: arithmetic is exact (no
    rounding, no overflow, no signed zero), the special values propagate as
    in IEEE 754.  The values of the APY curve at given terms are checked
    in binary64 arithmetic as well (module [Binary64]).  Since a finite
    result of the model may be an overflow of the sources, the theorems on
    the projections bound the term so that the exact result lies far
    inside the range of binary64, and the theorems on balances state
    formulas in the order of the code or order relations, which rounding
    to nearest preserves, rather than identities between sums.

    Time.  Time stamps are integers (milliseconds since the epoch); an ISO
    date string is represented by its millisecond value.  The handlers
    take one instant for all the clock reads of a request; [invest_clocked]
    keeps the five reads of /api/invest apart.

    Store.  The data file holds the objects the handlers write, field by
    field, and the numeric fields of a store hold numbers.
    [JSON.stringify] and [JSON.parse] are not modelled: where a handler
    writes an object with a [NaN] or an infinity, the model keeps that
    value, which is the one the handler computed and answers with, while
    the file itself holds [null] there.  Request fields of object or array
    type are not modelled. *)

From Stdlib Require Import Reals Lra Lia ZArith NArith List String Ascii Bool DecimalString.
From Stdlib Require Floats.PrimFloat.
From Stdlib Require DecimalZ DecimalPos.
Import ListNotations.

Local Open Scope R_scope.

(* ================================================================== *)
(** * JavaScript values and the built-ins the sources call            *)
(* ================================================================== *)

Module JS.

Inductive jsnum : Type :=
| NaN
| PInf
| NInf
| Fin (x : R).

Definition Rltb (x y : R) : bool := if Rlt_dec x y then true else false.
Definition Rleb (x y : R) : bool := if Rle_dec x y then true else false.
Definition Reqb (x y : R) : bool := if Req_dec_T x y then true else false.

Definition inf_of (positive : bool) : jsnum := if positive then PInf else NInf.

(** [a < b]; every comparison with [NaN] is false. *)
Definition lt (a b : jsnum) : bool :=
  match a, b with
  | NaN, _ | _, NaN => false
  | Fin x, Fin y => Rltb x y
  | NInf, NInf => false
  | NInf, _ => true
  | Fin _, PInf => true
  | _, _ => false
  end.

Definition gt (a b : jsnum) : bool := lt b a.

Definition isNaN (a : jsnum) : bool :=
  match a with NaN => true | _ => false end.

Definition neg (a : jsnum) : jsnum :=
  match a with
  | NaN => NaN
  | PInf => NInf
  | NInf => PInf
  | Fin x => Fin (- x)
  end.

Definition add (a b : jsnum) : jsnum :=
  match a, b with
  | NaN, _ | _, NaN => NaN
  | Fin x, Fin y => Fin (x + y)
  | PInf, NInf | NInf, PInf => NaN
  | PInf, _ | _, PInf => PInf
  | NInf, _ | _, NInf => NInf
  end.

Definition sub (a b : jsnum) : jsnum := add a (neg b).

Definition mul (a b : jsnum) : jsnum :=
  match a, b with
  | NaN, _ | _, NaN => NaN
  | Fin x, Fin y => Fin (x * y)
  | Fin x, PInf | PInf, Fin x => if Reqb x 0 then NaN else inf_of (Rltb 0 x)
  | Fin x, NInf | NInf, Fin x => if Reqb x 0 then NaN else inf_of (Rltb x 0)
  | PInf, PInf | NInf, NInf => PInf
  | PInf, NInf | NInf, PInf => NInf
  end.

(** Division; a zero divisor is the positive zero. *)
Definition div (a b : jsnum) : jsnum :=
  match a, b with
  | NaN, _ | _, NaN => NaN
  | Fin x, Fin y =>
      if Reqb y 0
      then (if Reqb x 0 then NaN else inf_of (Rltb 0 x))
      else Fin (x / y)
  | Fin _, _ => Fin 0
  | PInf, Fin y => inf_of (Rleb 0 y)
  | NInf, Fin y => inf_of (Rltb y 0)
  | _, _ => NaN
  end.

(** [Math.max] and [Math.min]: [NaN] as soon as one argument is. *)
Definition max (a b : jsnum) : jsnum :=
  match a, b with
  | NaN, _ | _, NaN => NaN
  | _, _ => if lt a b then b else a
  end.

Definition min (a b : jsnum) : jsnum :=
  match a, b with
  | NaN, _ | _, NaN => NaN
  | _, _ => if lt b a then b else a
  end.

(** The integer part of a real, towards minus infinity and towards zero. *)
Definition Rfloor (x : R) : Z := (up x - 1)%Z.
Definition Rtrunc (x : R) : Z :=
  if Rltb x 0 then (- Rfloor (- x))%Z else Rfloor x.
Definition is_integer (x : R) : bool := Reqb (IZR (Rfloor x)) x.
Definition is_odd_integer (x : R) : bool := is_integer x && Z.odd (Rfloor x).

(** [Math.pow base e] (Number::exponentiate of ECMAScript). *)
Definition pow (base e : jsnum) : jsnum :=
  match e with
  | NaN => NaN
  | Fin y =>
      if Reqb y 0 then Fin 1 else
      match base with
      | NaN => NaN
      | PInf => if Rltb 0 y then PInf else Fin 0
      | NInf =>
          if Rltb 0 y
          then (if is_odd_integer y then NInf else PInf)
          else Fin 0
      | Fin x =>
          if Rltb 0 x then Fin (Rpower x y)
          else if Reqb x 0 then (if Rltb 0 y then Fin 0 else PInf)
          else if is_integer y
               then Fin ((if Z.odd (Rfloor y) then -1 else 1) * Rpower (- x) y)
               else NaN
      end
  | PInf =>
      match base with
      | NaN => NaN
      | PInf | NInf => PInf
      | Fin x =>
          if Rltb 1 (Rabs x) then PInf
          else if Reqb (Rabs x) 1 then NaN else Fin 0
      end
  | NInf =>
      match base with
      | NaN => NaN
      | PInf | NInf => Fin 0
      | Fin x =>
          if Rltb 1 (Rabs x) then Fin 0
          else if Reqb (Rabs x) 1 then NaN else PInf
      end
  end.

(** ** Values of a JSON request body *)

Inductive jsval : Type :=
| JUndefined
| JNull
| JBool (b : bool)
| JNum (n : jsnum)
| JStr (s : string).

(** [!v] is [negb (truthy v)]. *)
Definition truthy (v : jsval) : bool :=
  match v with
  | JUndefined | JNull => false
  | JBool b => b
  | JNum NaN => false
  | JNum (Fin x) => negb (Reqb x 0)
  | JNum _ => true
  | JStr s => negb (String.eqb s "")
  end.

(** *** Reading numbers out of strings *)

Definition is_ws (c : ascii) : bool :=
  let n := nat_of_ascii c in
  ((9 <=? n)%nat && (n <=? 13)%nat) || (n =? 32)%nat.

Fixpoint skip_ws (s : string) : string :=
  match s with
  | String c r => if is_ws c then skip_ws r else s
  | EmptyString => s
  end.

Fixpoint all_ws (s : string) : bool :=
  match s with
  | String c r => is_ws c && all_ws r
  | EmptyString => true
  end.

Definition digit_val (radix : N) (c : ascii) : option N :=
  let n := N_of_ascii c in
  let v :=
    if ((48 <=? n) && (n <=? 57))%N then Some (n - 48)%N
    else if ((97 <=? n) && (n <=? 122))%N then Some (n - 87)%N
    else if ((65 <=? n) && (n <=? 90))%N then Some (n - 55)%N
    else None in
  match v with
  | Some d => if (d <? radix)%N then Some d else None
  | None => None
  end.

(** The longest run of digits in the radix: its value, its length and
    the rest of the string. *)
Fixpoint scan_digits (radix : N) (s : string) (acc : N) (cnt : nat)
  : N * nat * string :=
  match s with
  | String c r =>
      match digit_val radix c with
      | Some d => scan_digits radix r (acc * radix + d)%N (S cnt)
      | None => (acc, cnt, s)
      end
  | EmptyString => (acc, cnt, s)
  end.

Definition scan_sign (s : string) : bool * string :=
  match s with
  | String "+"%char r => (false, r)
  | String "-"%char r => (true, r)
  | _ => (false, s)
  end.

Fixpoint strip_prefix (p s : string) : option string :=
  match p, s with
  | EmptyString, _ => Some s
  | String a p', String b s' => if Ascii.eqb a b then strip_prefix p' s' else None
  | String _ _, EmptyString => None
  end.

Definition signed (negative : bool) (x : R) : R := if negative then - x else x.

(** The exponent part [e±digits] of a decimal literal, when complete. *)
Definition scan_exponent (s : string) : Z * string :=
  match s with
  | String c r =>
      if Ascii.eqb c "e" || Ascii.eqb c "E" then
        let '(eneg, r1) := scan_sign r in
        let '(x, nx, r2) := scan_digits 10 r1 0 0 in
        match nx with
        | O => (0%Z, s)
        | S _ => ((if eneg then - Z.of_N x else Z.of_N x)%Z, r2)
        end
      else (0%Z, s)
  | EmptyString => (0%Z, s)
  end.

(** The longest prefix that is a StrDecimalLiteral, with its value. *)
Definition scan_decimal (s : string) : option (jsnum * string) :=
  let '(sneg, s1) := scan_sign s in
  match strip_prefix "Infinity" s1 with
  | Some r => Some (inf_of (negb sneg), r)
  | None =>
      let '(i, ni, s2) := scan_digits 10 s1 0 0 in
      let '(f, nf, s3) :=
        match s2 with
        | String "."%char r =>
            let '(f, nf, r') := scan_digits 10 r 0 0 in
            match ni, nf with
            | O, O => (0%N, O, s2)
            | _, _ => (f, nf, r')
            end
        | _ => (0%N, O, s2)
        end in
      match (ni + nf)%nat with
      | O => None
      | S _ =>
          let '(ex, s4) := scan_exponent s3 in
          let mant := (i * 10 ^ N.of_nat nf + f)%N in
          Some (Fin (signed sneg (IZR (Z.of_N mant))
                     * powerRZ 10 (ex - Z.of_nat nf)), s4)
      end
  end.

Definition parseFloat_str (s : string) : jsnum :=
  match scan_decimal (skip_ws s) with
  | Some (v, _) => v
  | None => NaN
  end.

Definition radix_prefix (s : string) : option (N * string) :=
  match s with
  | String "0"%char (String c r) =>
      if Ascii.eqb c "x" || Ascii.eqb c "X" then Some (16%N, r)
      else if Ascii.eqb c "o" || Ascii.eqb c "O" then Some (8%N, r)
      else if Ascii.eqb c "b" || Ascii.eqb c "B" then Some (2%N, r)
      else None
  | _ => None
  end.

(** StringToNumber: the whole trimmed string must be a numeric literal. *)
Definition ToNumber_str (s : string) : jsnum :=
  let t := skip_ws s in
  match t with
  | EmptyString => Fin 0
  | _ =>
      match radix_prefix t with
      | Some (radix, r) =>
          let '(v, n, rest) := scan_digits radix r 0 0 in
          match n with
          | O => NaN
          | S _ => if all_ws rest then Fin (IZR (Z.of_N v)) else NaN
          end
      | None =>
          match scan_decimal t with
          | Some (v, rest) => if all_ws rest then v else NaN
          | None => NaN
          end
      end
  end.

(** [parseInt] with no radix argument. *)
Definition parseInt_str (s : string) : jsnum :=
  let '(sneg, s1) := scan_sign (skip_ws s) in
  let '(radix, s2) :=
    match radix_prefix s1 with
    | Some (16%N, r) => (16%N, r)
    | _ => (10%N, s1)
    end in
  let '(v, n, _) := scan_digits radix s2 0 0 in
  match n with
  | O => NaN
  | S _ => Fin (signed sneg (IZR (Z.of_N v)))
  end.

(** *** Conversions of request values *)

Definition ToNumber (v : jsval) : jsnum :=
  match v with
  | JUndefined => NaN
  | JNull => Fin 0
  | JBool b => if b then Fin 1 else Fin 0
  | JNum n => n
  | JStr s => ToNumber_str s
  end.

(** [parseFloat v] reads the text of [v]; the text of a number reads back
    as that number, the texts of [undefined], [null], [true] and [false]
    start with no digit. *)
Definition parseFloat (v : jsval) : jsnum :=
  match v with
  | JNum n => n
  | JStr s => parseFloat_str s
  | _ => NaN
  end.

(** [parseInt v] reads the text of [v].  The text of a number is in
    decimal notation when its magnitude lies in [1e-6, 1e21) and in
    exponent notation otherwise, where only the leading digit is read;
    [Infinity] and [NaN] read as [NaN]. *)
Definition parseInt_num (n : jsnum) : jsnum :=
  match n with
  | Fin x =>
      if Reqb x 0 then Fin 0
      else if Rleb (/ 1000000) (Rabs x) && Rltb (Rabs x) (10 ^ 21)
      then Fin (IZR (Rtrunc x))
      else
        let k := Rfloor (ln (Rabs x) / ln 10) in
        let d := Rfloor (Rabs x * powerRZ 10 (- k)) in
        Fin (signed (Rltb x 0) (IZR d))
  | _ => NaN
  end.

Definition parseInt (v : jsval) : jsnum :=
  match v with
  | JNum n => parseInt_num n
  | JStr s => parseInt_str s
  | _ => NaN
  end.

End JS.

(* ================================================================== *)
(** * The APY curve                                                    *)
(* ================================================================== *)

Module Curve.
Import JS.

(** [clamp] of the browser scripts; the servers write the same
    [Math.min(Math.max(v, a), b)] in line. *)
Definition clamp (v a b : jsnum) : jsnum := min (max v a) b.

Definition minMonths : jsnum := Fin 3.
Definition maxMonths : jsnum := Fin 24.
Definition minApy : jsnum := Fin 0.30.
Definition maxApy : jsnum := Fin 2.00.

(** [apyFromTerm] of script.js, of the other browser scripts, of the
    Vercel server and of the in-memory server (the same text in all). *)
Definition apyFromTerm (months : jsnum) : jsnum :=
  let t := div (sub (clamp months minMonths maxMonths) minMonths)
               (sub maxMonths minMonths) in
  add minApy (mul t (sub maxApy minApy)).

(** The inline APY of the plain file-backed server:
    [0.30 + ((lockPeriod - 3) / 21) * 1.70], with no clamp. *)
Definition apyInline (lockPeriod : jsnum) : jsnum :=
  add (Fin 0.30) (mul (div (sub lockPeriod (Fin 3)) (Fin 21)) (Fin 1.70)).

End Curve.

(* ================================================================== *)
(** * The APY curve in binary64                                        *)
(* ================================================================== *)

(** The same [apyFromTerm] over the binary64 numbers JavaScript computes
    with, to check the values of the curve at given terms bit for bit. *)
Module Binary64.
Import Floats.PrimFloat.
Local Open Scope float_scope.
Set Warnings "-inexact-float".

Definition max (a b : float) : float :=
  if is_nan a then a else if is_nan b then b else if ltb a b then b else a.

Definition min (a b : float) : float :=
  if is_nan a then a else if is_nan b then b else if ltb b a then b else a.

Definition apyFromTerm (months : float) : float :=
  let minMonths := 3 in
  let maxMonths := 24 in
  let minApy := 0.30 in
  let maxApy := 2.00 in
  let t := (min (max months minMonths) maxMonths - minMonths)
           / (maxMonths - minMonths) in
  minApy + t * (maxApy - minApy).

End Binary64.

(* ================================================================== *)
(** * The calculators                                                  *)
(* ================================================================== *)

Module Calculator.
Import JS Curve.
Local Open Scope string_scope.

(** The four browser scripts that contain [calc]. *)
Inductive script : Type :=
| MockScript        (* script.js, the front end without a back end *)
| ConnectedScript   (* the back-end connected script *)
| CompleteScript    (* the "complete working version" *)
| LegacyScript.     (* the oldest script, with its own monthly formula *)

Inductive shown : Type :=
| ShowError
| ShowResult (apy finalAmount interest : jsnum).

(** [calc]: the two form fields are read as text and converted with
    [Number]; [comp] is the value of the compounding selector. *)
Definition calc (v : script) (amountText termText comp : string) : shown :=
  let principal := ToNumber_str amountText in
  let months := ToNumber_str termText in
  if isNaN principal || lt principal (Fin 500) || gt principal (Fin 1000000)
  then ShowError
  else
    let apy := apyFromTerm months in
    let finalAmount :=
      if comp =? "monthly" then
        match v with
        | LegacyScript =>
            let periods := months in
            let monthlyRate :=
              sub (pow (add (Fin 1) apy) (div (Fin 1) (Fin 12))) (Fin 1) in
            mul principal (pow (add (Fin 1) monthlyRate) periods)
        | _ => mul principal (pow (add (Fin 1) apy) months)
        end
      else
        match v with
        | LegacyScript =>
            mul principal (add (Fin 1) (mul apy (div months (Fin 12))))
        | _ =>
            let years := div months (Fin 12) in
            mul principal (add (Fin 1) (mul apy years))
        end in
    let interest := sub finalAmount principal in
    ShowResult apy finalAmount interest.

(** The projection as the specification words it, over the reals: the
    annual rate applied once per month, or pro-rated linearly.  The power
    with a real exponent is [Rpower x y = exp (y * ln x)]; for a whole
    number of months it is the iterated product (lemma
    [project_final_whole]). *)
Inductive mode : Type := monthly | simple.

Definition project_final (principal apy_rate term_months : R) (m : mode) : R :=
  match m with
  | monthly => principal * Rpower (1 + apy_rate) term_months
  | simple => principal * (1 + apy_rate * term_months / 12)
  end.

(** The curve as the specification words it. *)
Definition Rclamp (t lo hi : R) : R := Rmin (Rmax t lo) hi.

Definition apy_spec (term_months : R) : R :=
  0.30 + (Rclamp term_months 3 24 - 3) / (24 - 3) * (2.00 - 0.30).

End Calculator.

(* ================================================================== *)
(** * The account ledger: data                                         *)
(* ================================================================== *)

Module Ledger.
Import JS Curve.
Local Open Scope string_scope.

(** One entry of an investment's [weeklyEarnings]. *)
Record weekData : Type := mkWeekData {
  week : Z;
  earnings : jsnum;
  wk_timestamp : Z
}.

(** Fields that only some servers write are optional ([None] is the
    absent property). *)
Record investment : Type := mkInvestment {
  inv_id : string;
  inv_userId : string;
  amount : jsnum;
  lockPeriod : jsnum;
  compoundType : string;
  apy : jsnum;
  transactionHash : string;
  startDate : Z;
  endDate : option Z;
  status : string;
  totalEarned : option jsnum;
  weeklyEarnings : option (list weekData)
}.

Record transaction : Type := mkTransaction {
  tx_id : string;
  tx_type : string;
  tx_amount : jsnum;
  tx_timestamp : Z;
  tx_hash : string
}.

Record user : Type := mkUser {
  id : string;
  email : string;
  password : string;
  createdAt : option Z;
  lastLogin : option Z;
  balance : jsnum;
  totalEarnings : jsnum;
  investments : option (list investment);
  transactions : option (list transaction);
  isActive : option bool
}.

Record settings_t : Type := mkSettings { wallet_address : string }.

Record db : Type := mkDb {
  users : list user;
  settings : option settings_t
}.

(** The data file of the file-backed servers. *)
Inductive file : Type :=
| Missing
| Corrupt
| Content (d : db).

(** What a handler sends back.  [Uncaught] is an exception that leaves
    the handler (Express answers 500 with its own error page). *)
Inductive body : Type :=
| BError (error : string)
| BRegistered (uid uemail : string) (ubalance : jsnum)
| BLoggedIn (uid uemail : string) (ubalance uearnings : jsnum)
            (uinvestments : list investment)
| BInvested (inv : investment) (newBalance : jsnum)
| BUser (uid uemail : string) (ubalance uearnings : jsnum)
        (uinvestments : list investment) (utransactions : list transaction)
        (weeklyGains : option jsnum)
| BAddress (address : option string)
| BMessage (message : string)
| BCalculated (apy100 finalAmount interest months : jsnum).

Inductive response : Type :=
| Json (code : nat) (b : body)
| Uncaught.

Definition code_of (r : response) : option nat :=
  match r with
  | Json c _ => Some c
  | Uncaught => None
  end.

(** ** Helpers for the idioms of the handlers *)

(** ['prefix' + Date.now()] *)
Definition stamp_id (prefix : string) (now : Z) : string :=
  prefix ++ DecimalString.NilZero.string_of_int (Z.to_int now).

(** [x || []] *)
Definition or_empty {A : Type} (o : option (list A)) : list A :=
  match o with
  | Some l => l
  | None => []
  end.

(** [!s] for a request field that is a string; an absent field is
    represented by the empty string, which is falsy as well. *)
Definition missing (s : string) : bool := s =? "".

(** An object found with [find] and then assigned to is the first
    element that satisfies the test, modified in place. *)
Fixpoint update_first {A : Type} (p : A -> bool) (g : A -> A) (l : list A) : list A :=
  match l with
  | [] => []
  | x :: r => if p x then g x :: r else x :: update_first p g r
  end.

Definition set_lastLogin (t : Z) (u : user) : user :=
  mkUser (id u) (email u) (password u) (createdAt u) (Some t)
         (balance u) (totalEarnings u) (investments u) (transactions u)
         (isActive u).

Definition set_users (d : db) (l : list user) : db := mkDb l (settings d).

Definition wallet : string := "0x71C7656EC7ab88b098defB751B7401B5f6d897AB".

(** [new Date(ms).toISOString()]: a time value that is not finite or
    beyond 8.64e15 ms in magnitude is an invalid date and throws. *)
Definition toISOString (t : jsnum) : option Z :=
  match t with
  | Fin x => if Rleb (Rabs x) 8640000000000000 then Some (Rtrunc x) else None
  | _ => None
  end.

(** [x += d] on a property that may be absent. *)
Definition plus_assign (o : option jsnum) (d : jsnum) : jsnum :=
  match o with
  | Some x => add x d
  | None => NaN
  end.

(** The range the specification requires of a stored lock term. *)
Definition term_in_range (t : jsnum) : Prop :=
  exists x : R, t = Fin x /\ 3 <= x <= 24.

End Ledger.

(* ================================================================== *)
(** * The two file-backed servers                                      *)
(* ================================================================== *)

Module FileServer.
Import JS Curve Ledger.
Local Open Scope string_scope.

(** The Vercel-ready server (data file under /tmp) and the plain server
    (data file next to the code).  Their handlers have the same text but
    for [readDatabase], the APY of [/api/invest], the earnings formulas
    and [/api/calculate], which only the Vercel server has. *)
Inductive variant : Type := Vercel | Local.

Definition initialData : db := mkDb [] (Some (mkSettings wallet)).

(** What [readDatabase] returns from its [catch] branch. *)
Definition fallback (v : variant) : db :=
  match v with
  | Vercel => mkDb [] (Some (mkSettings wallet))
  | Local => mkDb [] None
  end.

(** [readDatabase].  [fs_ok] tells whether writing the data file works
    during this request: the Vercel server creates a missing file before
    it reads it. *)
Definition readDatabase (v : variant) (fs_ok : bool) (f : file) : db * file :=
  match f with
  | Content d => (d, f)
  | Corrupt => (fallback v, f)
  | Missing =>
      match v with
      | Vercel =>
          if fs_ok then (initialData, Content initialData)
          else (fallback Vercel, Missing)
      | Local => (fallback Local, Missing)
      end
  end.

Definition writeDatabase (fs_ok : bool) (d : db) (f : file) : bool * file :=
  if fs_ok then (true, Content d) else (false, f).

Section Accounts.
(** bcryptjs: [hash password salt] with the salt it draws, and
    [compare password hashed]. *)
Variable bcrypt_hash : string -> string -> string.
Variable bcrypt_compare : string -> string -> bool.

(** POST /api/register *)
Definition register (v : variant) (fs_ok : bool) (now : Z) (salt : string)
           (email_ password_ : string) (f : file) : response * file :=
  if missing email_ || missing password_
  then (Json 400 (BError "Email and password are required"), f)
  else
    let '(d, f1) := readDatabase v fs_ok f in
    match find (fun u => email u =? email_) (users d) with
    | Some _ => (Json 400 (BError "User already exists"), f1)
    | None =>
        if (10 <=? List.length (users d))%nat
        then (Json 400 (BError "Maximum user limit reached (10 users)"), f1)
        else
          let hashedPassword := bcrypt_hash password_ salt in
          let newUser :=
            mkUser (stamp_id "user_" now) email_ hashedPassword
                   (Some now) (Some now) (Fin 0) (Fin 0) (Some []) None
                   (Some true) in
          let '(ok, f2) :=
            writeDatabase fs_ok (set_users d (users d ++ [newUser])%list) f1 in
          if ok
          then (Json 200 (BRegistered (id newUser) (email newUser)
                                      (balance newUser)), f2)
          else (Json 500 (BError "Failed to create user"), f2)
    end.

(** POST /api/login *)
Definition login (v : variant) (fs_ok : bool) (now : Z)
           (email_ password_ : string) (f : file) : response * file :=
  if missing email_ || missing password_
  then (Json 400 (BError "Email and password are required"), f)
  else
    let '(d, f1) := readDatabase v fs_ok f in
    match find (fun u => email u =? email_) (users d) with
    | None => (Json 400 (BError "User not found"), f1)
    | Some u =>
        match isActive u with
        | Some true =>
            if negb (bcrypt_compare password_ (password u))
            then (Json 400 (BError "Invalid password"), f1)
            else
              let users' :=
                update_first (fun u => email u =? email_)
                             (set_lastLogin now) (users d) in
              let '(_, f2) := writeDatabase fs_ok (set_users d users') f1 in
              (Json 200 (BLoggedIn (id u) (email u) (balance u)
                                   (totalEarnings u)
                                   (or_empty (investments u))), f2)
        | _ => (Json 400 (BError "Account is deactivated"), f1)
        end
    end.
End Accounts.

(** The APY that [/api/invest] stamps on the investment. *)
Definition invest_apy (v : variant) (lockPeriod_ : jsval) : jsnum :=
  match v with
  | Vercel => apyFromTerm (ToNumber lockPeriod_)
  | Local => apyInline (ToNumber lockPeriod_)
  end.

(** [Date.now() + lockPeriod * 30 * 24 * 60 * 60 * 1000] *)
Definition end_time (now : Z) (lockPeriod_ : jsval) : jsnum :=
  add (Fin (IZR now))
      (mul (mul (mul (mul (mul (ToNumber lockPeriod_) (Fin 30)) (Fin 24))
                     (Fin 60)) (Fin 60)) (Fin 1000)).

Definition deposit (u : user) (inv : investment) (tx : transaction) : user :=
  mkUser (id u) (email u) (password u) (createdAt u) (lastLogin u)
         (add (balance u) (amount inv)) (totalEarnings u)
         (Some (or_empty (investments u) ++ [inv])%list)
         (Some (or_empty (transactions u) ++ [tx])%list)
         (isActive u).

(** POST /api/invest *)
Definition invest (v : variant) (fs_ok : bool) (now : Z)
           (userId_ : string) (amount_ lockPeriod_ : jsval)
           (compoundType_ transactionHash_ : string) (f : file)
  : response * file :=
  if missing userId_ || negb (truthy amount_) || negb (truthy lockPeriod_)
     || missing transactionHash_
  then (Json 400 (BError "Missing required fields"), f)
  else
    let '(d, f1) := readDatabase v fs_ok f in
    match find (fun u => id u =? userId_) (users d) with
    | None => (Json 404 (BError "User not found"), f1)
    | Some u =>
        let investmentAmount := parseFloat amount_ in
        if lt investmentAmount (Fin 500) || gt investmentAmount (Fin 1000000)
        then (Json 400 (BError "Amount must be between 500 and 1,000,000 USDT"), f1)
        else
          let apy := invest_apy v lockPeriod_ in
          match toISOString (end_time now lockPeriod_) with
          | None => (Uncaught, f1)
          | Some ends =>
              let newInvestment :=
                mkInvestment (stamp_id "inv_" now) userId_ investmentAmount
                             (parseInt lockPeriod_)
                             (if missing compoundType_ then "monthly"
                              else compoundType_)
                             apy transactionHash_ now (Some ends) "active"
                             (Some (Fin 0)) (Some []) in
              let tx :=
                mkTransaction (stamp_id "tx_" now) "deposit" investmentAmount
                              now transactionHash_ in
              let u' := deposit u newInvestment tx in
              let users' :=
                update_first (fun u => id u =? userId_) (fun _ => u') (users d) in
              let '(ok, f2) := writeDatabase fs_ok (set_users d users') f1 in
              if ok
              then (Json 200 (BInvested newInvestment (balance u')), f2)
              else (Json 500 (BError "Failed to create investment"), f2)
          end
    end.

(** The two records [/api/invest] builds, given the end date. *)
Definition new_investment (v : variant) (now : Z) (userId_ : string)
           (amount_ lockPeriod_ : jsval) (compoundType_ transactionHash_ : string)
           (ends : Z) : investment :=
  mkInvestment (stamp_id "inv_" now) userId_ (parseFloat amount_)
               (parseInt lockPeriod_)
               (if missing compoundType_ then "monthly"%string else compoundType_)
               (invest_apy v lockPeriod_) transactionHash_ now (Some ends)
               "active" (Some (Fin 0)) (Some []).

Definition new_transaction (now : Z) (amount_ : jsval) (transactionHash_ : string)
  : transaction :=
  mkTransaction (stamp_id "tx_" now) "deposit" (parseFloat amount_) now
                transactionHash_.

(** *** The clock reads of /api/invest

    The handler reads the clock five times, in this order: [Date.now()]
    for the id of the investment, [new Date()] for its start date,
    [Date.now()] for its end date, [Date.now()] for the id of the
    transaction and [new Date()] for its time stamp.  [invest] gives the
    five reads the same instant; [invest_clocked] keeps them apart. *)
Record clock : Type := mkClock {
  at_id : Z;
  at_start : Z;
  at_end : Z;
  at_tx_id : Z;
  at_tx : Z
}.

Definition same_instant (now : Z) : clock := mkClock now now now now now.

Definition invest_clocked (v : variant) (fs_ok : bool) (clk : clock)
           (userId_ : string) (amount_ lockPeriod_ : jsval)
           (compoundType_ transactionHash_ : string) (f : file)
  : response * file :=
  if missing userId_ || negb (truthy amount_) || negb (truthy lockPeriod_)
     || missing transactionHash_
  then (Json 400 (BError "Missing required fields"), f)
  else
    let '(d, f1) := readDatabase v fs_ok f in
    match find (fun u => id u =? userId_) (users d) with
    | None => (Json 404 (BError "User not found"), f1)
    | Some u =>
        let investmentAmount := parseFloat amount_ in
        if lt investmentAmount (Fin 500) || gt investmentAmount (Fin 1000000)
        then (Json 400 (BError "Amount must be between 500 and 1,000,000 USDT"), f1)
        else
          let apy := invest_apy v lockPeriod_ in
          match toISOString (end_time (at_end clk) lockPeriod_) with
          | None => (Uncaught, f1)
          | Some ends =>
              let newInvestment :=
                mkInvestment (stamp_id "inv_" (at_id clk)) userId_
                             investmentAmount (parseInt lockPeriod_)
                             (if missing compoundType_ then "monthly"
                              else compoundType_)
                             apy transactionHash_ (at_start clk) (Some ends)
                             "active" (Some (Fin 0)) (Some []) in
              let tx :=
                mkTransaction (stamp_id "tx_" (at_tx_id clk)) "deposit"
                              investmentAmount (at_tx clk) transactionHash_ in
              let u' := deposit u newInvestment tx in
              let users' :=
                update_first (fun u => id u =? userId_) (fun _ => u') (users d) in
              let '(ok, f2) := writeDatabase fs_ok (set_users d users') f1 in
              if ok
              then (Json 200 (BInvested newInvestment (balance u')), f2)
              else (Json 500 (BError "Failed to create investment"), f2)
          end
    end.

(** The gain of one investment over a fraction [1/n] of a year: the
    Vercel server compounds, [amount * ((1 + apy)^(1/n) - 1)], the plain
    server pro-rates, [(amount * apy) / n]. *)
Definition period_earnings (v : variant) (n : R) (inv : investment) : jsnum :=
  match v with
  | Vercel =>
      let rate := sub (pow (add (Fin 1) (apy inv)) (div (Fin 1) (Fin n))) (Fin 1) in
      mul (amount inv) rate
  | Local => div (mul (amount inv) (apy inv)) (Fin n)
  end.

Definition is_active (inv : investment) : bool := status inv =? "active".

(** GET /api/user/:userId *)
Definition getUser (v : variant) (fs_ok : bool) (userId_ : string) (f : file)
  : response * file :=
  let '(d, f1) := readDatabase v fs_ok f in
  match find (fun u => id u =? userId_) (users d) with
  | None => (Json 404 (BError "User not found"), f1)
  | Some u =>
      let activeInvestments := filter is_active (or_empty (investments u)) in
      let weeklyGains :=
        fold_left (fun total inv => add total (period_earnings v 52 inv))
                  activeInvestments (Fin 0) in
      (Json 200 (BUser (id u) (email u) (balance u) (totalEarnings u)
                       (or_empty (investments u)) (or_empty (transactions u))
                       (Some weeklyGains)), f1)
  end.

(** GET /api/wallet-address: [db.settings.wallet_address] throws when
    the store has no [settings]. *)
Definition walletAddress (v : variant) (fs_ok : bool) (f : file)
  : response * file :=
  let '(d, f1) := readDatabase v fs_ok f in
  match settings d with
  | Some s => (Json 200 (BAddress (Some (wallet_address s))), f1)
  | None => (Uncaught, f1)
  end.

(** The body of the inner [forEach] of /api/update-earnings; [acc] is
    the owner's [balance] and [totalEarnings]. *)
Definition accrue_investment (v : variant) (now : Z) (acc : jsnum * jsnum)
           (inv : investment) : (jsnum * jsnum) * investment :=
  if is_active inv then
    let dailyEarnings := period_earnings v 365 inv in
    let weekData_ :=
      mkWeekData ((now - startDate inv) / 604800000)%Z dailyEarnings now in
    ((add (fst acc) dailyEarnings, add (snd acc) dailyEarnings),
     mkInvestment (inv_id inv) (inv_userId inv) (amount inv) (lockPeriod inv)
                  (compoundType inv) (apy inv) (transactionHash inv)
                  (startDate inv) (endDate inv) (status inv)
                  (Some (plus_assign (totalEarned inv) dailyEarnings))
                  (Some (or_empty (weeklyEarnings inv) ++ [weekData_])%list))
  else (acc, inv).

Fixpoint accrue_investments (v : variant) (now : Z) (acc : jsnum * jsnum)
         (l : list investment) : (jsnum * jsnum) * list investment :=
  match l with
  | [] => (acc, [])
  | inv :: r =>
      let '(acc1, inv') := accrue_investment v now acc inv in
      let '(acc2, r') := accrue_investments v now acc1 r in
      (acc2, inv' :: r')
  end.

(** The body of the outer [forEach]. *)
Definition accrue_user (v : variant) (now : Z) (u : user) : user :=
  match investments u with
  | None => u
  | Some l =>
      let '((b, t), l') :=
        accrue_investments v now (balance u, totalEarnings u) l in
      mkUser (id u) (email u) (password u) (createdAt u) (lastLogin u)
             b t (Some l') (transactions u) (isActive u)
  end.

(** POST /api/update-earnings *)
Definition updateEarnings (v : variant) (fs_ok : bool) (now : Z) (f : file)
  : response * file :=
  let '(d, f1) := readDatabase v fs_ok f in
  let d' := set_users d (map (accrue_user v now) (users d)) in
  let '(ok, f2) := writeDatabase fs_ok d' f1 in
  if ok
  then (Json 200 (BMessage "Earnings updated for all users"), f2)
  else (Json 500 (BError "Failed to update earnings"), f2).

(** POST /api/calculate (Vercel server only) *)
Definition calculate (amount_ lockPeriod_ : jsval) (compoundType_ : string)
  : response :=
  if negb (truthy amount_) || negb (truthy lockPeriod_)
  then Json 400 (BError "Amount and lock period are required")
  else
    let investmentAmount := parseFloat amount_ in
    let months := parseInt lockPeriod_ in
    if lt investmentAmount (Fin 500) || gt investmentAmount (Fin 1000000)
    then Json 400 (BError "Amount must be between 500 and 1,000,000 USDT")
    else
      let apy := apyFromTerm months in
      let finalAmount :=
        if compoundType_ =? "monthly"
        then mul investmentAmount (pow (add (Fin 1) apy) months)
        else
          let years := div months (Fin 12) in
          mul investmentAmount (add (Fin 1) (mul apy years)) in
      let interest := sub finalAmount investmentAmount in
      Json 200 (BCalculated (mul apy (Fin 100)) finalAmount interest months).

(** The investment after one tick, and the gains of the active
    investments of a list, in the order of the list. *)
Definition accrued (v : variant) (now : Z) (inv : investment) : investment :=
  snd (accrue_investment v now (NaN, NaN) inv).

Definition deltas (v : variant) (l : list investment) : list jsnum :=
  map (period_earnings v 365) (filter is_active l).

End FileServer.

(* ================================================================== *)
(** * The in-memory server                                             *)
(* ================================================================== *)

Module MemoryServer.
Import JS Curve Ledger.
Local Open Scope string_scope.

(** The state is the global array [users]; every handler body sits in a
    [try] whose [catch] answers 500. *)

Section Accounts.
Variable bcrypt_hash : string -> string -> string.
Variable bcrypt_compare : string -> string -> bool.

(** POST /api/register *)
Definition register (now : Z) (salt : string) (email_ password_ : string)
           (us : list user) : response * list user :=
  if missing email_ || missing password_
  then (Json 400 (BError "Email and password are required"), us)
  else
    match find (fun u => email u =? email_) us with
    | Some _ => (Json 400 (BError "User already exists"), us)
    | None =>
        let hashedPassword := bcrypt_hash password_ salt in
        let newUser :=
          mkUser (stamp_id "user_" now) email_ hashedPassword (Some now)
                 None (Fin 0) (Fin 0) (Some []) None None in
        (Json 200 (BRegistered (id newUser) (email newUser) (balance newUser)),
         (us ++ [newUser])%list)
    end.

(** POST /api/login *)
Definition login (email_ password_ : string) (us : list user)
  : response * list user :=
  if missing email_ || missing password_
  then (Json 400 (BError "Email and password are required"), us)
  else
    match find (fun u => email u =? email_) us with
    | None => (Json 400 (BError "User not found"), us)
    | Some u =>
        if negb (bcrypt_compare password_ (password u))
        then (Json 400 (BError "Invalid password"), us)
        else (Json 200 (BLoggedIn (id u) (email u) (balance u)
                                  (totalEarnings u)
                                  (or_empty (investments u))), us)
    end.
End Accounts.

Definition deposit (u : user) (inv : investment) : user :=
  mkUser (id u) (email u) (password u) (createdAt u) (lastLogin u)
         (add (balance u) (amount inv)) (totalEarnings u)
         (Some (or_empty (investments u) ++ [inv])%list)
         (transactions u) (isActive u).

(** POST /api/invest *)
Definition invest (now : Z) (userId_ : string) (amount_ lockPeriod_ : jsval)
           (compoundType_ transactionHash_ : string) (us : list user)
  : response * list user :=
  if missing userId_ || negb (truthy amount_) || negb (truthy lockPeriod_)
     || missing transactionHash_
  then (Json 400 (BError "Missing required fields"), us)
  else
    match find (fun u => id u =? userId_) us with
    | None => (Json 404 (BError "User not found"), us)
    | Some u =>
        let investmentAmount := parseFloat amount_ in
        if lt investmentAmount (Fin 500) || gt investmentAmount (Fin 1000000)
        then (Json 400 (BError "Amount must be between 500 and 1,000,000 USDT"), us)
        else
          let apy := apyFromTerm (ToNumber lockPeriod_) in
          let newInvestment :=
            mkInvestment (stamp_id "inv_" now) userId_ investmentAmount
                         (parseInt lockPeriod_)
                         (if missing compoundType_ then "monthly"
                          else compoundType_)
                         apy transactionHash_ now None "active" None None in
          let u' := deposit u newInvestment in
          (Json 200 (BInvested newInvestment (balance u')),
           update_first (fun u => id u =? userId_) (fun _ => u') us)
    end.

(** GET /api/user/:userId *)
Definition getUser (userId_ : string) (us : list user) : response :=
  match find (fun u => id u =? userId_) us with
  | None => Json 404 (BError "User not found")
  | Some u =>
      Json 200 (BUser (id u) (email u) (balance u) (totalEarnings u)
                      (or_empty (investments u)) [] None)
  end.

(** GET /api/wallet-address *)
Definition walletAddress : response := Json 200 (BAddress (Some wallet)).

End MemoryServer.

(* ================================================================== *)
(** * The mock accounts of script.js                                   *)
(* ================================================================== *)

Module MockScript.
Import JS Ledger.
Local Open Scope string_scope.

(** The two keys of [localStorage] the script uses. *)
Record storage : Type := mkStorage {
  mockUsers : option (list user);
  currentUser : option user
}.

Inductive outcome : Type :=
| Failed (error : string)
| Succeeded (b : body).

Definition demoUser : user :=
  mkUser "user_1" "demo@yieldfarm.com" "password123" None None
         (Fin 15000) (Fin 1250) (Some []) None None.

Definition initMockUsers (st : storage) : storage :=
  match mockUsers st with
  | Some _ => st
  | None => mkStorage (Some [demoUser]) (currentUser st)
  end.

(** [registerUser] of script.js *)
Definition registerUser (now : Z) (email_ password_ : string) (st : storage)
  : outcome * storage :=
  let st1 := initMockUsers st in
  let us := or_empty (mockUsers st1) in
  match find (fun u => email u =? email_) us with
  | Some _ => (Failed "User already exists", st1)
  | None =>
      if (10 <=? List.length us)%nat
      then (Failed "Maximum user limit reached (10 users)", st1)
      else
        let newUser :=
          mkUser (stamp_id "user_" now) email_ password_ (Some now) None
                 (Fin 0) (Fin 0) (Some []) None None in
        (Succeeded (BRegistered (id newUser) (email newUser) (balance newUser)),
         mkStorage (Some (us ++ [newUser])%list) (Some newUser))
  end.

(** [loginUser] of script.js *)
Definition loginUser (email_ password_ : string) (st : storage)
  : outcome * storage :=
  let st1 := initMockUsers st in
  let us := or_empty (mockUsers st1) in
  match find (fun u => (email u =? email_) && (password u =? password_)) us with
  | None => (Failed "Invalid email or password", st1)
  | Some u =>
      (Succeeded (BLoggedIn (id u) (email u) (balance u) (totalEarnings u)
                            (or_empty (investments u))),
       mkStorage (mockUsers st1) (Some u))
  end.

(** ** The page of script.js *)

(** The page holds the variable [currentUser] next to [localStorage]. *)
Record page : Type := mkPage {
  loggedIn : option user;
  stored : storage
}.

(** Loading the page: the variable starts as [null]; the DOMContentLoaded
    handler creates the mock accounts and reads the saved user. *)
Definition load (st : storage) : page :=
  let st1 := initMockUsers st in
  mkPage (currentUser st1) st1.

(** The submit handlers of the two forms call [loginUser] and
    [registerUser], which write to [localStorage] only. *)
Definition loginSubmit (email_ password_ : string) (pg : page) : outcome * page :=
  let '(r, st) := loginUser email_ password_ (stored pg) in
  (r, mkPage (loggedIn pg) st).

Definition registerSubmit (now : Z) (email_ password_ : string) (pg : page)
  : outcome * page :=
  let '(r, st) := registerUser now email_ password_ (stored pg) in
  (r, mkPage (loggedIn pg) st).

(** [logout] *)
Definition logout (pg : page) : page :=
  mkPage None (mkStorage (mockUsers (stored pg)) None).

Inductive submitted : Type :=
| Alerted (message : string)
| Accepted
| Ignored      (* no account has the id of the current user *)
| Crashed.     (* [mockUsers] is absent from [localStorage] *)

Definition deposit (u : user) (inv : investment) : user :=
  mkUser (id u) (email u) (password u) (createdAt u) (lastLogin u)
         (add (balance u) (amount inv)) (totalEarnings u)
         (Some (or_empty (investments u) ++ [inv])%list)
         (transactions u) (isActive u).

(** The click handler of the submit-transaction button.  The investment
    it builds has no [userId], [endDate] or [weeklyEarnings]. *)
Definition submitTx (now : Z) (txHash amountText termText compoundType_ : string)
           (pg : page) : submitted * page :=
  match loggedIn pg with
  | None => (Alerted "Please login first", pg)
  | Some cu =>
      let amount_ := parseFloat_str amountText in
      let lockPeriod_ := parseInt_str termText in
      if all_ws txHash
      then (Alerted "Please enter your transaction hash", pg)
      else if lt amount_ (Fin 500) || gt amount_ (Fin 1000000)
      then (Alerted "Amount must be between 500 and 1,000,000 USDT", pg)
      else
        let apy_ := Curve.apyFromTerm lockPeriod_ in
        let newInvestment :=
          mkInvestment (stamp_id "inv_" now) "" amount_ lockPeriod_
                       compoundType_ apy_ txHash now None "active"
                       (Some (Fin 0)) None in
        match mockUsers (stored pg) with
        | None => (Crashed, pg)
        | Some us =>
            match find (fun u => id u =? id cu) us with
            | None => (Ignored, pg)
            | Some u =>
                let u' := deposit u newInvestment in
                let us' := update_first (fun u => id u =? id cu) (fun _ => u') us in
                (Accepted, mkPage (Some u') (mkStorage (Some us') (Some u')))
            end
        end
  end.

End MockScript.

(* ================================================================== *)
(** * The back-end connected scripts                                   *)
(* ================================================================== *)

Module Client.
Import JS Ledger FileServer.
Local Open Scope string_scope.

(** The three scripts that call the server; they differ in the message
    [apiRequest] returns from its [catch]. *)
Inductive front : Type :=
| Connected     (* the back-end connected script *)
| Complete      (* the "complete working version" *)
| Oldest.       (* the oldest script *)

Definition network_error (s : front) : string :=
  match s with
  | Connected => "Backend server not responding. Please refresh and try again."
  | Complete => "Network error - Please try again"
  | Oldest => "Network error - Please check if server is running"
  end.

(** [apiRequest], given what [fetch] brought back ([None]: no answer):
    a response that is not [ok] (status outside 200..299) is thrown and
    caught with the rest. *)
Definition apiRequest (s : front) (r : option response) : body :=
  match r with
  | Some (Json code b) =>
      if ((200 <=? code) && (code <=? 299))%nat then b
      else BError (network_error s)
  | _ => BError (network_error s)
  end.

(** [result.success]: the bodies the servers send with [success: true]. *)
Definition success (b : body) : bool :=
  match b with
  | BRegistered _ _ _ | BLoggedIn _ _ _ _ _ | BInvested _ _
  | BMessage _ | BCalculated _ _ _ _ => true
  | _ => false
  end.

(** The user object of a login response, kept in [currentUser]. *)
Record view : Type := mkView {
  v_id : string;
  v_email : string;
  v_balance : jsnum;
  v_totalEarnings : jsnum;
  v_investments : list investment
}.

(** The variable [currentUser] and its copy in [localStorage]. *)
Record page : Type := mkPage {
  currentUser : option view;
  savedUser : option view
}.

(** One request: when the network works the handler runs on the server. *)
Definition request {S : Type} (net : bool) (handler : S -> response * S) (st : S)
  : option response * S :=
  if net then (let '(r, st') := handler st in (Some r, st')) else (None, st).

Section Accounts.
Variable bcrypt_hash : string -> string -> string.
Variable bcrypt_compare : string -> string -> bool.

(** [loginUser]; the only successful body of /api/login carries the user. *)
Definition loginUser (s : front) (v : variant) (net fs_ok : bool) (now : Z)
           (email_ password_ : string) (pg : page) (f : file)
  : body * page * file :=
  let '(r, f') := request net (login bcrypt_compare v fs_ok now email_ password_) f in
  let result := apiRequest s r in
  match result with
  | BLoggedIn i e b t invs =>
      let cu := mkView i e b t invs in
      (result, mkPage (Some cu) (Some cu), f')
  | _ => (result, pg, f')
  end.

(** [registerUser]: a successful registration is followed by a login. *)
Definition registerUser (s : front) (v : variant)
           (net1 fs_ok1 : bool) (now1 : Z) (salt : string)
           (net2 fs_ok2 : bool) (now2 : Z)
           (email_ password_ : string) (pg : page) (f : file)
  : body * page * file :=
  let '(r, f1) :=
    request net1 (register bcrypt_hash v fs_ok1 now1 salt email_ password_) f in
  let result := apiRequest s r in
  if success result
  then loginUser s v net2 fs_ok2 now2 email_ password_ pg f1
  else (result, pg, f1).
End Accounts.

(** [logout] *)
Definition logout (pg : page) : page := mkPage None None.

Inductive submitted : Type :=
| Alerted (message : string)
| Accepted.

(** The click handler of the submit-transaction button: the amount and
    the term are sent as the text of the form fields. *)
Definition submitTx (s : front) (v : variant) (net fs_ok : bool) (now : Z)
           (txHash amountText termText compoundType_ : string)
           (pg : page) (f : file) : submitted * page * file :=
  match currentUser pg with
  | None => (Alerted "Please login first", pg, f)
  | Some cu =>
      if all_ws txHash
      then (Alerted "Please enter your transaction hash", pg, f)
      else
        let '(r, f') :=
          request net (invest v fs_ok now (v_id cu) (JStr amountText)
                              (JStr termText) compoundType_ txHash) f in
        match apiRequest s r with
        | BInvested inv nb =>
            let cu' := mkView (v_id cu) (v_email cu) nb (v_totalEarnings cu)
                              (v_investments cu ++ [inv])%list in
            (Accepted, mkPage (Some cu') (Some cu'), f')
        | BError e =>
            (Alerted (if e =? "" then "Investment failed" else e), pg, f')
        | _ => (Alerted "Investment failed", pg, f')
        end
  end.

(** The page shows what the server holds: the account that the server
    finds under the id of [currentUser] has the email, the balance and the
    investments of [currentUser]. *)
Definition in_sync (pg : page) (f : file) : Prop :=
  forall cu, currentUser pg = Some cu ->
    exists d u,
      f = Content d /\
      find (fun w => id w =? v_id cu) (users d) = Some u /\
      email u = v_email cu /\
      balance u = v_balance cu /\
      or_empty (investments u) = v_investments cu.

End Client.

(* ================================================================== *)
(** * Accounting predicates                                            *)
(* ================================================================== *)

Module Accounting.
Import JS Ledger FileServer.

(** An investment as [/api/invest] creates it from a numeric amount and
    the ticks advance it: a principal within the limits, a finite APY (in
    the Vercel server, one of the curve) and finite earnings (in the
    Vercel server, not negative). *)
Definition sound_investment (v : variant) (inv : investment) : Prop :=
  (exists p, amount inv = Fin p /\ 500 <= p <= 1000000) /\
  (exists a, apy inv = Fin a /\ (v = Vercel -> 0.30 <= a <= 2.00)) /\
  (exists e, totalEarned inv = Some (Fin e) /\ (v = Vercel -> 0 <= e)).

(** An account in good standing: its investments are sound, its balance
    and its earnings are numbers, and the earnings do not exceed the
    balance (in the Vercel server they are not negative either).  Only
    order relations are stated; each of them is kept by an addition that
    is rounded to nearest. *)
Definition solvent (v : variant) (u : user) : Prop :=
  exists l b t,
    investments u = Some l /\
    Forall (sound_investment v) l /\
    balance u = Fin b /\
    totalEarnings u = Fin t /\
    t <= b /\
    (v = Vercel -> 0 <= t).

Definition solvent_file (v : variant) (f : file) : Prop :=
  match f with
  | Content d => Forall (solvent v) (users d)
  | _ => True
  end.

(** What a request that changes nothing leaves: the store read from the
    file is the same, and the file itself is the same when it exists (the
    Vercel server may have created a missing file). *)
Definition same_store (v : variant) (fs_ok : bool) (f f' : file) : Prop :=
  fst (readDatabase v fs_ok f') = fst (readDatabase v fs_ok f) /\
  (f <> Missing -> f' = f).

(** Two investments with the same terms: all fields but the earnings and
    the period records; two accounts with the same identity and, one by
    one, investments of the same terms. *)
Definition same_terms (inv inv' : investment) : Prop :=
  inv_id inv' = inv_id inv /\ inv_userId inv' = inv_userId inv /\
  amount inv' = amount inv /\ lockPeriod inv' = lockPeriod inv /\
  compoundType inv' = compoundType inv /\ apy inv' = apy inv /\
  transactionHash inv' = transactionHash inv /\
  startDate inv' = startDate inv /\ endDate inv' = endDate inv /\
  status inv' = status inv.

Definition same_identity (u u' : user) : Prop :=
  id u' = id u /\ email u' = email u /\ password u' = password u /\
  createdAt u' = createdAt u /\ lastLogin u' = lastLogin u /\
  transactions u' = transactions u /\ isActive u' = isActive u /\
  Forall2 same_terms (or_empty (investments u)) (or_empty (investments u')).

Section Steps.
Variable bcrypt_hash : string -> string -> string.
Variable bcrypt_compare : string -> string -> bool.

(** One request to a file-backed server; in a strict step an investment
    whose amount reads as [NaN] is left out. *)
Inductive step (strict : bool) (v : variant) : file -> file -> Prop :=
| step_register fs_ok now salt email_ password_ f :
    step strict v f (snd (register bcrypt_hash v fs_ok now salt email_ password_ f))
| step_login fs_ok now email_ password_ f :
    step strict v f (snd (login bcrypt_compare v fs_ok now email_ password_ f))
| step_invest fs_ok now userId_ amount_ lockPeriod_ compoundType_ transactionHash_ f :
    (strict = true -> isNaN (parseFloat amount_) = false) ->
    step strict v f (snd (invest v fs_ok now userId_ amount_ lockPeriod_
                                 compoundType_ transactionHash_ f))
| step_getUser fs_ok userId_ f :
    step strict v f (snd (getUser v fs_ok userId_ f))
| step_walletAddress fs_ok f :
    step strict v f (snd (walletAddress v fs_ok f))
| step_updateEarnings fs_ok now f :
    step strict v f (snd (updateEarnings v fs_ok now f)).

(** The stores a server can reach, by strict steps, from a data file that
    is missing, corrupt or holds no account. *)
Inductive reachable (v : variant) : file -> Prop :=
| reach_missing : reachable v Missing
| reach_corrupt : reachable v Corrupt
| reach_empty s : reachable v (Content (mkDb [] s))
| reach_step f f' : reachable v f -> step true v f f' -> reachable v f'.

(** Any sequence of requests. *)
Inductive run (v : variant) : file -> file -> Prop :=
| run_done f : run v f f
| run_step f f' f'' : run v f f' -> step false v f' f'' -> run v f f''.
End Steps.

End Accounting.

(* ================================================================== *)
(** * Sample data                                                      *)
(* ================================================================== *)

Module Samples.
Import JS Ledger.
Local Open Scope string_scope.

(** An account as [/api/register] of a file-backed server leaves it. *)
Definition alice : user :=
  mkUser "user_1" "alice@example.com" "$2a$10$stored" (Some 0%Z) (Some 0%Z)
         (Fin 0) (Fin 0) (Some []) None (Some true).

Definition store1 : db := mkDb [alice] (Some (mkSettings wallet)).

(** An active investment of 1000 at an APY of 0.30, and an account that
    holds it. *)
Definition sample_investment : investment :=
  mkInvestment "inv_1" "user_2" (Fin 1000) (Fin 3) "monthly" (Fin 0.30)
               "0xabc" 0 (Some 7776000000%Z) "active" (Some (Fin 0)) (Some []).

Definition carol : user :=
  mkUser "user_2" "carol@example.com" "$2a$10$stored" (Some 0%Z) (Some 0%Z)
         (Fin 1000) (Fin 0) (Some [sample_investment]) None (Some true).

End Samples.

(* ================================================================== *)
(** * Properties                                                       *)
(* ================================================================== *)

Import JS Curve Calculator Ledger.

(** ** Deciding comparisons of reals *)

Lemma Rltb_true (x y : R) : x < y -> Rltb x y = true.
Proof. intros H; unfold Rltb; destruct (Rlt_dec x y); [reflexivity | contradiction]. Qed.

Lemma Rltb_false (x y : R) : y <= x -> Rltb x y = false.
Proof. intros H; unfold Rltb; destruct (Rlt_dec x y); [lra | reflexivity]. Qed.

Lemma Rleb_true (x y : R) : x <= y -> Rleb x y = true.
Proof. intros H; unfold Rleb; destruct (Rle_dec x y); [reflexivity | contradiction]. Qed.

Lemma Rleb_false (x y : R) : y < x -> Rleb x y = false.
Proof. intros H; unfold Rleb; destruct (Rle_dec x y); [lra | reflexivity]. Qed.

Lemma Reqb_true (x y : R) : x = y -> Reqb x y = true.
Proof. intros H; unfold Reqb; destruct (Req_dec_T x y); [reflexivity | contradiction]. Qed.

Lemma Reqb_false (x y : R) : x <> y -> Reqb x y = false.
Proof. intros H; unfold Reqb; destruct (Req_dec_T x y); [contradiction | reflexivity]. Qed.

(** Settles every comparison in the goal that [lra] can decide. *)
Ltac rdecide :=
  repeat match goal with
    | |- context [Rltb ?x ?y] =>
        first [ rewrite (Rltb_true x y) by lra | rewrite (Rltb_false x y) by lra ]
    | |- context [Rleb ?x ?y] =>
        first [ rewrite (Rleb_true x y) by lra | rewrite (Rleb_false x y) by lra ]
    | |- context [Reqb ?x ?y] =>
        first [ rewrite (Reqb_true x y) by lra | rewrite (Reqb_false x y) by lra ]
    end.

Lemma Fin_eq (x y : R) : x = y -> Fin x = Fin y.
Proof. intros ->; reflexivity. Qed.

(** ** The curve *)

Lemma clamp_Fin (t : R) :
  clamp (Fin t) minMonths maxMonths = Fin (Rclamp t 3 24).
Proof.
  unfold clamp, minMonths, maxMonths, Rclamp, max, min, lt.
  unfold Rmax, Rmin.
  destruct (Rle_dec t 3) as [H3 | H3].
  - destruct (Rle_dec 3 24) as [_ | H]; [| lra].
    destruct (Req_dec_T t 3) as [-> | Hne].
    + rdecide. reflexivity.
    + rewrite (Rltb_true t 3) by lra. rdecide. reflexivity.
  - rewrite (Rltb_false t 3) by lra.
    destruct (Rle_dec t 24) as [H24 | H24].
    + rewrite (Rltb_false 24 t) by lra. reflexivity.
    + rewrite (Rltb_true 24 t) by lra. reflexivity.
Qed.

Lemma apyFromTerm_Fin (t : R) : apyFromTerm (Fin t) = Fin (apy_spec t).
Proof.
  unfold apyFromTerm. rewrite clamp_Fin.
  unfold minMonths, maxMonths, minApy, maxApy, apy_spec.
  cbn [sub neg add div mul].
  rdecide.
  cbn [mul add]. reflexivity.
Qed.

Lemma Rclamp_cases (t : R) :
  (t <= 3 /\ Rclamp t 3 24 = 3) \/
  (3 <= t <= 24 /\ Rclamp t 3 24 = t) \/
  (24 <= t /\ Rclamp t 3 24 = 24).
Proof.
  unfold Rclamp, Rmax, Rmin.
  destruct (Rle_dec t 3); destruct (Rle_dec 3 24); destruct (Rle_dec t 24);
    lra.
Qed.

Lemma apy_spec_monotone (a b : R) : a <= b -> apy_spec a <= apy_spec b.
Proof.
  intros Hab. unfold apy_spec.
  destruct (Rclamp_cases a) as [[Ha ->] | [[Ha ->] | [Ha ->]]];
    destruct (Rclamp_cases b) as [[Hb ->] | [[Hb ->] | [Hb ->]]]; lra.
Qed.

Lemma apy_spec_linear (t : R) :
  3 <= t <= 24 -> apy_spec t = 0.30 + (t - 3) * ((2.00 - 0.30) / (24 - 3)).
Proof.
  intros Ht. unfold apy_spec.
  destruct (Rclamp_cases t) as [[H ->] | [[H ->] | [H ->]]]; lra.
Qed.

Lemma apy_spec_range (t : R) : 0.30 <= apy_spec t <= 2.00.
Proof.
  unfold apy_spec.
  destruct (Rclamp_cases t) as [[H ->] | [[H ->] | [H ->]]]; lra.
Qed.

(** C2. For every term, [apyFromTerm] is the linear interpolation
    [0.30 + (clamp(term, 3, 24) - 3) / (24 - 3) * (2.00 - 0.30)]; it is
    0.30 at 3, 2.00 at 24 and 1.15 at 13.5, a term of 1 gets the APY of 3
    and a term of 100 that of 24, and the curve is non-decreasing, and
    linear on [3,24]. *)
Theorem apyFromTerm_interpolates :
  (forall t : R,
      apyFromTerm (Fin t)
      = Fin (0.30 + (Rclamp t 3 24 - 3) / (24 - 3) * (2.00 - 0.30))) /\
  apyFromTerm (Fin 3) = Fin 0.30 /\
  apyFromTerm (Fin 24) = Fin 2.00 /\
  apyFromTerm (Fin 13.5) = Fin 1.15 /\
  apyFromTerm (Fin 1) = apyFromTerm (Fin 3) /\
  apyFromTerm (Fin 100) = apyFromTerm (Fin 24) /\
  (forall a b : R, a <= b ->
      exists x y, apyFromTerm (Fin a) = Fin x /\ apyFromTerm (Fin b) = Fin y
                  /\ x <= y) /\
  (forall t : R, 3 <= t <= 24 ->
      apyFromTerm (Fin t) = Fin (0.30 + (t - 3) * ((2.00 - 0.30) / (24 - 3)))).
Proof.
  repeat split.
  - intros t. apply apyFromTerm_Fin.
  - rewrite apyFromTerm_Fin. apply Fin_eq.
    rewrite apy_spec_linear by lra. lra.
  - rewrite apyFromTerm_Fin. apply Fin_eq.
    rewrite apy_spec_linear by lra. lra.
  - rewrite apyFromTerm_Fin. apply Fin_eq.
    rewrite apy_spec_linear by lra. lra.
  - rewrite !apyFromTerm_Fin. apply Fin_eq. unfold apy_spec.
    destruct (Rclamp_cases 1) as [[H ->] | [[H ->] | [H ->]]];
      destruct (Rclamp_cases 3) as [[H' ->] | [[H' ->] | [H' ->]]]; lra.
  - rewrite !apyFromTerm_Fin. apply Fin_eq. unfold apy_spec.
    destruct (Rclamp_cases 100) as [[H ->] | [[H ->] | [H ->]]];
      destruct (Rclamp_cases 24) as [[H' ->] | [[H' ->] | [H' ->]]]; lra.
  - intros a b Hab. exists (apy_spec a), (apy_spec b).
    rewrite !apyFromTerm_Fin. repeat split. now apply apy_spec_monotone.
  - intros t Ht. rewrite apyFromTerm_Fin. apply Fin_eq.
    now apply apy_spec_linear.
Qed.

(** Outside the reals the curve saturates or propagates: an infinite
    term is clamped, [NaN] stays [NaN]. *)
Lemma apyFromTerm_special :
  apyFromTerm PInf = Fin 2.00 /\ apyFromTerm NInf = Fin 0.30 /\
  apyFromTerm NaN = NaN.
Proof.
  unfold apyFromTerm, clamp, minMonths, maxMonths, minApy, maxApy.
  cbn [max min lt sub neg add].
  repeat split.
  - unfold div. rdecide. cbn [mul add]. apply Fin_eq. field.
  - rdecide. cbn [sub neg add]. unfold div. rdecide. cbn [mul add].
    apply Fin_eq. field.
Qed.

Lemma apyFromTerm_interpolates_witness :
  (exists x y, apyFromTerm (Fin 3) = Fin x /\ apyFromTerm (Fin 24) = Fin y /\ x <= y)
  /\ apyFromTerm (Fin 12) = Fin (0.30 + (12 - 3) * ((2.00 - 0.30) / (24 - 3))).
Proof.
  split.
  - apply (proj1 (proj2 (proj2 (proj2 (proj2 (proj2 (proj2
             apyFromTerm_interpolates))))))). lra.
  - apply (proj2 (proj2 (proj2 (proj2 (proj2 (proj2 (proj2
             apyFromTerm_interpolates))))))). lra.
Defined.

(** ** Reading the text of form fields and request values *)

(** Runs the string readers on a literal and leaves the arithmetic on
    the reals to [lra]. *)
Ltac read_text :=
  cbv - [IZR powerRZ Rmult Ropp Rplus Rminus Rinv Rdiv INR];
  try (apply Fin_eq; simpl; lra).

Lemma Rfloor_IZR (z : Z) : Rfloor (IZR z) = z.
Proof.
  unfold Rfloor.
  rewrite <- (up_tech (IZR z) z); [lia | lra |].
  rewrite plus_IZR. lra.
Qed.

Lemma Rtrunc_IZR (z : Z) : Rtrunc (IZR z) = z.
Proof.
  unfold Rtrunc, Rltb.
  destruct (Rlt_dec (IZR z) 0).
  - rewrite <- opp_IZR, Rfloor_IZR. lia.
  - apply Rfloor_IZR.
Qed.

(** ** The projection *)

Lemma pow_Fin_pos (x y : R) :
  0 < x -> pow (Fin x) (Fin y) = Fin (Rpower x y).
Proof.
  intros Hx. unfold pow.
  destruct (Req_dec_T y 0) as [-> | Hy].
  - rdecide. now rewrite Rpower_O.
  - rdecide. reflexivity.
Qed.

Lemma pow_Fin_root (x k : R) :
  0 < x -> k <> 0 -> pow (Fin x) (div (Fin 1) (Fin k)) = Fin (Rpower x (1 / k)).
Proof.
  intros Hx Hk. unfold div. rdecide. now apply pow_Fin_pos.
Qed.

Lemma one_plus_apy_pos (t : R) : 0 < 1 + apy_spec t.
Proof. pose proof (apy_spec_range t). lra. Qed.


(** The amount check the four browser calculators share. *)
Lemma amount_in_range (p : R) :
  500 <= p <= 1000000 ->
  isNaN (Fin p) || lt (Fin p) (Fin 500) || gt (Fin p) (Fin 1000000) = false.
Proof. intros Hp. unfold gt, lt, isNaN. rdecide. reflexivity. Qed.

Lemma calc_canonical_monthly (v : script) (p t : R) (amountText termText : string) :
  v <> LegacyScript ->
  500 <= p <= 1000000 ->
  ToNumber_str amountText = Fin p ->
  ToNumber_str termText = Fin t ->
  calc v amountText termText "monthly"
  = ShowResult (Fin (apy_spec t))
               (Fin (project_final p (apy_spec t) t monthly))
               (Fin (project_final p (apy_spec t) t monthly - p)).
Proof.
  intros Hv Hp Ha Ht. unfold calc.
  rewrite Ha, Ht, (amount_in_range p Hp), apyFromTerm_Fin.
  change ("monthly" =? "monthly")%string with true. cbv iota.
  assert (E : mul (Fin p) (pow (add (Fin 1) (Fin (apy_spec t))) (Fin t))
              = Fin (project_final p (apy_spec t) t monthly)).
  { cbn [add]. rewrite pow_Fin_pos by apply one_plus_apy_pos. reflexivity. }
  destruct v; try contradiction; rewrite E; reflexivity.
Qed.

Lemma calc_simple (v : script) (p t : R) (amountText termText comp : string) :
  (comp =? "monthly")%string = false ->
  500 <= p <= 1000000 ->
  ToNumber_str amountText = Fin p ->
  ToNumber_str termText = Fin t ->
  calc v amountText termText comp
  = ShowResult (Fin (apy_spec t))
               (Fin (project_final p (apy_spec t) t simple))
               (Fin (project_final p (apy_spec t) t simple - p)).
Proof.
  intros Hc Hp Ha Ht. unfold calc.
  rewrite Ha, Ht, (amount_in_range p Hp), apyFromTerm_Fin, Hc.
  cbv iota.
  assert (E : mul (Fin p) (add (Fin 1) (mul (Fin (apy_spec t))
                                           (div (Fin t) (Fin 12))))
              = Fin (project_final p (apy_spec t) t simple)).
  { unfold div. rdecide. cbn [mul add]. apply Fin_eq.
    unfold project_final. lra. }
  destruct v; cbv zeta; rewrite E; reflexivity.
Qed.

(** The oldest script compounds with the effective monthly rate: over
    [t] months the principal grows by [(1 + apy)^(t/12)]. *)
Lemma calc_legacy_monthly (p t : R) (amountText termText : string) :
  500 <= p <= 1000000 ->
  ToNumber_str amountText = Fin p ->
  ToNumber_str termText = Fin t ->
  calc LegacyScript amountText termText "monthly"
  = ShowResult (Fin (apy_spec t))
               (Fin (p * Rpower (1 + apy_spec t) (t / 12)))
               (Fin (p * Rpower (1 + apy_spec t) (t / 12) - p)).
Proof.
  intros Hp Ha Ht. unfold calc.
  rewrite Ha, Ht, (amount_in_range p Hp), apyFromTerm_Fin.
  change ("monthly" =? "monthly")%string with true. cbv iota zeta.
  pose proof (one_plus_apy_pos t) as Hpos.
  cbn [add]. rewrite pow_Fin_root by lra.
  cbn [sub neg add].
  set (r := Rpower (1 + apy_spec t) (1 / 12)).
  assert (Hr : 0 < r) by (unfold r, Rpower; apply exp_pos).
  replace (1 + (r + - (1))) with r by lra.
  rewrite pow_Fin_pos by assumption. unfold r.
  rewrite Rpower_mult.
  replace (1 / 12 * t) with (t / 12) by lra.
  reflexivity.
Qed.






Lemma text_1000 : ToNumber_str "1000" = Fin 1000.
Proof. read_text. Qed.

Lemma text_12 : ToNumber_str "12" = Fin 12.
Proof. read_text. Qed.


Lemma parseFloat_text_1000 : parseFloat (JStr "1000") = Fin 1000.
Proof. read_text. Qed.



(** ** The accrual tick *)

Import FileServer.

Lemma bernoulli_strict (x : R) (n : nat) :
  0 < x -> (2 <= n)%nat -> 1 + INR n * x < (1 + x) ^ n.
Proof.
  intros Hx Hn. induction Hn as [| m Hm IH].
  - simpl. nra.
  - rewrite S_INR. simpl.
    assert (0 < INR m) by (apply lt_0_INR; lia).
    nra.
Qed.

(** A rate compounded over [n >= 2] periods is strictly below the
    pro-rated rate. *)
Lemma compound_rate_below_simple (a : R) (n : nat) :
  0 < a -> (2 <= n)%nat -> Rpower (1 + a) (1 / INR n) - 1 < a / INR n.
Proof.
  intros Ha Hn.
  assert (Hn0 : 0 < INR n) by (apply lt_0_INR; lia).
  assert (Hx : 0 < a / INR n) by (apply Rdiv_lt_0_compat; lra).
  pose proof (bernoulli_strict (a / INR n) n Hx Hn) as B.
  replace (INR n * (a / INR n)) with a in B by (field; lra).
  assert (Hy : 0 < 1 + a / INR n) by lra.
  assert (Hinv : 0 < 1 / INR n) by (apply Rdiv_lt_0_compat; lra).
  assert (L : Rpower (1 + a) (1 / INR n)
              < Rpower ((1 + a / INR n) ^ n) (1 / INR n)).
  { apply Rlt_Rpower_l; [assumption | lra]. }
  rewrite <- Rpower_pow, Rpower_mult in L by assumption.
  replace (INR n * (1 / INR n)) with 1 in L by (field; lra).
  rewrite Rpower_1 in L by assumption.
  lra.
Qed.

Lemma period_earnings_Local (inv : investment) (p a n : R) :
  amount inv = Fin p -> apy inv = Fin a -> n <> 0 ->
  period_earnings Local n inv = Fin (p * a / n).
Proof.
  intros Hp Ha Hn. unfold period_earnings. rewrite Hp, Ha.
  unfold div. cbn [mul]. rdecide. reflexivity.
Qed.

Lemma period_earnings_Vercel (inv : investment) (p a n : R) :
  amount inv = Fin p -> apy inv = Fin a -> 0 < 1 + a -> 0 < n ->
  period_earnings Vercel n inv = Fin (p * (Rpower (1 + a) (1 / n) - 1)).
Proof.
  intros Hp Ha Hpos Hn. unfold period_earnings. rewrite Hp, Ha.
  cbn [add]. rewrite pow_Fin_root by lra. reflexivity.
Qed.

Lemma accrue_investment_snd (v : variant) (now : Z) (acc : jsnum * jsnum)
      (inv : investment) :
  snd (accrue_investment v now acc inv) = accrued v now inv.
Proof. unfold accrued, accrue_investment. destruct (is_active inv); reflexivity. Qed.

Lemma accrue_investment_active (v : variant) (now : Z) (acc : jsnum * jsnum)
      (inv : investment) :
  is_active inv = true ->
  accrue_investment v now acc inv
  = ((add (fst acc) (period_earnings v 365 inv),
      add (snd acc) (period_earnings v 365 inv)),
     mkInvestment (inv_id inv) (inv_userId inv) (amount inv) (lockPeriod inv)
       (compoundType inv) (apy inv) (transactionHash inv) (startDate inv)
       (endDate inv) (status inv)
       (Some (plus_assign (totalEarned inv) (period_earnings v 365 inv)))
       (Some (or_empty (weeklyEarnings inv)
              ++ [mkWeekData ((now - startDate inv) / 604800000)%Z
                             (period_earnings v 365 inv) now]))).
Proof. intros H. unfold accrue_investment. rewrite H. reflexivity. Qed.

Lemma accrue_investment_inactive (v : variant) (now : Z) (acc : jsnum * jsnum)
      (inv : investment) :
  is_active inv = false -> accrue_investment v now acc inv = (acc, inv).
Proof. intros H. unfold accrue_investment. rewrite H. reflexivity. Qed.

Lemma accrue_investments_spec (v : variant) (now : Z) (l : list investment) :
  forall b t,
    accrue_investments v now (b, t) l
    = ((fold_left add (deltas v l) b, fold_left add (deltas v l) t),
       map (accrued v now) l).
Proof.
  induction l as [| inv r IH]; intros b t.
  - reflexivity.
  - cbn [accrue_investments].
    pose proof (accrue_investment_snd v now (b, t) inv) as Hs.
    destruct (is_active inv) eqn:Hact.
    + rewrite (accrue_investment_active v now (b, t) inv Hact) in *.
      cbn [snd fst] in *. rewrite IH.
      unfold deltas. cbn [filter]. rewrite Hact. cbn [map fold_left].
      rewrite <- Hs. reflexivity.
    + rewrite (accrue_investment_inactive v now (b, t) inv Hact) in *.
      cbn [snd] in Hs. rewrite IH.
      unfold deltas. cbn [filter]. rewrite Hact. cbn [map].
      rewrite <- Hs. reflexivity.
Qed.

Lemma accrue_user_spec (v : variant) (now : Z) (u : user) (l : list investment) :
  investments u = Some l ->
  accrue_user v now u
  = mkUser (id u) (email u) (password u) (createdAt u) (lastLogin u)
           (fold_left add (deltas v l) (balance u))
           (fold_left add (deltas v l) (totalEarnings u))
           (Some (map (accrued v now) l)) (transactions u) (isActive u).
Proof.
  intros H. unfold accrue_user. rewrite H, accrue_investments_spec. reflexivity.
Qed.

Lemma no_active_deltas (v : variant) (l : list investment) :
  (forall inv, In inv l -> is_active inv = false) -> deltas v l = [].
Proof.
  intros H. unfold deltas.
  induction l as [| inv r IH]; [reflexivity |].
  cbn [filter]. rewrite (H inv) by (left; reflexivity).
  apply IH. intros i Hi. apply H. right. exact Hi.
Qed.

Lemma no_active_accrued (v : variant) (now : Z) (l : list investment) :
  (forall inv, In inv l -> is_active inv = false) -> map (accrued v now) l = l.
Proof.
  intros H. induction l as [| inv r IH]; [reflexivity |].
  cbn [map]. rewrite IH by (intros i Hi; apply H; right; exact Hi).
  unfold accrued.
  rewrite accrue_investment_inactive by (apply H; left; reflexivity).
  reflexivity.
Qed.

Lemma accrue_user_idle (v : variant) (now : Z) (u : user) :
  (forall inv, In inv (or_empty (investments u)) -> is_active inv = false) ->
  accrue_user v now u = u.
Proof.
  intros H. destruct (investments u) as [l |] eqn:E.
  - rewrite (accrue_user_spec v now u l E).
    cbn [or_empty] in H.
    rewrite no_active_deltas, no_active_accrued by assumption.
    cbn [fold_left]. rewrite <- E. destruct u; reflexivity.
  - unfold accrue_user. rewrite E. reflexivity.
Qed.

Lemma updateEarnings_written (v : variant) (now : Z) (d : db) :
  updateEarnings v true now (Content d)
  = (Json 200 (BMessage "Earnings updated for all users"),
     Content (set_users d (map (accrue_user v now) (users d)))).
Proof. reflexivity. Qed.

(** C3, as the sources have it.  One accrual tick rewrites the store with
    every account advanced.  For an active investment the tick adds its
    gain to the investment's [totalEarned] and to the owner's [balance] and
    [totalEarnings], and appends one period record; the gain is
    principal * apy / 365 in the plain file-backed server and
    principal * ((1 + apy)^(1/365) - 1), a compounded daily rate, in the
    Vercel server.  An investment that is not active is left as it is, and
    an account none of whose investments is active is left as it is. *)
Theorem accrual_tick (v : variant) (now : Z) :
  (forall d : db,
      updateEarnings v true now (Content d)
      = (Json 200 (BMessage "Earnings updated for all users"),
         Content (set_users d (map (accrue_user v now) (users d))))) /\
  (forall (u : user) (l : list investment),
      investments u = Some l ->
      accrue_user v now u
      = mkUser (id u) (email u) (password u) (createdAt u) (lastLogin u)
               (fold_left add (deltas v l) (balance u))
               (fold_left add (deltas v l) (totalEarnings u))
               (Some (map (accrued v now) l)) (transactions u) (isActive u)) /\
  (forall (acc : jsnum * jsnum) (inv : investment),
      is_active inv = true ->
      let earned_delta := period_earnings v 365 inv in
      accrue_investment v now acc inv
      = ((add (fst acc) earned_delta, add (snd acc) earned_delta),
         mkInvestment (inv_id inv) (inv_userId inv) (amount inv) (lockPeriod inv)
           (compoundType inv) (apy inv) (transactionHash inv) (startDate inv)
           (endDate inv) (status inv)
           (Some (plus_assign (totalEarned inv) earned_delta))
           (Some (or_empty (weeklyEarnings inv)
                  ++ [mkWeekData ((now - startDate inv) / 604800000)%Z
                                 earned_delta now]))) /\
      accrued v now inv = snd (accrue_investment v now acc inv)) /\
  (forall (acc : jsnum * jsnum) (inv : investment),
      is_active inv = false ->
      accrue_investment v now acc inv = (acc, inv) /\ accrued v now inv = inv) /\
  (forall u : user,
      (forall inv, In inv (or_empty (investments u)) -> is_active inv = false) ->
      accrue_user v now u = u) /\
  (forall (inv : investment) (p a : R),
      amount inv = Fin p -> apy inv = Fin a -> 0 < 1 + a ->
      period_earnings Local 365 inv = Fin (p * a / 365) /\
      period_earnings Vercel 365 inv = Fin (p * (Rpower (1 + a) (1 / 365) - 1))).
Proof.
  split; [| split; [| split; [| split; [| split]]]].
  - intros d. apply updateEarnings_written.
  - intros u l H. now apply accrue_user_spec.
  - intros acc inv H earned_delta. split.
    + now apply accrue_investment_active.
    + symmetry. apply accrue_investment_snd.
  - intros acc inv H. split.
    + now apply accrue_investment_inactive.
    + unfold accrued. now rewrite accrue_investment_inactive.
  - intros u H. now apply accrue_user_idle.
  - intros inv p a Hp Ha Hpos. split.
    + apply period_earnings_Local; [assumption | assumption | lra].
    + apply period_earnings_Vercel; [assumption | assumption | assumption | lra].
Qed.

Lemma accrual_tick_witness :
  let inv :=
    mkInvestment "inv_1" "user_1" (Fin 1000) (Fin 3) "monthly" (Fin 0.30)
                 "0xabc" 0 (Some 7776000000%Z) "active" (Some (Fin 0))
                 (Some []) in
  period_earnings Local 365 inv = Fin (1000 * 0.30 / 365) /\
  period_earnings Vercel 365 inv
  = Fin (1000 * (Rpower (1 + 0.30) (1 / 365) - 1)).
Proof.
  intros inv.
  apply (proj2 (proj2 (proj2 (proj2 (proj2 (accrual_tick Local 0%Z)))))
               inv 1000 0.30 eq_refl eq_refl).
  lra.
Defined.

(** C3 fails as stated: in the Vercel server an active investment of 1000
    at an APY of 0.30 does not earn 1000 * 0.30 / 365 in a tick. *)
Lemma vercel_tick_counterexample :
  let inv :=
    mkInvestment "inv_1" "user_1" (Fin 1000) (Fin 3) "monthly" (Fin 0.30)
                 "0xabc" 0 (Some 7776000000%Z) "active" (Some (Fin 0))
                 (Some []) in
  exists d : R,
    fst (accrue_investment Vercel 86400000 (Fin 0, Fin 0) inv) = (Fin d, Fin d)
    /\ d <> 1000 * 0.30 * (1 / 365).
Proof.
  intros inv.
  exists (0 + 1000 * (Rpower (1 + 0.30) (1 / 365) - 1)). split.
  - rewrite accrue_investment_active by reflexivity.
    rewrite (period_earnings_Vercel inv 1000 0.30 365) by (reflexivity || lra).
    reflexivity.
  - pose proof (compound_rate_below_simple 0.30 365) as H.
    replace (INR 365) with 365 in H by (rewrite INR_IZR_INZ; reflexivity).
    assert (Rpower (1 + 0.30) (1 / 365) - 1 < 0.30 / 365) by (apply H; [lra | lia]).
    lra.
Qed.

(** ** Creating an investment *)

Lemma find_update_first {A : Type} (p : A -> bool) (y : A) (l : list A) (x : A) :
  find p l = Some x -> p y = true ->
  find p (update_first p (fun _ => y) l) = Some y.
Proof.
  intros Hf Hy. induction l as [| z r IH]; [discriminate |].
  cbn [find update_first] in *. destruct (p z) eqn:Hz.
  - cbn [find]. now rewrite Hy.
  - cbn [find]. rewrite Hz. now apply IH.
Qed.

(** The amount test of the three servers, case by case: [NaN] passes. *)
Lemma amount_test (x : jsnum) :
  lt x (Fin 500) || gt x (Fin 1000000)
  = match x with
    | NaN => false
    | PInf | NInf => true
    | Fin r => negb (Rleb 500 r && Rleb r 1000000)
    end.
Proof.
  destruct x as [| | | r]; try reflexivity.
  unfold gt, lt.
  destruct (Rlt_dec r 500); [rdecide; reflexivity |].
  destruct (Rlt_dec 1000000 r); rdecide; reflexivity.
Qed.

Lemma invest_accepts (v : variant) (now : Z) (userId_ : string)
      (amount_ lockPeriod_ : jsval) (compoundType_ transactionHash_ : string)
      (f : file) (d : db) (u : user) (ends : Z) :
  missing userId_ = false -> truthy amount_ = true ->
  truthy lockPeriod_ = true -> missing transactionHash_ = false ->
  fst (readDatabase v true f) = d ->
  find (fun u => (id u =? userId_)%string) (users d) = Some u ->
  lt (parseFloat amount_) (Fin 500) || gt (parseFloat amount_) (Fin 1000000) = false ->
  toISOString (end_time now lockPeriod_) = Some ends ->
  let inv := new_investment v now userId_ amount_ lockPeriod_ compoundType_
                            transactionHash_ ends in
  let u' := deposit u inv (new_transaction now amount_ transactionHash_) in
  invest v true now userId_ amount_ lockPeriod_ compoundType_ transactionHash_ f
  = (Json 200 (BInvested inv (balance u')),
     Content (set_users d (update_first (fun u => (id u =? userId_)%string)
                                        (fun _ => u') (users d)))).
Proof.
  intros Hu Ha Hl Ht Hd Hf Hamt He inv u'. unfold invest.
  rewrite Hu, Ha, Hl, Ht. cbn [negb orb].
  destruct (readDatabase v true f) as [d0 f1]. cbn [fst] in Hd. subst d0.
  rewrite Hf, Hamt, He. reflexivity.
Qed.

Lemma invest_success (v : variant) (fs_ok : bool) (now : Z) (userId_ : string)
      (amount_ lockPeriod_ : jsval) (compoundType_ transactionHash_ : string)
      (f f' : file) (inv : investment) (nb : jsnum) :
  invest v fs_ok now userId_ amount_ lockPeriod_ compoundType_ transactionHash_ f
  = (Json 200 (BInvested inv nb), f') ->
  exists (u : user) (ends : Z),
    let d := fst (readDatabase v fs_ok f) in
    let u' := deposit u inv (new_transaction now amount_ transactionHash_) in
    find (fun u => (id u =? userId_)%string) (users d) = Some u /\
    truthy amount_ = true /\ truthy lockPeriod_ = true /\
    lt (parseFloat amount_) (Fin 500) || gt (parseFloat amount_) (Fin 1000000) = false /\
    toISOString (end_time now lockPeriod_) = Some ends /\
    inv = new_investment v now userId_ amount_ lockPeriod_ compoundType_
                         transactionHash_ ends /\
    nb = balance u' /\
    f' = Content (set_users d (update_first (fun u => (id u =? userId_)%string)
                                            (fun _ => u') (users d))).
Proof.
  unfold invest. intros H.
  destruct (missing userId_); [discriminate |].
  destruct (truthy amount_); [| discriminate].
  destruct (truthy lockPeriod_); [| discriminate].
  destruct (missing transactionHash_); [discriminate |].
  cbn [negb orb] in H.
  destruct (readDatabase v fs_ok f) as [d f1]. cbn [fst].
  destruct (find (fun u => (id u =? userId_)%string) (users d)) as [u |];
    [| discriminate].
  destruct (lt (parseFloat amount_) (Fin 500) || gt (parseFloat amount_) (Fin 1000000));
    [discriminate |].
  destruct (toISOString (end_time now lockPeriod_)) as [ends |]; [| discriminate].
  unfold writeDatabase in H. destruct fs_ok; [| discriminate].
  injection H as <- <- <-.
  exists u, ends. repeat split; reflexivity.
Qed.

Lemma memory_invest_success (now : Z) (userId_ : string)
      (amount_ lockPeriod_ : jsval) (compoundType_ transactionHash_ : string)
      (us us' : list user) (inv : investment) (nb : jsnum) :
  MemoryServer.invest now userId_ amount_ lockPeriod_ compoundType_
                      transactionHash_ us
  = (Json 200 (BInvested inv nb), us') ->
  exists u : user,
    find (fun u => (id u =? userId_)%string) us = Some u /\
    lockPeriod inv = parseInt lockPeriod_ /\
    apy inv = apyFromTerm (ToNumber lockPeriod_) /\
    us' = update_first (fun u => (id u =? userId_)%string)
                       (fun _ => MemoryServer.deposit u inv) us.
Proof.
  unfold MemoryServer.invest. intros H.
  destruct (missing userId_ || negb (truthy amount_) || negb (truthy lockPeriod_)
            || missing transactionHash_); [discriminate |].
  destruct (find (fun u => (id u =? userId_)%string) us) as [u |]; [| discriminate].
  destruct (lt (parseFloat amount_) (Fin 500) || gt (parseFloat amount_) (Fin 1000000));
    [discriminate |].
  injection H as <- <- <-.
  exists u. repeat split; reflexivity.
Qed.

(** The end date of an investment whose term reads as a whole number. *)
Lemma end_time_whole (now k : Z) (lockPeriod_ : jsval) :
  ToNumber lockPeriod_ = Fin (IZR k) ->
  end_time now lockPeriod_ = Fin (IZR (now + k * 2592000000)).
Proof.
  intros H. unfold end_time. rewrite H. cbn [mul add]. apply Fin_eq.
  rewrite plus_IZR, mult_IZR. lra.
Qed.

Lemma toISOString_whole (z : Z) :
  (Z.abs z <= 8640000000000000)%Z -> toISOString (Fin (IZR z)) = Some z.
Proof.
  intros H. unfold toISOString.
  rewrite Rleb_true, Rtrunc_IZR; [reflexivity |].
  rewrite <- abs_IZR. now apply IZR_le.
Qed.

Import Samples.

Lemma text_term_12 : ToNumber (JStr "12") = Fin (IZR 12).
Proof. read_text. Qed.

Lemma text_term_1 : ToNumber (JStr "1") = Fin (IZR 1).
Proof. read_text. Qed.

Lemma parseFloat_text_abc : parseFloat (JStr "abc") = NaN.
Proof. reflexivity. Qed.

Lemma amount_1000_passes :
  lt (parseFloat (JStr "1000")) (Fin 500)
  || gt (parseFloat (JStr "1000")) (Fin 1000000) = false.
Proof.
  rewrite parseFloat_text_1000, amount_test. rdecide. reflexivity.
Qed.

(** ** The amount check *)

(** C5 at the failing input.  With the amount ["abc"], which [parseFloat]
    reads as [NaN], every server accepts the investment, stores the amount
    [NaN] and turns the balance of the account into [NaN]; the projection
    of the Vercel server answers 200 with a final amount of [NaN]. *)
Theorem nan_amount_is_accepted :
  let now := 1700000000000%Z in
  (forall v : variant,
      exists inv d',
        invest v true now "user_1" (JStr "abc") (JStr "12") "monthly" "0xabc"
               (Content store1)
        = (Json 200 (BInvested inv NaN), Content d')
        /\ amount inv = NaN /\ map balance (users d') = [NaN]) /\
  (exists inv us',
      MemoryServer.invest now "user_1" (JStr "abc") (JStr "12") "monthly"
                          "0xabc" [alice]
      = (Json 200 (BInvested inv NaN), us')
      /\ amount inv = NaN /\ map balance us' = [NaN]) /\
  (exists a m,
      calculate (JStr "abc") (JStr "12") "monthly"
      = Json 200 (BCalculated a NaN NaN m)).
Proof.
  intros now. split; [| split].
  - intros v. eexists _, _. split; [| split].
    + apply (invest_accepts v now "user_1" (JStr "abc") (JStr "12") "monthly"
                            "0xabc" (Content store1) store1 alice);
        try reflexivity.
      rewrite (end_time_whole now 12) by apply text_term_12.
      apply toISOString_whole. lia.
    + reflexivity.
    + reflexivity.
  - eexists _, _. split; [reflexivity | split; reflexivity].
  - eexists _, _. reflexivity.
Qed.

(** The boundaries of the amount check: 499 and 1,000,001 are rejected,
    500 and 1,000,000 pass, both infinities are rejected. *)
Lemma amount_boundaries :
  lt (Fin 499) (Fin 500) || gt (Fin 499) (Fin 1000000) = true /\
  lt (Fin 1000001) (Fin 500) || gt (Fin 1000001) (Fin 1000000) = true /\
  lt (Fin 500) (Fin 500) || gt (Fin 500) (Fin 1000000) = false /\
  lt (Fin 1000000) (Fin 500) || gt (Fin 1000000) (Fin 1000000) = false /\
  lt PInf (Fin 500) || gt PInf (Fin 1000000) = true /\
  lt NInf (Fin 500) || gt NInf (Fin 1000000) = true.
Proof. rewrite !amount_test. rdecide. repeat split; reflexivity. Qed.

(** The browser calculators test [Number.isNaN] first and do reject it. *)
Lemma calc_rejects_nan (v : script) (termText comp : string) :
  calc v "abc" termText comp = ShowError.
Proof. reflexivity. Qed.

(** ** The stored term *)

Lemma deposit_id (u : user) (inv : investment) (tx : transaction) :
  id (deposit u inv tx) = id u.
Proof. reflexivity. Qed.

Lemma curve_apy_in_range (l : jsval) (t : R) :
  ToNumber l = Fin t ->
  exists x, apyFromTerm (ToNumber l) = Fin x /\ 0.30 <= x <= 2.00.
Proof.
  intros ->. exists (apy_spec t). split;
    [apply apyFromTerm_Fin | apply apy_spec_range].
Qed.

(** C6, as the sources have it.  The lock term stored by a successful
    create_investment is [parseInt] of the submitted term, whatever its
    range; the investment is appended to the account's investments.  The
    range is clamped only inside the APY curve: in the servers that call
    the curve (Vercel and in-memory) the stamped APY of a term that reads
    as a number lies in [0.30, 2.00]. *)
Theorem stored_term_is_submitted_term :
  (forall (v : variant) (fs_ok : bool) (now : Z) (userId_ : string)
          (amount_ lockPeriod_ : jsval) (compoundType_ transactionHash_ : string)
          (f f' : file) (inv : investment) (nb : jsnum),
      invest v fs_ok now userId_ amount_ lockPeriod_ compoundType_
             transactionHash_ f
      = (Json 200 (BInvested inv nb), f') ->
      lockPeriod inv = parseInt lockPeriod_ /\
      (exists d' u' old,
          f' = Content d' /\
          find (fun u => (id u =? userId_)%string) (users d') = Some u' /\
          investments u' = Some (old ++ [inv])) /\
      (v = Vercel ->
       apy inv = apyFromTerm (ToNumber lockPeriod_) /\
       forall t, ToNumber lockPeriod_ = Fin t ->
                 exists x, apy inv = Fin x /\ 0.30 <= x <= 2.00)) /\
  (forall (now : Z) (userId_ : string) (amount_ lockPeriod_ : jsval)
          (compoundType_ transactionHash_ : string) (us us' : list user)
          (inv : investment) (nb : jsnum),
      MemoryServer.invest now userId_ amount_ lockPeriod_ compoundType_
                          transactionHash_ us
      = (Json 200 (BInvested inv nb), us') ->
      lockPeriod inv = parseInt lockPeriod_ /\
      (exists u' old,
          find (fun u => (id u =? userId_)%string) us' = Some u' /\
          investments u' = Some (old ++ [inv])) /\
      apy inv = apyFromTerm (ToNumber lockPeriod_) /\
      forall t, ToNumber lockPeriod_ = Fin t ->
                exists x, apy inv = Fin x /\ 0.30 <= x <= 2.00).
Proof.
  split.
  - intros v fs_ok now userId_ amount_ lockPeriod_ ct th f f' inv nb H.
    destruct (invest_success _ _ _ _ _ _ _ _ _ _ _ _ H)
      as (u & ends & Hf & _ & _ & _ & _ & Hinv & _ & Hf').
    split; [| split].
    + rewrite Hinv. reflexivity.
    + eexists _, _, _. split; [exact Hf' | split].
      * cbn [set_users users].
        apply (find_update_first _ _ _ u Hf).
        rewrite deposit_id. apply (find_some _ _ Hf).
      * reflexivity.
    + intros ->. rewrite Hinv. cbn [new_investment apy invest_apy].
      split; [reflexivity |]. apply curve_apy_in_range.
  - intros now userId_ amount_ lockPeriod_ ct th us us' inv nb H.
    destruct (memory_invest_success _ _ _ _ _ _ _ _ _ _ H)
      as (u & Hf & Hl & Ha & Hus).
    split; [exact Hl | split; [| split]].
    + eexists _, _. split.
      * rewrite Hus. apply (find_update_first _ _ _ u Hf).
        apply (find_some _ _ Hf).
      * reflexivity.
    + exact Ha.
    + rewrite Ha. apply curve_apy_in_range.
Qed.

Lemma invest_term_1 (v : variant) :
  let now := 1700000000000%Z in
  let inv := new_investment v now "user_1" (JStr "1000") (JStr "1") "monthly"
                            "0xabc" (now + 1 * 2592000000) in
  let u' := deposit alice inv (new_transaction now (JStr "1000") "0xabc") in
  invest v true now "user_1" (JStr "1000") (JStr "1") "monthly" "0xabc"
         (Content store1)
  = (Json 200 (BInvested inv (balance u')), Content (set_users store1 [u'])).
Proof.
  intros now inv u'.
  apply (invest_accepts v now "user_1" (JStr "1000") (JStr "1") "monthly"
                        "0xabc" (Content store1) store1 alice);
    try reflexivity.
  - apply amount_1000_passes.
  - rewrite (end_time_whole now 1) by apply text_term_1.
    apply toISOString_whole. lia.
Qed.

Lemma stored_term_is_submitted_term_witness :
  let now := 1700000000000%Z in
  let inv := new_investment Vercel now "user_1" (JStr "1000") (JStr "1")
                            "monthly" "0xabc" (now + 1 * 2592000000) in
  lockPeriod inv = parseInt (JStr "1").
Proof.
  intros now inv.
  exact (proj1 (proj1 stored_term_is_submitted_term Vercel true now
                  "user_1"%string (JStr "1000") (JStr "1")
                  "monthly"%string "0xabc"%string (Content store1)
                  _ inv _ (invest_term_1 Vercel))).
Defined.

(** C6 fails as stated: a term of 1 month is accepted and stored as 1. *)
Lemma out_of_range_term_is_stored :
  exists inv nb d' u',
    invest Vercel true 1700000000000 "user_1" (JStr "1000") (JStr "1")
           "monthly" "0xabc" (Content store1)
    = (Json 200 (BInvested inv nb), Content d')
    /\ find (fun u => (id u =? "user_1")%string) (users d') = Some u'
    /\ investments u' = Some [inv]
    /\ lockPeriod inv = Fin 1
    /\ ~ term_in_range (lockPeriod inv).
Proof.
  eexists _, _, _, _. split; [apply (invest_term_1 Vercel) |].
  split; [reflexivity | split; [reflexivity | split]].
  - read_text.
  - intros (x & Hx & H3 & _). cbn in Hx.
    injection Hx as Hx. lra.
Qed.

(** ** The term check *)

Lemma calculate_accepts (amount_ lockPeriod_ : jsval) (compoundType_ : string) :
  truthy amount_ = true -> truthy lockPeriod_ = true ->
  lt (parseFloat amount_) (Fin 500) || gt (parseFloat amount_) (Fin 1000000) = false ->
  code_of (calculate amount_ lockPeriod_ compoundType_) = Some 200%nat.
Proof.
  intros Ha Hl Hamt. unfold calculate. rewrite Ha, Hl, Hamt. reflexivity.
Qed.

(** C7, as the sources have it.  The projection and create_investment
    refuse a term only when it is falsy (absent, null, false, 0, NaN or the
    empty string), with the missing-field error and no effect on the
    store.  No server tests that the term is a positive integer: with
    every other term, negative and fractional ones included, the request
    is answered 200 as soon as the other checks pass; in the file-backed
    servers a term whose end date is not a valid date makes the handler
    throw, with no effect on the accounts. *)
Theorem term_is_only_checked_for_presence :
  (forall (amount_ lockPeriod_ : jsval) (compoundType_ : string),
      truthy lockPeriod_ = false ->
      calculate amount_ lockPeriod_ compoundType_
      = Json 400 (BError "Amount and lock period are required")) /\
  (forall (v : variant) (fs_ok : bool) (now : Z) (userId_ : string)
          (amount_ lockPeriod_ : jsval) (compoundType_ transactionHash_ : string)
          (f : file),
      truthy lockPeriod_ = false ->
      invest v fs_ok now userId_ amount_ lockPeriod_ compoundType_
             transactionHash_ f
      = (Json 400 (BError "Missing required fields"), f)) /\
  (forall (now : Z) (userId_ : string) (amount_ lockPeriod_ : jsval)
          (compoundType_ transactionHash_ : string) (us : list user),
      truthy lockPeriod_ = false ->
      MemoryServer.invest now userId_ amount_ lockPeriod_ compoundType_
                          transactionHash_ us
      = (Json 400 (BError "Missing required fields"), us)) /\
  (forall (amount_ lockPeriod_ : jsval) (compoundType_ : string),
      truthy amount_ = true -> truthy lockPeriod_ = true ->
      lt (parseFloat amount_) (Fin 500) || gt (parseFloat amount_) (Fin 1000000)
      = false ->
      code_of (calculate amount_ lockPeriod_ compoundType_) = Some 200%nat) /\
  (forall (now : Z) (userId_ : string) (amount_ lockPeriod_ : jsval)
          (compoundType_ transactionHash_ : string) (us : list user) (u : user),
      missing userId_ = false -> truthy amount_ = true ->
      truthy lockPeriod_ = true -> missing transactionHash_ = false ->
      find (fun u => (id u =? userId_)%string) us = Some u ->
      lt (parseFloat amount_) (Fin 500) || gt (parseFloat amount_) (Fin 1000000)
      = false ->
      code_of (fst (MemoryServer.invest now userId_ amount_ lockPeriod_
                                        compoundType_ transactionHash_ us))
      = Some 200%nat) /\
  (forall (v : variant) (now : Z) (userId_ : string)
          (amount_ lockPeriod_ : jsval) (compoundType_ transactionHash_ : string)
          (d : db) (u : user),
      missing userId_ = false -> truthy amount_ = true ->
      truthy lockPeriod_ = true -> missing transactionHash_ = false ->
      find (fun u => (id u =? userId_)%string) (users d) = Some u ->
      lt (parseFloat amount_) (Fin 500) || gt (parseFloat amount_) (Fin 1000000)
      = false ->
      match toISOString (end_time now lockPeriod_) with
      | Some _ =>
          code_of (fst (invest v true now userId_ amount_ lockPeriod_
                               compoundType_ transactionHash_ (Content d)))
          = Some 200%nat
      | None =>
          invest v true now userId_ amount_ lockPeriod_ compoundType_
                 transactionHash_ (Content d)
          = (Uncaught, Content d)
      end).
Proof.
  split; [| split; [| split; [| split; [| split]]]].
  - intros a l c Hl. unfold calculate. rewrite Hl.
    destruct (truthy a); reflexivity.
  - intros v fs_ok now uid a l ct th f Hl. unfold invest. rewrite Hl.
    destruct (missing uid), (truthy a); reflexivity.
  - intros now uid a l ct th us Hl. unfold MemoryServer.invest. rewrite Hl.
    destruct (missing uid), (truthy a); reflexivity.
  - apply calculate_accepts.
  - intros now uid a l ct th us u Hu Ha Hl Ht Hf Hamt.
    unfold MemoryServer.invest. rewrite Hu, Ha, Hl, Ht, Hf, Hamt. reflexivity.
  - intros v now uid a l ct th d u Hu Ha Hl Ht Hf Hamt.
    destruct (toISOString (end_time now l)) as [ends |] eqn:He.
    + rewrite (invest_accepts v now uid a l ct th (Content d) d u ends)
        by (assumption || reflexivity).
      reflexivity.
    + unfold invest. rewrite Hu, Ha, Hl, Ht. cbn [negb orb readDatabase].
      rewrite Hf, Hamt, He. reflexivity.
Qed.

Lemma term_is_only_checked_for_presence_witness :
  code_of (calculate (JStr "1000") (JStr "-5") "simple") = Some 200%nat /\
  calculate (JStr "1000") (JNum (Fin 0)) "simple"
  = Json 400 (BError "Amount and lock period are required").
Proof.
  split.
  - apply (proj1 (proj2 (proj2 (proj2 term_is_only_checked_for_presence))));
      [reflexivity | reflexivity | apply amount_1000_passes].
  - apply (proj1 term_is_only_checked_for_presence).
    cbn [truthy]. rdecide. reflexivity.
Defined.

(** C7 fails as stated: the projection answers 200 for a term of -5, and
    the in-memory server creates an investment for a term of 13.5. *)
Lemma bad_terms_are_accepted :
  code_of (calculate (JStr "1000") (JStr "-5") "simple") = Some 200%nat /\
  parseInt (JStr "-5") = Fin (-5) /\
  code_of (fst (MemoryServer.invest 1700000000000 "user_1" (JStr "1000")
                                    (JStr "13.5") "monthly" "0xabc" [alice]))
  = Some 200%nat /\
  ToNumber (JStr "13.5") = Fin 13.5.
Proof.
  split; [| split; [| split]].
  - apply calculate_accepts; [reflexivity | reflexivity | apply amount_1000_passes].
  - read_text.
  - unfold MemoryServer.invest.
    change (missing "user_1" || negb (truthy (JStr "1000"))
            || negb (truthy (JStr "13.5")) || missing "0xabc") with false.
    change (find (fun u => (id u =? "user_1")%string) [alice]) with (Some alice).
    cbv iota. rewrite amount_1000_passes. reflexivity.
  - read_text.
Qed.

(** ** The stamped APY *)

Lemma accrued_keeps_apy (v : variant) (now : Z) (inv : investment) :
  apy (accrued v now inv) = apy inv /\
  lockPeriod (accrued v now inv) = lockPeriod inv /\
  amount (accrued v now inv) = amount inv.
Proof.
  unfold accrued, accrue_investment.
  destruct (is_active inv); repeat split; reflexivity.
Qed.

(** C4 at the failing input.  In the plain file-backed server an
    investment with a term of 1 month is created, is returned by
    get_account, and carries an APY below 0.30, while the APY curve gives
    0.30 for that term. *)
Theorem local_invest_apy_off_curve :
  exists inv nb f',
    invest Local true 1700000000000 "user_1" (JStr "1000") (JStr "1")
           "monthly" "0xabc" (Content store1)
    = (Json 200 (BInvested inv nb), f')
    /\ (exists b e tx g,
           getUser Local true "user_1" f'
           = (Json 200 (BUser "user_1" "alice@example.com" b e [inv] tx g), f'))
    /\ (exists x, apy inv = Fin x /\ x < 0.30)
    /\ apyFromTerm (ToNumber (JStr "1")) = Fin 0.30.
Proof.
  eexists _, _, _. split; [apply (invest_term_1 Local) |].
  split; [| split].
  - eexists _, _, _, _. reflexivity.
  - cbn [new_investment apy invest_apy].
    rewrite text_term_1. unfold apyInline, div.
    cbn [sub neg add]. rdecide. cbn [mul add].
    eexists. split; [reflexivity | lra].
  - rewrite text_term_1, apyFromTerm_Fin. apply Fin_eq.
    unfold apy_spec.
    destruct (Rclamp_cases 1) as [[H ->] | [[H ->] | [H ->]]]; lra.
Qed.

(** In the Vercel server the same request stamps the APY of the curve. *)
Lemma vercel_invest_apy_on_curve :
  exists inv nb f',
    invest Vercel true 1700000000000 "user_1" (JStr "1000") (JStr "1")
           "monthly" "0xabc" (Content store1)
    = (Json 200 (BInvested inv nb), f')
    /\ apy inv = Fin 0.30.
Proof.
  eexists _, _, _. split; [apply (invest_term_1 Vercel) |].
  cbn [new_investment apy invest_apy].
  rewrite text_term_1, apyFromTerm_Fin. apply Fin_eq.
  unfold apy_spec.
  destruct (Rclamp_cases 1) as [[H ->] | [[H ->] | [H ->]]]; lra.
Qed.

(** ** Stored credentials *)

(** C8 at the failing input.  [registerUser] of script.js stores the
    submitted password itself: after registering with the password
    "hunter2" the stored accounts hold the passwords of the demo account
    and "hunter2" in clear. *)
Theorem mock_register_stores_plaintext :
  exists b st',
    MockScript.registerUser 1700000000000 "bob@example.com" "hunter2"
                            (MockScript.mkStorage None None)
    = (MockScript.Succeeded b, st')
    /\ map password (or_empty (MockScript.mockUsers st'))
       = ["password123"%string; "hunter2"%string]
    /\ option_map password (MockScript.currentUser st') = Some "hunter2"%string.
Proof.
  eexists _, _. split; [reflexivity | split; reflexivity].
Qed.

(** The servers store what bcrypt returns. *)
Lemma register_stores_hash
      (bcrypt_hash : string -> string -> string) (v : variant) (now : Z)
      (salt email_ password_ : string) (d : db) (r : body) (f' : file) :
  register bcrypt_hash v true now salt email_ password_ (Content d)
  = (Json 200 r, f') ->
  exists u, f' = Content (set_users d (users d ++ [u]))
            /\ password u = bcrypt_hash password_ salt.
Proof.
  unfold register. intros H.
  destruct (missing email_ || missing password_); [discriminate |].
  cbn [readDatabase] in H.
  destruct (find (fun u => (email u =? email_)%string) (users d)); [discriminate |].
  destruct (10 <=? Datatypes.length (users d))%nat; [discriminate |].
  cbn [writeDatabase] in H. injection H as _ <-.
  eexists. split; reflexivity.
Qed.

(** ** The fallback store *)

(** C9 at the failing input.  In the plain file-backed server, when the
    data file is corrupt or missing, the wallet-address operation throws:
    the fallback store of that server has no settings. *)
Theorem local_fallback_has_no_wallet (fs_ok : bool) :
  walletAddress Local fs_ok Corrupt = (Uncaught, Corrupt) /\
  walletAddress Local fs_ok Missing = (Uncaught, Missing) /\
  settings (fst (readDatabase Local fs_ok Corrupt)) = None.
Proof. repeat split; reflexivity. Qed.

(** The fallback store of the Vercel server does hold the address. *)
Lemma vercel_fallback_has_wallet (fs_ok : bool) (f : file) :
  f = Corrupt \/ f = Missing ->
  fst (walletAddress Vercel fs_ok f) = Json 200 (BAddress (Some wallet)) /\
  users (fst (readDatabase Vercel fs_ok f)) = [].
Proof. intros [-> | ->]; destruct fs_ok; split; reflexivity. Qed.

(** ** Logging in *)

Lemma readDatabase_fixed (v : variant) (fs_ok : bool) (f : file) :
  fst (readDatabase v fs_ok (snd (readDatabase v fs_ok f)))
  = fst (readDatabase v fs_ok f)
  /\ (f <> Missing -> snd (readDatabase v fs_ok f) = f).
Proof.
  destruct f as [| | d]; destruct v, fs_ok; split;
    try reflexivity; intros H; try reflexivity; now elim H.
Qed.

Lemma update_first_split {A : Type} (p : A -> bool) (g : A -> A)
      (l : list A) (x : A) :
  find p l = Some x ->
  exists l1 l2,
    l = l1 ++ x :: l2 /\
    Forall (fun y => p y = false) l1 /\
    update_first p g l = l1 ++ g x :: l2.
Proof.
  induction l as [| y r IH]; [discriminate |].
  cbn [find update_first]. destruct (p y) eqn:Hy.
  - intros [= ->]. exists [], r. repeat split. constructor.
  - intros H. destruct (IH H) as (l1 & l2 & -> & Hall & Hup).
    exists (y :: l1), l2. repeat split.
    + constructor; assumption.
    + cbn [app]. now rewrite Hup.
Qed.

(** C10, as the sources have it.  In the two file-backed servers a
    successful login finds the first account with the email in the data
    file and answers with its balance, earnings and investments.  When the
    write to the data file succeeds, the store is rewritten with that one
    account replaced by an account whose [lastLogin] is the time of the
    request and whose nine other fields (balance, totalEarnings and
    investments among them) are those it had; the accounts before and
    after it and the settings are kept, so the file changes whenever the
    previous [lastLogin] was another instant.  When the write fails, the
    login still succeeds and the file is left as it was.  A login that
    fails leaves the file as it is (a missing file may have been created
    with the empty initial store by the Vercel server) and the store read
    from it the same. *)
Theorem login_touches_only_lastLogin
        (bcrypt_compare : string -> string -> bool)
        (v : variant) (fs_ok : bool) (now : Z) (email_ password_ : string)
        (f : file) :
  let r := fst (login bcrypt_compare v fs_ok now email_ password_ f) in
  let f' := snd (login bcrypt_compare v fs_ok now email_ password_ f) in
  (code_of r = Some 200%nat ->
   exists d l1 u l2,
     f = Content d /\
     users d = l1 ++ u :: l2 /\
     Forall (fun w => (email w =? email_)%string = false) l1 /\
     email u = email_ /\
     r = Json 200 (BLoggedIn (id u) (email u) (balance u) (totalEarnings u)
                             (or_empty (investments u))) /\
     (fs_ok = true ->
      exists u',
        f' = Content (mkDb (l1 ++ u' :: l2) (settings d)) /\
        lastLogin u' = Some now /\
        id u' = id u /\ email u' = email u /\ password u' = password u /\
        createdAt u' = createdAt u /\ balance u' = balance u /\
        totalEarnings u' = totalEarnings u /\
        investments u' = investments u /\
        transactions u' = transactions u /\ isActive u' = isActive u /\
        (lastLogin u <> Some now -> f' <> f)) /\
     (fs_ok = false -> f' = f)) /\
  (code_of r <> Some 200%nat ->
   fst (readDatabase v fs_ok f') = fst (readDatabase v fs_ok f) /\
   (f <> Missing -> f' = f)).
Proof.
  cbv zeta. unfold login.
  destruct (missing email_ || missing password_).
  { cbn [fst snd code_of]. split; [discriminate |].
    intros _. split; [reflexivity | intros _; reflexivity]. }
  pose proof (readDatabase_fixed v fs_ok f) as [Hfix Hsame].
  destruct (readDatabase v fs_ok f) as [d f1] eqn:Hread.
  cbn [fst snd] in Hfix, Hsame.
  destruct (find (fun u => (email u =? email_)%string) (users d)) as [u |] eqn:Hfind.
  2:{ cbn [fst snd code_of]. split; [discriminate |].
      intros _. split; assumption. }
  destruct (isActive u) as [[|] |].
  2,3: cbn [fst snd code_of]; (split; [discriminate |]); intros _; split; assumption.
  destruct (bcrypt_compare password_ (password u)); cbn [negb].
  2:{ cbn [fst snd code_of]. split; [discriminate |].
      intros _. split; assumption. }
  assert (Hf : f = Content d).
  { destruct f as [| | d0]; destruct v, fs_ok; cbn in Hread;
      injection Hread as <- <-; try discriminate; reflexivity. }
  subst f. cbn [readDatabase] in Hread. injection Hread as <-.
  destruct (update_first_split (fun u => (email u =? email_)%string)
                               (set_lastLogin now) (users d) u Hfind)
    as (l1 & l2 & Hsplit & Hl1 & Hup).
  assert (He : email u = email_).
  { apply find_some in Hfind. now apply String.eqb_eq. }
  unfold writeDatabase. destruct fs_ok; cbn [fst snd code_of].
  - split; [| intros H; now elim H].
    intros _. exists d, l1, u, l2.
    split; [reflexivity | split; [exact Hsplit | split; [exact Hl1 |]]].
    split; [exact He | split; [reflexivity | split; [| discriminate]]].
    intros _. exists (set_lastLogin now u).
    unfold set_users. rewrite Hup.
    cbn [set_lastLogin lastLogin id email password createdAt balance
         totalEarnings investments transactions isActive].
    repeat (split; [reflexivity |]).
    intros Hne Heq. injection Heq as Heq.
    apply (f_equal users) in Heq. cbn [users] in Heq.
    rewrite Hsplit in Heq.
    apply app_inv_head in Heq. injection Heq as Heq.
    apply Hne. rewrite <- Heq. reflexivity.
  - split; [| intros H; now elim H].
    intros _. exists d, l1, u, l2.
    split; [reflexivity | split; [exact Hsplit | split; [exact Hl1 |]]].
    split; [exact He | split; [reflexivity | split; [discriminate |]]].
    intros _. reflexivity.
Qed.

Lemma login_touches_only_lastLogin_witness :
  snd (login (fun _ _ => true) Vercel true 5 "alice@example.com" "secret"
             (Content store1))
  <> Content store1.
Proof.
  destruct (proj1 (login_touches_only_lastLogin (fun _ _ => true) Vercel true
                     5%Z "alice@example.com"%string "secret"%string
                     (Content store1)) eq_refl)
    as (d & l1 & u & l2 & Hd & Hu & Hl1 & _ & _ & Hw & _).
  injection Hd as <-.
  destruct (Hw eq_refl) as (u' & _ & _ & _ & _ & _ & _ & _ & _ & _ & _ & _ & Hne).
  apply Hne.
  destruct l1 as [| w l1].
  - cbn in Hu. injection Hu as <- _. discriminate.
  - cbn in Hu. injection Hu as _ Hrest.
    destruct l1; discriminate Hrest.
Defined.

(** C10 fails as stated: when the data file cannot be written, a login
    with the right password is answered 200 and changes nothing, neither
    [lastLogin] nor the file. *)
Lemma login_with_failed_write_is_read_only :
  let out := login (fun _ _ => true) Vercel false 5 "alice@example.com"
                   "secret" (Content store1) in
  code_of (fst out) = Some 200%nat /\
  snd out = Content store1 /\
  lastLogin alice = Some 0%Z /\
  (forall v, snd (login (fun _ _ => true) v false 5 "alice@example.com"
                        "secret" (Content store1)) = Content store1).
Proof.
  intros out.
  split; [reflexivity | split; [reflexivity | split; [reflexivity |]]].
  intros v. destruct v; reflexivity.
Qed.

(** The in-memory server has no [lastLogin]: its login never changes the
    accounts. *)
Lemma memory_login_is_read_only
      (bcrypt_compare : string -> string -> bool)
      (email_ password_ : string) (us : list user) :
  snd (MemoryServer.login bcrypt_compare email_ password_ us) = us.
Proof.
  unfold MemoryServer.login.
  destruct (missing email_ || missing password_); [reflexivity |].
  destruct (find (fun u => (email u =? email_)%string) us); [| reflexivity].
  destruct (negb (bcrypt_compare password_ (password u))); reflexivity.
Qed.

(* ================================================================== *)
(** * Further properties of the ledger                                 *)
(* ================================================================== *)

Import Accounting.

(** ** Lists of accounts *)

Lemma find_app_old {A : Type} (p : A -> bool) (l l' : list A) (x : A) :
  find p l = Some x -> find p (l ++ l') = Some x.
Proof.
  induction l as [| y r IH]; [discriminate |].
  cbn [find app]. destruct (p y); [trivial | exact IH].
Qed.

Lemma find_app_new {A : Type} (p : A -> bool) (l : list A) (x : A) :
  find p l = None -> p x = true -> find p (l ++ [x]) = Some x.
Proof.
  intros Hn Hx. induction l as [| y r IH].
  - cbn. now rewrite Hx.
  - cbn [find app] in *. destruct (p y); [discriminate | now apply IH].
Qed.

Lemma update_first_length {A : Type} (p : A -> bool) (g : A -> A) (l : list A) :
  List.length (update_first p g l) = List.length l.
Proof.
  induction l as [| y r IH]; [reflexivity |].
  cbn [update_first]. destruct (p y); cbn [List.length]; congruence.
Qed.

Lemma same_store_refl (v : variant) (fs_ok : bool) (f : file) :
  same_store v fs_ok f f.
Proof. split; [reflexivity | intros _; reflexivity]. Qed.

Lemma same_store_read (v : variant) (fs_ok : bool) (f : file) :
  same_store v fs_ok f (snd (readDatabase v fs_ok f)).
Proof. apply readDatabase_fixed. Qed.

(** ** Registration *)

(** The account [/api/register] creates. *)
Lemma register_success
      (h : string -> string -> string) (v : variant) (fs_ok : bool) (now : Z)
      (salt email_ password_ : string) (f f' : file) (b : body) :
  register h v fs_ok now salt email_ password_ f = (Json 200 b, f') ->
  let d := fst (readDatabase v fs_ok f) in
  let newUser := mkUser (stamp_id "user_" now) email_ (h password_ salt)
                        (Some now) (Some now) (Fin 0) (Fin 0) (Some []) None
                        (Some true) in
  missing email_ = false /\ missing password_ = false /\
  find (fun u => (email u =? email_)%string) (users d) = None /\
  (List.length (users d) < 10)%nat /\
  fs_ok = true /\
  b = BRegistered (stamp_id "user_" now) email_ (Fin 0) /\
  f' = Content (set_users d (users d ++ [newUser])).
Proof.
  unfold register. intros H.
  destruct (missing email_) eqn:He; [discriminate |].
  destruct (missing password_) eqn:Hp; [discriminate |].
  cbn [orb] in H.
  destruct (readDatabase v fs_ok f) as [d f1]. cbn [fst].
  destruct (find (fun u => (email u =? email_)%string) (users d)); [discriminate |].
  destruct (10 <=? Datatypes.length (users d))%nat eqn:Hlen; [discriminate |].
  unfold writeDatabase in H. destruct fs_ok; [| discriminate].
  injection H as <- <-.
  repeat split. apply Nat.leb_gt in Hlen. exact Hlen.
Qed.

Lemma memory_register_success
      (h : string -> string -> string) (now : Z)
      (salt email_ password_ : string) (us us' : list user) (b : body) :
  MemoryServer.register h now salt email_ password_ us = (Json 200 b, us') ->
  let newUser := mkUser (stamp_id "user_" now) email_ (h password_ salt)
                        (Some now) None (Fin 0) (Fin 0) (Some []) None None in
  missing email_ = false /\ missing password_ = false /\
  find (fun u => (email u =? email_)%string) us = None /\
  b = BRegistered (stamp_id "user_" now) email_ (Fin 0) /\
  us' = us ++ [newUser].
Proof.
  unfold MemoryServer.register. intros H.
  destruct (missing email_) eqn:He; [discriminate |].
  destruct (missing password_) eqn:Hp; [discriminate |].
  cbn [orb] in H.
  destruct (find (fun u => (email u =? email_)%string) us); [discriminate |].
  injection H as <- <-. repeat split.
Qed.


Lemma register_bob :
  register (fun p s => (s ++ p)%string) Vercel true 7 "salt" "bob@example.com"
           "hunter2" (Content store1)
  = (Json 200 (BRegistered (stamp_id "user_" 7) "bob@example.com" (Fin 0)),
     Content (mkDb [alice;
                    mkUser (stamp_id "user_" 7) "bob@example.com" "salthunter2"
                           (Some 7%Z) (Some 7%Z) (Fin 0) (Fin 0) (Some []) None
                           (Some true)]
                   (Some (mkSettings wallet)))).
Proof. reflexivity. Qed.


(** X2.  A file-backed server never holds more than ten accounts through
    registration: a successful registration adds exactly one account to
    fewer than ten, and with ten accounts or more a registration with a new
    email is refused with the limit error and changes nothing.  The
    in-memory server has no limit: it accepts every new email. *)
Theorem registration_limit (h : string -> string -> string) :
  (forall (v : variant) (fs_ok : bool) (now : Z) (salt email_ password_ : string)
          (f f' : file) (b : body),
      register h v fs_ok now salt email_ password_ f = (Json 200 b, f') ->
      exists d',
        f' = Content d' /\
        List.length (users d')
        = S (List.length (users (fst (readDatabase v fs_ok f)))) /\
        (List.length (users d') <= 10)%nat) /\
  (forall (v : variant) (fs_ok : bool) (now : Z) (salt email_ password_ : string)
          (d : db),
      missing email_ = false -> missing password_ = false ->
      find (fun u => (email u =? email_)%string) (users d) = None ->
      (10 <= List.length (users d))%nat ->
      register h v fs_ok now salt email_ password_ (Content d)
      = (Json 400 (BError "Maximum user limit reached (10 users)"), Content d)) /\
  (forall (now : Z) (salt email_ password_ : string) (us : list user),
      missing email_ = false -> missing password_ = false ->
      find (fun u => (email u =? email_)%string) us = None ->
      exists u,
        MemoryServer.register h now salt email_ password_ us
        = (Json 200 (BRegistered (stamp_id "user_" now) email_ (Fin 0)),
           us ++ [u])).
Proof.
  split; [| split].
  - intros v fs_ok now salt email_ password_ f f' b H.
    destruct (register_success _ _ _ _ _ _ _ _ _ _ H)
      as (_ & _ & _ & Hlen & _ & _ & ->).
    eexists. split; [reflexivity |].
    cbn [set_users users]. rewrite length_app. cbn [List.length].
    split; lia.
  - intros v fs_ok now salt email_ password_ d He Hp Hfresh Hlen.
    unfold register. rewrite He, Hp. cbn [orb readDatabase].
    rewrite Hfresh.
    apply Nat.leb_le in Hlen. rewrite Hlen. reflexivity.
  - intros now salt email_ password_ us He Hp Hfresh.
    unfold MemoryServer.register. rewrite He, Hp. cbn [orb].
    rewrite Hfresh. eexists. reflexivity.
Qed.

Lemma registration_limit_witness :
  exists d',
    snd (register (fun p s => (s ++ p)%string) Vercel true 7 "salt"
                  "bob@example.com" "hunter2" (Content store1))
    = Content d'
    /\ List.length (users d') = 2%nat.
Proof.
  destruct (proj1 (registration_limit (fun p s => (s ++ p)%string))
                  Vercel true 7%Z "salt"%string "bob@example.com"%string
                  "hunter2"%string (Content store1) _ _ register_bob)
    as (d' & Hd & Hlen & _).
  exists d'. rewrite register_bob. cbn [snd]. split; [exact Hd |].
  rewrite Hlen. reflexivity.
Defined.

Lemma login_after_register
      (h : string -> string -> string) (c : string -> string -> bool)
      (v : variant) (fs_ok : bool) (now : Z) (salt email_ password_ : string)
      (f f' : file) (b : body) (fs_ok' : bool) (now' : Z) :
  c password_ (h password_ salt) = true ->
  register h v fs_ok now salt email_ password_ f = (Json 200 b, f') ->
  fst (login c v fs_ok' now' email_ password_ f')
  = Json 200 (BLoggedIn (stamp_id "user_" now) email_ (Fin 0) (Fin 0) []).
Proof.
  intros Hc H.
  destruct (register_success _ _ _ _ _ _ _ _ _ _ H)
    as (He & Hp & Hfresh & _ & _ & _ & ->).
  unfold login. rewrite He, Hp. cbn [orb readDatabase set_users users].
  rewrite (find_app_new _ _ _ Hfresh) by (cbn [email]; apply String.eqb_refl).
  cbn [isActive password]. rewrite Hc. cbn [negb].
  destruct (writeDatabase fs_ok' _ _). reflexivity.
Qed.

(** X3.  Registration then login is a round trip, given that bcrypt
    recognises the password it hashed: after a successful registration a
    login with the same email and password succeeds, whatever the state of
    the disk, and returns the new account with a zero balance, zero
    earnings and no investment; a password bcrypt does not recognise is
    answered "Invalid password" and changes nothing. *)
Theorem register_then_login
        (h : string -> string -> string) (c : string -> string -> bool)
        (v : variant) (fs_ok : bool) (now : Z) (salt email_ password_ : string)
        (f f' : file) (b : body) :
  c password_ (h password_ salt) = true ->
  register h v fs_ok now salt email_ password_ f = (Json 200 b, f') ->
  forall (fs_ok' : bool) (now' : Z),
    fst (login c v fs_ok' now' email_ password_ f')
    = Json 200 (BLoggedIn (stamp_id "user_" now) email_ (Fin 0) (Fin 0) []) /\
    forall password',
      missing password' = false ->
      c password' (h password_ salt) = false ->
      login c v fs_ok' now' email_ password' f'
      = (Json 400 (BError "Invalid password"), f').
Proof.
  intros Hc H fs_ok' now'.
  split; [exact (login_after_register h c v fs_ok now salt email_ password_
                                      f f' b fs_ok' now' Hc H) |].
  destruct (register_success _ _ _ _ _ _ _ _ _ _ H)
    as (He & Hp & Hfresh & _ & _ & _ & ->).
  intros password' Hp' Hc'.
  unfold login. rewrite He, Hp'. cbn [orb readDatabase set_users users].
  rewrite (find_app_new _ _ _ Hfresh) by (cbn [email]; apply String.eqb_refl).
  cbn [isActive password]. rewrite Hc'. reflexivity.
Qed.

Lemma register_then_login_witness :
  fst (login (fun p hashed => (hashed =? "salt" ++ p)%string) Vercel false 9
             "bob@example.com" "hunter2"
             (snd (register (fun p s => (s ++ p)%string) Vercel true 7 "salt"
                            "bob@example.com" "hunter2" (Content store1))))
  = Json 200 (BLoggedIn (stamp_id "user_" 7) "bob@example.com" (Fin 0) (Fin 0) []).
Proof.
  rewrite register_bob. cbn [snd].
  exact (proj1 (register_then_login (fun p s => (s ++ p)%string)
                  (fun p hashed => (hashed =? "salt" ++ p)%string)
                  Vercel true 7%Z "salt"%string "bob@example.com"%string
                  "hunter2"%string (Content store1) _ _ eq_refl register_bob
                  false 9%Z)).
Defined.

(** ** Investments *)



(** ** Requests that are refused *)

Lemma register_refused
      (h : string -> string -> string) (v : variant) (fs_ok : bool) (now : Z)
      (salt email_ password_ : string) (f : file) :
  code_of (fst (register h v fs_ok now salt email_ password_ f)) <> Some 200%nat ->
  same_store v fs_ok f (snd (register h v fs_ok now salt email_ password_ f)).
Proof.
  unfold register.
  destruct (missing email_ || missing password_);
    [intros _; apply same_store_refl |].
  pose proof (same_store_read v fs_ok f) as Hs.
  destruct (readDatabase v fs_ok f) as [d f1]. cbn [snd] in Hs.
  destruct (find _ (users d)); [intros _; exact Hs |].
  destruct (10 <=? _)%nat; [intros _; exact Hs |].
  unfold writeDatabase. destruct fs_ok; cbn [fst snd code_of].
  - intros C. now elim C.
  - intros _. exact Hs.
Qed.

Lemma invest_refused
      (v : variant) (fs_ok : bool) (now : Z) (userId_ : string)
      (amount_ lockPeriod_ : jsval) (compoundType_ transactionHash_ : string)
      (f : file) :
  code_of (fst (invest v fs_ok now userId_ amount_ lockPeriod_ compoundType_
                       transactionHash_ f)) <> Some 200%nat ->
  same_store v fs_ok f
             (snd (invest v fs_ok now userId_ amount_ lockPeriod_ compoundType_
                          transactionHash_ f)).
Proof.
  unfold invest.
  destruct (missing userId_ || negb (truthy amount_) || negb (truthy lockPeriod_)
            || missing transactionHash_);
    [intros _; apply same_store_refl |].
  pose proof (same_store_read v fs_ok f) as Hs.
  destruct (readDatabase v fs_ok f) as [d f1]. cbn [snd] in Hs.
  destruct (find _ (users d)); [| intros _; exact Hs].
  destruct (lt _ _ || gt _ _); [intros _; exact Hs |].
  destruct (toISOString _); [| intros _; exact Hs].
  unfold writeDatabase. destruct fs_ok; cbn [fst snd code_of].
  - intros C. now elim C.
  - intros _. exact Hs.
Qed.

Lemma updateEarnings_refused (v : variant) (fs_ok : bool) (now : Z) (f : file) :
  code_of (fst (updateEarnings v fs_ok now f)) <> Some 200%nat ->
  same_store v fs_ok f (snd (updateEarnings v fs_ok now f)).
Proof.
  unfold updateEarnings.
  pose proof (same_store_read v fs_ok f) as Hs.
  destruct (readDatabase v fs_ok f) as [d f1]. cbn [snd] in Hs.
  unfold writeDatabase. destruct fs_ok; cbn [fst snd code_of].
  - intros C. now elim C.
  - intros _. exact Hs.
Qed.

(** X5.  No partial effect in the file-backed servers: a registration, an
    investment or an accrual tick that is not answered 200 (an error
    answer or an exception, a failed write included) leaves the store as
    it was, and reading an account or the wallet address never changes it;
    in the in-memory server an investment that is not answered 200 leaves
    the accounts as they were. *)
Theorem refused_requests_change_nothing
        (h : string -> string -> string) (v : variant) (fs_ok : bool) (now : Z)
        (f : file) :
  (forall salt email_ password_,
      code_of (fst (register h v fs_ok now salt email_ password_ f))
      <> Some 200%nat ->
      same_store v fs_ok f (snd (register h v fs_ok now salt email_ password_ f))) /\
  (forall userId_ amount_ lockPeriod_ compoundType_ transactionHash_,
      code_of (fst (invest v fs_ok now userId_ amount_ lockPeriod_ compoundType_
                           transactionHash_ f)) <> Some 200%nat ->
      same_store v fs_ok f
                 (snd (invest v fs_ok now userId_ amount_ lockPeriod_
                              compoundType_ transactionHash_ f))) /\
  (code_of (fst (updateEarnings v fs_ok now f)) <> Some 200%nat ->
   same_store v fs_ok f (snd (updateEarnings v fs_ok now f))) /\
  (forall userId_, same_store v fs_ok f (snd (getUser v fs_ok userId_ f))) /\
  same_store v fs_ok f (snd (walletAddress v fs_ok f)) /\
  (forall userId_ amount_ lockPeriod_ compoundType_ transactionHash_ us,
      code_of (fst (MemoryServer.invest now userId_ amount_ lockPeriod_
                                        compoundType_ transactionHash_ us))
      <> Some 200%nat ->
      snd (MemoryServer.invest now userId_ amount_ lockPeriod_ compoundType_
                               transactionHash_ us) = us).
Proof.
  split; [| split; [| split; [| split; [| split]]]].
  - intros. now apply register_refused.
  - intros. now apply invest_refused.
  - apply updateEarnings_refused.
  - intros userId_. unfold getUser.
    pose proof (same_store_read v fs_ok f) as Hs.
    destruct (readDatabase v fs_ok f) as [d f1]. cbn [snd] in Hs.
    destruct (find _ (users d)); exact Hs.
  - unfold walletAddress.
    pose proof (same_store_read v fs_ok f) as Hs.
    destruct (readDatabase v fs_ok f) as [d f1]. cbn [snd] in Hs.
    destruct (settings d); exact Hs.
  - intros userId_ amount_ lockPeriod_ ct th us. unfold MemoryServer.invest.
    destruct (missing userId_ || negb (truthy amount_)
              || negb (truthy lockPeriod_) || missing th); [reflexivity |].
    destruct (find _ us); [| reflexivity].
    destruct (lt _ _ || gt _ _); [reflexivity |].
    cbn [fst snd code_of]. intros C. now elim C.
Qed.

Lemma refused_requests_change_nothing_witness :
  same_store Vercel true (Content store1)
             (snd (invest Vercel true 5 "user_1" (JStr "499") (JStr "12")
                          "monthly" "0xabc" (Content store1))).
Proof.
  apply (proj1 (proj2 (refused_requests_change_nothing
                         (fun p s => (s ++ p)%string) Vercel true 5%Z
                         (Content store1)))).
  unfold invest.
  change (missing "user_1" || negb (truthy (JStr "499"))
          || negb (truthy (JStr "12")) || missing "0xabc") with false.
  cbv iota. cbn [readDatabase].
  change (find (fun u => (id u =? "user_1")%string) (users store1))
    with (Some alice).
  cbv iota.
  replace (parseFloat (JStr "499")) with (Fin 499) by (symmetry; read_text).
  rewrite amount_test. rdecide. cbn. discriminate.
Defined.

(** X6.  The amount of every investment a server or the mock page creates
    is what [parseFloat] reads from the submitted amount, and it is either
    a number within [500, 1,000,000] or [NaN]: never an infinity, never a
    number outside the limits. *)
Theorem created_amount_is_within_limits_or_nan :
  (forall v fs_ok now userId_ amount_ lockPeriod_ compoundType_ transactionHash_
          f f' inv nb,
      invest v fs_ok now userId_ amount_ lockPeriod_ compoundType_
             transactionHash_ f
      = (Json 200 (BInvested inv nb), f') ->
      amount inv = parseFloat amount_ /\
      (amount inv = NaN \/
       exists p, amount inv = Fin p /\ 500 <= p <= 1000000)) /\
  (forall now userId_ amount_ lockPeriod_ compoundType_ transactionHash_
          us us' inv nb,
      MemoryServer.invest now userId_ amount_ lockPeriod_ compoundType_
                          transactionHash_ us
      = (Json 200 (BInvested inv nb), us') ->
      amount inv = parseFloat amount_ /\
      (amount inv = NaN \/
       exists p, amount inv = Fin p /\ 500 <= p <= 1000000)) /\
  (forall now txHash amountText termText compoundType_ pg pg',
      MockScript.submitTx now txHash amountText termText compoundType_ pg
      = (MockScript.Accepted, pg') ->
      exists u inv old,
        MockScript.loggedIn pg' = Some u /\
        investments u = Some (old ++ [inv]) /\
        amount inv = parseFloat_str amountText /\
        (amount inv = NaN \/
         exists p, amount inv = Fin p /\ 500 <= p <= 1000000)).
Proof.
  assert (range : forall x,
             lt x (Fin 500) || gt x (Fin 1000000) = false ->
             x = NaN \/ exists p, x = Fin p /\ 500 <= p <= 1000000).
  { intros x Hx. rewrite amount_test in Hx.
    destruct x as [| | | r]; try discriminate; [left; reflexivity |].
    right. exists r. split; [reflexivity |].
    unfold Rleb in Hx.
    destruct (Rle_dec 500 r), (Rle_dec r 1000000); try discriminate.
    split; assumption. }
  split; [| split].
  - intros v fs_ok now userId_ amount_ lockPeriod_ ct th f f' inv nb H.
    destruct (invest_success _ _ _ _ _ _ _ _ _ _ _ _ H)
      as (u & ends & _ & _ & _ & Hamt & _ & Hinv & _ & _).
    assert (Ha : amount inv = parseFloat amount_) by (rewrite Hinv; reflexivity).
    split; [exact Ha |]. rewrite Ha. now apply range.
  - intros now userId_ amount_ lockPeriod_ ct th us us' inv nb H.
    unfold MemoryServer.invest in H.
    destruct (missing userId_ || negb (truthy amount_)
              || negb (truthy lockPeriod_) || missing th); [discriminate |].
    destruct (find _ us); [| discriminate].
    destruct (lt _ _ || gt _ _) eqn:Hamt; [discriminate |].
    injection H as <- _ _. cbn [amount].
    split; [reflexivity | now apply range].
  - intros now txHash amountText termText ct pg pg' H.
    unfold MockScript.submitTx in H.
    destruct (MockScript.loggedIn pg) as [cu |]; [| discriminate].
    destruct (all_ws txHash); [discriminate |].
    destruct (lt _ _ || gt _ _) eqn:Hamt; [discriminate |].
    destruct (MockScript.mockUsers (MockScript.stored pg)) as [us |];
      [| discriminate].
    destruct (find _ us) as [u |]; [| discriminate].
    injection H as <-. cbn [MockScript.loggedIn].
    eexists _, _, _. split; [reflexivity |].
    cbn [MockScript.deposit investments amount].
    split; [reflexivity | split; [reflexivity | now apply range]].
Qed.

Lemma created_amount_is_within_limits_or_nan_witness :
  exists inv,
    amount inv = parseFloat (JStr "1000") /\
    (amount inv = NaN \/ exists p, amount inv = Fin p /\ 500 <= p <= 1000000).
Proof.
  eexists.
  exact (proj1 created_amount_is_within_limits_or_nan Vercel true
               1700000000000%Z "user_1"%string (JStr "1000") (JStr "1")
               "monthly"%string "0xabc"%string (Content store1) _ _ _
               (invest_term_1 Vercel)).
Defined.

(** X7.  Creating an investment and then reading the account is a round
    trip: the account read back has the balance of the answer and the new
    investment last in its list, with the amount, the term and the APY
    that were answered; in the Vercel server that APY is the one of the
    curve at the submitted term. *)
Theorem invest_then_getUser
        (v : variant) (fs_ok : bool) (now : Z) (userId_ : string)
        (amount_ lockPeriod_ : jsval) (compoundType_ transactionHash_ : string)
        (f f' : file) (inv : investment) (nb : jsnum) :
  invest v fs_ok now userId_ amount_ lockPeriod_ compoundType_ transactionHash_ f
  = (Json 200 (BInvested inv nb), f') ->
  forall fs_ok',
  exists uemail uearn old txs gains,
    getUser v fs_ok' userId_ f'
    = (Json 200 (BUser userId_ uemail nb uearn (old ++ [inv]) txs gains), f') /\
    (v = Vercel -> apy inv = apyFromTerm (ToNumber lockPeriod_)) /\
    (v = Local -> apy inv = apyInline (ToNumber lockPeriod_)).
Proof.
  intros H fs_ok'.
  destruct (invest_success _ _ _ _ _ _ _ _ _ _ _ _ H)
    as (u & ends & Hf & _ & _ & _ & _ & Hinv & Hnb & Hf').
  cbv zeta in *.
  assert (Hid : (id u =? userId_)%string = true) by apply (find_some _ _ Hf).
  eexists _, _, _, _, _. split; [| split].
  - unfold getUser. rewrite Hf'. cbn [readDatabase set_users users].
    rewrite (find_update_first _ _ _ u Hf) by (rewrite deposit_id; exact Hid).
    cbn [deposit id email balance totalEarnings investments transactions or_empty].
    apply String.eqb_eq in Hid. rewrite Hid, Hnb. reflexivity.
  - intros ->. rewrite Hinv. reflexivity.
  - intros ->. rewrite Hinv. reflexivity.
Qed.

Lemma invest_then_getUser_witness :
  exists r, getUser Vercel false "user_1"
                    (snd (invest Vercel true 1700000000000 "user_1" (JStr "1000")
                                 (JStr "1") "monthly" "0xabc" (Content store1)))
            = (Json 200 r,
               snd (invest Vercel true 1700000000000 "user_1" (JStr "1000")
                           (JStr "1") "monthly" "0xabc" (Content store1))).
Proof.
  destruct (invest_then_getUser Vercel true 1700000000000%Z "user_1"%string
              (JStr "1000") (JStr "1") "monthly"%string "0xabc"%string
              (Content store1) _ _ _ (invest_term_1 Vercel) false)
    as (e & t & old & txs & g & Hg & _).
  eexists. rewrite (invest_term_1 Vercel). cbn [snd]. exact Hg.
Defined.

(** ** The curve and its inline copy *)

Lemma apyInline_Fin (t : R) :
  apyInline (Fin t) = Fin (0.30 + (t - 3) / 21 * 1.70).
Proof.
  unfold apyInline, div. cbn [sub neg add]. rdecide. cbn [mul add].
  reflexivity.
Qed.

(** X8.  The plain file-backed server stamps the APY of the curve exactly
    when the term lies in [3,24]: below 3 its inline formula gives less
    than the curve, above 24 it gives more. *)
Theorem inline_apy_agrees_exactly_within_range (lockPeriod_ : jsval) (t : R) :
  ToNumber lockPeriod_ = Fin t ->
  (invest_apy Local lockPeriod_ = invest_apy Vercel lockPeriod_ <-> 3 <= t <= 24) /\
  exists x y,
    invest_apy Local lockPeriod_ = Fin x /\
    invest_apy Vercel lockPeriod_ = Fin y /\
    (t < 3 -> x < y /\ y = 0.30) /\
    (24 < t -> y < x /\ y = 2.00).
Proof.
  intros Ht. unfold invest_apy. rewrite Ht, apyInline_Fin, apyFromTerm_Fin.
  unfold apy_spec.
  destruct (Rclamp_cases t) as [[H ->] | [[H ->] | [H ->]]].
  - split.
    + split; [intros [= E]; lra | intros E; apply Fin_eq; lra].
    + eexists _, _. repeat split; lra.
  - split.
    + split; [intros _; lra | intros _; apply Fin_eq; lra].
    + eexists _, _. repeat split; lra.
  - split.
    + split; [intros [= E]; lra | intros E; apply Fin_eq; lra].
    + eexists _, _. repeat split; lra.
Qed.

Lemma inline_apy_agrees_exactly_within_range_witness :
  invest_apy Local (JStr "12") = invest_apy Vercel (JStr "12").
Proof.
  apply (proj1 (inline_apy_agrees_exactly_within_range (JStr "12") 12
                  ltac:(read_text))).
  lra.
Defined.

(** X9.  Whatever number it is given, an infinity included, the curve
    answers a rate within [0.30, 2.00]; only [NaN] gives [NaN]. *)
Theorem apyFromTerm_stays_in_range (months : jsnum) :
  (months = NaN /\ apyFromTerm months = NaN) \/
  (months <> NaN /\
   exists a, apyFromTerm months = Fin a /\ 0.30 <= a <= 2.00).
Proof.
  destruct months as [| | | t].
  - left. split; [reflexivity | apply apyFromTerm_special].
  - right. split; [discriminate |]. exists 2.00.
    split; [apply apyFromTerm_special | lra].
  - right. split; [discriminate |]. exists 0.30.
    split; [apply apyFromTerm_special | lra].
  - right. split; [discriminate |]. exists (apy_spec t).
    split; [apply apyFromTerm_Fin | apply apy_spec_range].
Qed.

(** ** Accrual ticks *)





(** X11.  For an investment with a principal within the limits
    [500, 1,000,000] and an APY within the range [0.30, 2.00] of the curve,
    both file-backed servers accrue a positive gain at each tick, and the
    compounding Vercel server accrues strictly less than the pro-rating
    plain server; the same holds of the weekly gains that
    /api/user/:userId reports. *)
Theorem vercel_accrues_less_than_local (inv : investment) (p a : R) :
  amount inv = Fin p -> apy inv = Fin a ->
  500 <= p <= 1000000 -> 0.30 <= a <= 2.00 ->
  (exists x y,
      period_earnings Vercel 365 inv = Fin x /\
      period_earnings Local 365 inv = Fin y /\ 0 < x < y) /\
  (exists x y,
      period_earnings Vercel 52 inv = Fin x /\
      period_earnings Local 52 inv = Fin y /\ 0 < x < y).
Proof.
  intros Hp Ha Rp Ra.
  assert (Pp : 0 < p) by lra.
  assert (Pa : 0 < a) by lra.
  assert (G : forall n : nat, (2 <= n)%nat ->
             exists x y,
               period_earnings Vercel (INR n) inv = Fin x /\
               period_earnings Local (INR n) inv = Fin y /\ 0 < x < y).
  { intros n Hn.
    assert (Hn0 : 0 < INR n) by (apply lt_0_INR; lia).
    exists (p * (Rpower (1 + a) (1 / INR n) - 1)), (p * a / INR n).
    split; [apply period_earnings_Vercel; (assumption || lra) |].
    split; [apply period_earnings_Local; (assumption || lra) |].
    pose proof (compound_rate_below_simple a n Pa Hn) as Hlt.
    assert (Hgt : 1 < Rpower (1 + a) (1 / INR n)).
    { rewrite <- (Rpower_O (1 + a)) at 1 by lra.
      apply Rpower_lt; [lra |]. apply Rdiv_lt_0_compat; lra. }
    split; [nra |].
    unfold Rdiv at 2. rewrite Rmult_assoc.
    apply Rmult_lt_compat_l; [exact Pp |]. exact Hlt. }
  split.
  - replace 365 with (INR 365) by (rewrite INR_IZR_INZ; reflexivity).
    apply G. lia.
  - replace 52 with (INR 52) by (rewrite INR_IZR_INZ; reflexivity).
    apply G. lia.
Qed.

Lemma vercel_accrues_less_than_local_witness :
  exists x y,
    period_earnings Vercel 365 sample_investment = Fin x /\
    period_earnings Local 365 sample_investment = Fin y /\ 0 < x < y.
Proof.
  apply (proj1 (vercel_accrues_less_than_local sample_investment 1000 0.30
                  eq_refl eq_refl ltac:(lra) ltac:(lra))).
Defined.

(** ** Accounts in good standing *)

Lemma Forall_update_first {A : Type} (P : A -> Prop) (p : A -> bool)
      (g : A -> A) (l : list A) :
  Forall P l -> (forall x, In x l -> P x -> P (g x)) ->
  Forall P (update_first p g l).
Proof.
  induction l as [| y r IH]; intros Hall Hg; [constructor |].
  inversion Hall as [| ? ? Hy Hr]; subst.
  cbn [update_first]. destruct (p y).
  - constructor; [apply Hg; [left; reflexivity | exact Hy] | exact Hr].
  - constructor; [exact Hy |].
    apply IH; [exact Hr |]. intros x Hx. apply Hg. right. exact Hx.
Qed.

Lemma solvent_new_account (v : variant) (i e p : string) (c l : option Z)
      (t : option (list transaction)) (a : option bool) :
  solvent v (mkUser i e p c l (Fin 0) (Fin 0) (Some []) t a).
Proof.
  exists [], 0, 0. cbn [investments balance totalEarnings].
  split; [reflexivity | split; [constructor |]].
  split; [reflexivity | split; [reflexivity | split; [lra | intros _; lra]]].
Qed.

Lemma solvent_set_lastLogin (v : variant) (t : Z) (u : user) :
  solvent v u -> solvent v (set_lastLogin t u).
Proof. intros (l & b & e & H). exists l, b, e. exact H. Qed.

Lemma solvent_deposit (v : variant) (u : user) (inv : investment)
      (tx : transaction) :
  solvent v u -> sound_investment v inv -> solvent v (deposit u inv tx).
Proof.
  intros (l & b & t & Hl & Hall & Hb & Ht & Hle & Hpos) Hs.
  pose proof Hs as ((p & Hp & Hrange) & _).
  exists (l ++ [inv]), (b + p), t.
  cbn [deposit investments balance totalEarnings].
  rewrite Hl, Hb, Hp. cbn [or_empty add].
  split; [reflexivity |].
  split; [apply Forall_app; split;
          [exact Hall | constructor; [exact Hs | constructor]] |].
  split; [reflexivity | split; [exact Ht | split; [lra | exact Hpos]]].
Qed.

(** A term with a valid end date reads as a number. *)
Lemma valid_end_date_finite_term (now : Z) (lockPeriod_ : jsval) (ends : Z) :
  toISOString (end_time now lockPeriod_) = Some ends ->
  exists t, ToNumber lockPeriod_ = Fin t.
Proof.
  unfold end_time. destruct (ToNumber lockPeriod_) as [| | | t].
  - discriminate.
  - cbn [mul]. rdecide. cbn [inf_of mul]. rdecide. cbn [inf_of mul].
    rdecide. cbn [inf_of mul]. rdecide. cbn [inf_of mul]. rdecide.
    cbn [inf_of add toISOString]. discriminate.
  - cbn [mul]. rdecide. cbn [inf_of mul]. rdecide. cbn [inf_of mul].
    rdecide. cbn [inf_of mul]. rdecide. cbn [inf_of mul]. rdecide.
    cbn [inf_of add toISOString]. discriminate.
  - intros _. exists t. reflexivity.
Qed.

Lemma new_investment_sound (v : variant) (now : Z) (userId_ : string)
      (amount_ lockPeriod_ : jsval) (compoundType_ transactionHash_ : string)
      (ends : Z) :
  isNaN (parseFloat amount_) = false ->
  lt (parseFloat amount_) (Fin 500) || gt (parseFloat amount_) (Fin 1000000)
  = false ->
  toISOString (end_time now lockPeriod_) = Some ends ->
  sound_investment v (new_investment v now userId_ amount_ lockPeriod_
                                     compoundType_ transactionHash_ ends).
Proof.
  intros Hnan Hamt Hend.
  destruct (valid_end_date_finite_term _ _ _ Hend) as (t & Ht).
  unfold sound_investment. cbn [new_investment amount apy totalEarned].
  split; [| split].
  - rewrite amount_test in Hamt.
    destruct (parseFloat amount_) as [| | | r]; try discriminate.
    exists r. split; [reflexivity |].
    unfold Rleb in Hamt.
    destruct (Rle_dec 500 r), (Rle_dec r 1000000); try discriminate.
    split; assumption.
  - unfold invest_apy. rewrite Ht. destruct v.
    + exists (apy_spec t). split; [apply apyFromTerm_Fin |].
      intros _. apply apy_spec_range.
    + eexists. split; [apply apyInline_Fin | discriminate].
  - exists 0. split; [reflexivity | intros _; lra].
Qed.

(** One tick on a sound investment adds the same finite gain, not
    negative in the Vercel server, to both accumulators. *)
Lemma accrue_sound_investment (v : variant) (now : Z) (b t : R)
      (inv : investment) :
  sound_investment v inv ->
  exists (D : R) (inv' : investment),
    accrue_investment v now (Fin b, Fin t) inv = ((Fin (b + D), Fin (t + D)), inv')
    /\ sound_investment v inv'
    /\ (v = Vercel -> 0 <= D).
Proof.
  intros Hs.
  destruct Hs as ((p & Hp & Hrange) & (a & Ha & Harange) & (e & He & Hepos)).
  destruct (is_active inv) eqn:Hact.
  - assert (Hd : exists D, period_earnings v 365 inv = Fin D
                           /\ (v = Vercel -> 0 <= D)).
    { destruct v.
      - specialize (Harange eq_refl).
        exists (p * (Rpower (1 + a) (1 / 365) - 1)). split.
        + apply period_earnings_Vercel; (assumption || lra).
        + intros _.
          assert (1 < Rpower (1 + a) (1 / 365)).
          { rewrite <- (Rpower_O (1 + a)) at 1 by lra.
            apply Rpower_lt; lra. }
          nra.
      - exists (p * a / 365). split; [| discriminate].
        apply period_earnings_Local; (assumption || lra). }
    destruct Hd as (D & HD & HDpos).
    rewrite (accrue_investment_active v now _ inv Hact), HD, He.
    cbn [fst snd add plus_assign].
    eexists D, _. split; [reflexivity |].
    split; [| exact HDpos].
    unfold sound_investment. cbn [amount apy totalEarned].
    split; [exists p; split; assumption |].
    split; [exists a; split; assumption |].
    exists (e + D). split; [reflexivity |].
    intros Hv. specialize (Hepos Hv). specialize (HDpos Hv). lra.
  - rewrite (accrue_investment_inactive v now _ inv Hact).
    exists 0, inv. split; [f_equal; f_equal; apply Fin_eq; lra |].
    split; [| intros _; lra].
    split; [exists p; split; assumption |].
    split; [exists a; split; assumption | exists e; split; assumption].
Qed.

Lemma accrue_sound_investments (v : variant) (now : Z) (l : list investment) :
  Forall (sound_investment v) l ->
  forall b t,
  exists (D : R) (l' : list investment),
    accrue_investments v now (Fin b, Fin t) l = ((Fin (b + D), Fin (t + D)), l')
    /\ Forall (sound_investment v) l'
    /\ (v = Vercel -> 0 <= D).
Proof.
  induction 1 as [| inv r Hinv _ IH]; intros b t.
  - exists 0, []. cbn [accrue_investments map].
    split; [f_equal; f_equal; apply Fin_eq; lra |].
    split; [constructor | intros _; lra].
  - destruct (accrue_sound_investment v now b t inv Hinv)
      as (D1 & inv' & E1 & S1 & P1).
    destruct (IH (b + D1) (t + D1)) as (D2 & r' & E2 & S2 & P2).
    exists (D1 + D2), (inv' :: r').
    cbn [accrue_investments]. rewrite E1, E2.
    split; [f_equal; f_equal; apply Fin_eq; lra |].
    split; [constructor; assumption |].
    intros Hv. specialize (P1 Hv). specialize (P2 Hv). lra.
Qed.

Lemma solvent_accrue_user (v : variant) (now : Z) (u : user) :
  solvent v u -> solvent v (accrue_user v now u).
Proof.
  intros (l & b & t & Hl & Hall & Hb & Ht & Hle & Hpos).
  unfold accrue_user. rewrite Hl, Hb, Ht.
  destruct (accrue_sound_investments v now l Hall b t)
    as (D & l' & E & S & P).
  rewrite E. exists l', (b + D), (t + D).
  cbn [investments balance totalEarnings].
  split; [reflexivity | split; [exact S |]].
  split; [reflexivity | split; [reflexivity | split; [lra |]]].
  intros Hv. specialize (P Hv). specialize (Hpos Hv). lra.
Qed.

Lemma solvent_read (v : variant) (fs_ok : bool) (f : file) :
  solvent_file v f ->
  Forall (solvent v) (users (fst (readDatabase v fs_ok f))) /\
  solvent_file v (snd (readDatabase v fs_ok f)).
Proof.
  destruct f as [| | d]; destruct v, fs_ok; cbn; intros H;
    split; trivial; constructor.
Qed.

Lemma step_keeps_solvent
      (h : string -> string -> string) (c : string -> string -> bool)
      (v : variant) (f f' : file) :
  step h c true v f f' -> solvent_file v f -> solvent_file v f'.
Proof.
  intros Hstep Hf.
  destruct Hstep as [fs_ok now salt email_ password_ f
                    | fs_ok now email_ password_ f
                    | fs_ok now userId_ amount_ lockPeriod_ ct th f Hnan
                    | fs_ok userId_ f
                    | fs_ok f
                    | fs_ok now f];
    destruct (solvent_read v fs_ok f Hf) as [Hd Hf1].
  - unfold register.
    destruct (missing email_ || missing password_); [exact Hf |].
    destruct (readDatabase v fs_ok f) as [d f1]. cbn [fst snd] in *.
    destruct (find _ (users d)); [exact Hf1 |].
    destruct (10 <=? _)%nat; [exact Hf1 |].
    unfold writeDatabase. destruct fs_ok; cbn [snd]; [| exact Hf1].
    cbn [solvent_file set_users users].
    apply Forall_app. split; [exact Hd |].
    constructor; [apply solvent_new_account | constructor].
  - unfold login.
    destruct (missing email_ || missing password_); [exact Hf |].
    destruct (readDatabase v fs_ok f) as [d f1]. cbn [fst snd] in *.
    destruct (find _ (users d)) as [u |]; [| exact Hf1].
    destruct (isActive u) as [[|] |]; try exact Hf1.
    destruct (negb _); [exact Hf1 |].
    unfold writeDatabase. destruct fs_ok; cbn [snd]; [| exact Hf1].
    cbn [solvent_file set_users users].
    apply Forall_update_first; [exact Hd |].
    intros x _. apply solvent_set_lastLogin.
  - unfold invest.
    destruct (missing userId_ || negb (truthy amount_)
              || negb (truthy lockPeriod_) || missing th); [exact Hf |].
    destruct (readDatabase v fs_ok f) as [d f1]. cbn [fst snd] in *.
    destruct (find _ (users d)) as [u |] eqn:Hfind; [| exact Hf1].
    destruct (lt _ _ || gt _ _) eqn:Hamt; [exact Hf1 |].
    destruct (toISOString _) as [ends |] eqn:Hend; [| exact Hf1].
    unfold writeDatabase. destruct fs_ok; cbn [snd]; [| exact Hf1].
    cbn [solvent_file set_users users].
    apply Forall_update_first; [exact Hd |].
    intros x _ _.
    apply (solvent_deposit v u
             (new_investment v now userId_ amount_ lockPeriod_ ct th ends)).
    + rewrite Forall_forall in Hd. apply Hd. apply (find_some _ _ Hfind).
    + apply new_investment_sound; [now apply Hnan | assumption | assumption].
  - unfold getUser.
    destruct (readDatabase v fs_ok f) as [d f1]. cbn [fst snd] in *.
    destruct (find _ (users d)); exact Hf1.
  - unfold walletAddress.
    destruct (readDatabase v fs_ok f) as [d f1]. cbn [fst snd] in *.
    destruct (settings d); exact Hf1.
  - unfold updateEarnings.
    destruct (readDatabase v fs_ok f) as [d f1]. cbn [fst snd] in *.
    unfold writeDatabase. destruct fs_ok; cbn [snd]; [| exact Hf1].
    cbn [solvent_file set_users users].
    apply Forall_forall. intros u' Hu'. apply in_map_iff in Hu'.
    destruct Hu' as (u & <- & Hu).
    apply solvent_accrue_user. rewrite Forall_forall in Hd. now apply Hd.
Qed.

(** X12.  Good standing is an invariant of the file-backed servers.
    Starting from a data file that is missing, corrupt or without
    accounts, and as long as no investment is made with an amount that
    reads as [NaN], after any sequence of registrations, logins,
    investments, reads and accrual ticks (failed ones included) every
    account has a balance and earnings that are numbers, with
    totalEarnings <= balance, and every investment has a principal within
    [500, 1,000,000], an APY and earnings that are numbers.  In the
    Vercel server, moreover, every APY lies in [0.30, 2.00], the earnings
    of every investment are not negative, and 0 <= totalEarnings. *)
Theorem reachable_stores_are_solvent
        (h : string -> string -> string) (c : string -> string -> bool)
        (v : variant) (f : file) :
  reachable h c v f ->
  forall d u, f = Content d -> In u (users d) ->
  exists l b t,
    investments u = Some l /\
    balance u = Fin b /\ totalEarnings u = Fin t /\
    t <= b /\ (v = Vercel -> 0 <= t) /\
    forall inv, In inv l ->
      (exists p, amount inv = Fin p /\ 500 <= p <= 1000000) /\
      (exists a, apy inv = Fin a /\ (v = Vercel -> 0.30 <= a <= 2.00)) /\
      (exists e, totalEarned inv = Some (Fin e) /\ (v = Vercel -> 0 <= e)).
Proof.
  intros Hr.
  assert (Hs : solvent_file v f).
  { induction Hr as [| | s | f f' _ IH Hstep]; try exact I.
    - cbn. constructor.
    - exact (step_keeps_solvent h c v f f' Hstep IH). }
  intros d u -> Hu. cbn in Hs. rewrite Forall_forall in Hs.
  destruct (Hs u Hu) as (l & b & t & Hl & Hall & Hb & Ht & Hle & Hpos).
  exists l, b, t.
  split; [exact Hl | split; [exact Hb | split; [exact Ht |]]].
  split; [exact Hle | split; [exact Hpos |]].
  intros inv Hin. rewrite Forall_forall in Hall. exact (Hall inv Hin).
Qed.

Lemma reachable_stores_are_solvent_witness :
  let bob :=
    mkUser (stamp_id "user_" 7) "bob@example.com" "salthunter2"
           (Some 7%Z) (Some 7%Z) (Fin 0) (Fin 0) (Some []) None (Some true) in
  exists b t, balance bob = Fin b /\ totalEarnings bob = Fin t /\ t <= b.
Proof.
  intros bob.
  destruct (reachable_stores_are_solvent
              (fun p s => (s ++ p)%string) (fun _ _ => true) Vercel _
              (reach_step _ _ Vercel _ _
                 (reach_empty _ _ Vercel None)
                 (step_register _ _ true Vercel true 7%Z "salt"%string
                    "bob@example.com"%string "hunter2"%string
                    (Content (mkDb [] None))))
              (mkDb [bob] None) bob eq_refl (or_introl eq_refl))
    as (l & b & t & _ & Hb & Ht & Hle & _).
  exists b, t. split; [exact Hb | split; [exact Ht | exact Hle]].
Defined.

(** ** Identifiers *)

Lemma find_app_first {A : Type} (p : A -> bool) (l r : list A) (x : A) :
  find p l = None -> p x = true -> find p (l ++ x :: r) = Some x.
Proof.
  intros Hn Hx. induction l as [| y t IH].
  - cbn. now rewrite Hx.
  - cbn [find app] in *. destruct (p y); [discriminate | now apply IH].
Qed.

Lemma append_cancel (p a b : string) : (p ++ a)%string = (p ++ b)%string -> a = b.
Proof.
  induction p as [| ch p IH]; cbn [String.append]; [trivial |].
  intros [= E]. now apply IH.
Qed.

Lemma decimal_of_Z_inj (n n' : Z) :
  NilZero.string_of_int (Z.to_int n) = NilZero.string_of_int (Z.to_int n') ->
  n = n'.
Proof.
  intros E. apply DecimalZ.to_int_inj.
  assert (G : forall z, NilZero.int_of_string (NilZero.string_of_int (Z.to_int z))
                        = Some (Z.to_int z)).
  { intros z. apply NilZero.isi; destruct z; cbn; try discriminate;
      intros [= C]; now apply DecimalPos.Unsigned.to_uint_nonnil in C. }
  pose proof (G n) as Gn. rewrite E, G in Gn. now injection Gn.
Qed.

Lemma stamp_id_inj (prefix : string) (n n' : Z) :
  stamp_id prefix n = stamp_id prefix n' <-> n = n'.
Proof.
  split; [| now intros ->].
  unfold stamp_id. intros E. apply append_cancel in E.
  now apply decimal_of_Z_inj.
Qed.

(** X13.  Account ids are time stamps: two accounts registered one after
    the other have the same id exactly when they were registered in the
    same millisecond.  When they have, and no older account has that id,
    every lookup by that id (/api/invest, /api/user/:userId) finds the
    first of the two, so the second can never be invested in or read. *)
Theorem ids_collide_within_a_millisecond
        (h : string -> string -> string) (v : variant)
        (fs1 fs2 : bool) (now1 now2 : Z)
        (salt1 salt2 email1 email2 password1 password2 : string)
        (f f1 f2 : file) (b1 b2 : body) :
  register h v fs1 now1 salt1 email1 password1 f = (Json 200 b1, f1) ->
  register h v fs2 now2 salt2 email2 password2 f1 = (Json 200 b2, f2) ->
  exists u1 u2 d2,
    f2 = Content d2 /\
    users d2 = users (fst (readDatabase v fs1 f)) ++ [u1; u2] /\
    email u1 = email1 /\ email u2 = email2 /\ email1 <> email2 /\
    b1 = BRegistered (id u1) email1 (Fin 0) /\
    b2 = BRegistered (id u2) email2 (Fin 0) /\
    (id u1 = id u2 <-> now1 = now2) /\
    (now1 = now2 ->
     find (fun w => (id w =? id u2)%string) (users (fst (readDatabase v fs1 f)))
     = None ->
     find (fun w => (id w =? id u2)%string) (users d2) = Some u1).
Proof.
  intros H1 H2.
  destruct (register_success _ _ _ _ _ _ _ _ _ _ H1)
    as (_ & _ & _ & _ & _ & -> & ->).
  destruct (register_success _ _ _ _ _ _ _ _ _ _ H2)
    as (_ & _ & Hfresh & _ & _ & -> & ->).
  cbn [readDatabase fst set_users users] in *.
  eexists _, _, _. split; [reflexivity |].
  split; [now rewrite <- app_assoc |].
  cbn [email id].
  split; [reflexivity | split; [reflexivity | split; [| split; [| split; [| split]]]]];
    try reflexivity.
  - intros ->.
    assert (C : find (fun u => (email u =? email2)%string)
                     (users (fst (readDatabase v fs1 f))
                      ++ [mkUser (stamp_id "user_" now1) email2
                                 (h password1 salt1) (Some now1) (Some now1)
                                 (Fin 0) (Fin 0) (Some []) None (Some true)])
                <> None).
    { destruct (find (fun u => (email u =? email2)%string)
                     (users (fst (readDatabase v fs1 f)))) as [w |] eqn:E.
      - now rewrite (find_app_old _ _ _ _ E).
      - rewrite (find_app_new _ _ _ E); [discriminate |].
        cbn [email]. apply String.eqb_refl. }
    now apply C.
  - apply stamp_id_inj.
  - intros -> Hold.
    rewrite <- app_assoc. cbn [app].
    apply find_app_first; [exact Hold |].
    cbn [id]. apply String.eqb_refl.
Qed.

Lemma register_dave :
  register (fun p s => (s ++ p)%string) Vercel true 7 "salt" "dave@example.com"
           "secret"
           (snd (register (fun p s => (s ++ p)%string) Vercel true 7 "salt"
                          "bob@example.com" "hunter2" (Content store1)))
  = (Json 200 (BRegistered (stamp_id "user_" 7) "dave@example.com" (Fin 0)),
     Content (mkDb [alice;
                    mkUser (stamp_id "user_" 7) "bob@example.com" "salthunter2"
                           (Some 7%Z) (Some 7%Z) (Fin 0) (Fin 0) (Some []) None
                           (Some true);
                    mkUser (stamp_id "user_" 7) "dave@example.com" "saltsecret"
                           (Some 7%Z) (Some 7%Z) (Fin 0) (Fin 0) (Some []) None
                           (Some true)]
                   (Some (mkSettings wallet)))).
Proof. reflexivity. Qed.

Lemma ids_collide_within_a_millisecond_witness :
  exists u1 u2, email u1 = "bob@example.com"%string
                /\ email u2 = "dave@example.com"%string /\ id u1 = id u2.
Proof.
  destruct (ids_collide_within_a_millisecond
              (fun p s => (s ++ p)%string) Vercel true true 7%Z 7%Z
              "salt"%string "salt"%string "bob@example.com"%string
              "dave@example.com"%string "hunter2"%string "secret"%string
              (Content store1) _ _ _ _ register_bob register_dave)
    as (u1 & u2 & d2 & _ & _ & E1 & E2 & _ & _ & _ & Hid & _).
  exists u1, u2. split; [exact E1 | split; [exact E2 |]].
  apply Hid. reflexivity.
Defined.

(** ** The settings *)

Lemma settings_read (v : variant) (fs_ok fs_ok' : bool) (f : file) :
  settings (fst (readDatabase v fs_ok' (snd (readDatabase v fs_ok f))))
  = settings (fst (readDatabase v fs_ok f))
  /\ settings (fst (readDatabase v fs_ok' f))
     = settings (fst (readDatabase v fs_ok f)).
Proof. destruct f, v, fs_ok, fs_ok'; split; reflexivity. Qed.

Lemma step_keeps_settings
      (h : string -> string -> string) (c : string -> string -> bool)
      (v : variant) (f f' : file) :
  step h c false v f f' ->
  forall fs_ok fs_ok',
    settings (fst (readDatabase v fs_ok' f'))
    = settings (fst (readDatabase v fs_ok f)).
Proof.
  intros Hstep fs fs'.
  assert (Same : settings (fst (readDatabase v fs' f))
                 = settings (fst (readDatabase v fs f)))
    by apply settings_read.
  destruct Hstep as [fs_ok now salt email_ password_ f
                    | fs_ok now email_ password_ f
                    | fs_ok now userId_ amount_ lockPeriod_ ct th f Hnan
                    | fs_ok userId_ f
                    | fs_ok f
                    | fs_ok now f];
    pose proof (proj1 (settings_read v fs_ok fs' f)) as Hread;
    pose proof (proj2 (settings_read v fs fs_ok f)) as Hfs.
  - unfold register.
    destruct (missing email_ || missing password_); [cbn [snd]; exact Same |].
    revert Hread Hfs. destruct (readDatabase v fs_ok f) as [d f1].
    cbn [fst snd]. intros Hread Hfs.
    destruct (find _ (users d)); [(cbn [snd]; congruence) |].
    destruct (10 <=? _)%nat; [(cbn [snd]; congruence) |].
    unfold writeDatabase. destruct fs_ok; cbn [snd]; [| (cbn [snd]; congruence)].
    cbn [readDatabase fst set_users settings]. (cbn [snd]; congruence).
  - unfold login.
    destruct (missing email_ || missing password_); [cbn [snd]; exact Same |].
    revert Hread Hfs. destruct (readDatabase v fs_ok f) as [d f1].
    cbn [fst snd]. intros Hread Hfs.
    destruct (find _ (users d)) as [u |]; [| (cbn [snd]; congruence)].
    destruct (isActive u) as [[|] |]; try (cbn [snd]; congruence).
    destruct (negb _); [(cbn [snd]; congruence) |].
    unfold writeDatabase. destruct fs_ok; cbn [snd]; [| (cbn [snd]; congruence)].
    cbn [readDatabase fst set_users settings]. (cbn [snd]; congruence).
  - unfold invest.
    destruct (missing userId_ || negb (truthy amount_)
              || negb (truthy lockPeriod_) || missing th); [cbn [snd]; exact Same |].
    revert Hread Hfs. destruct (readDatabase v fs_ok f) as [d f1].
    cbn [fst snd]. intros Hread Hfs.
    destruct (find _ (users d)) as [u |]; [| (cbn [snd]; congruence)].
    destruct (lt _ _ || gt _ _); [(cbn [snd]; congruence) |].
    destruct (toISOString _); [| (cbn [snd]; congruence)].
    unfold writeDatabase. destruct fs_ok; cbn [snd]; [| (cbn [snd]; congruence)].
    cbn [readDatabase fst set_users settings]. (cbn [snd]; congruence).
  - unfold getUser.
    revert Hread Hfs. destruct (readDatabase v fs_ok f) as [d f1].
    cbn [fst snd]. intros Hread Hfs.
    destruct (find _ (users d)); (cbn [snd]; congruence).
  - unfold walletAddress.
    revert Hread Hfs. destruct (readDatabase v fs_ok f) as [d f1].
    cbn [fst snd]. intros Hread Hfs.
    destruct (settings d); (cbn [snd]; congruence).
  - unfold updateEarnings.
    revert Hread Hfs. destruct (readDatabase v fs_ok f) as [d f1].
    cbn [fst snd]. intros Hread Hfs.
    unfold writeDatabase. destruct fs_ok; cbn [snd]; [| (cbn [snd]; congruence)].
    cbn [readDatabase fst set_users settings]. (cbn [snd]; congruence).
Qed.

(** X14.  No request ever changes the settings: along any sequence of
    requests to a file-backed server the wallet-address operation keeps
    giving the answer it gave at the start.  In particular, once the data
    file of the plain server has been corrupt or missing, the operation
    throws for good, even after later requests have rewritten the file
    with accounts. *)
Theorem wallet_answer_never_changes
        (h : string -> string -> string) (c : string -> string -> bool)
        (v : variant) (f f' : file) :
  run h c v f f' ->
  (forall fs_ok fs_ok',
      fst (walletAddress v fs_ok' f') = fst (walletAddress v fs_ok f)) /\
  (v = Local -> f = Corrupt \/ f = Missing ->
   forall fs_ok, fst (walletAddress Local fs_ok f') = Uncaught).
Proof.
  intros Hrun.
  assert (G : forall fs fs',
             settings (fst (readDatabase v fs' f'))
             = settings (fst (readDatabase v fs f))).
  { induction Hrun as [f | f f1 f2 _ IH Hstep]; intros fs fs'.
    - apply settings_read.
    - rewrite (step_keeps_settings h c v f1 f2 Hstep fs fs'). apply IH. }
  assert (W : forall fs fs',
             fst (walletAddress v fs' f') = fst (walletAddress v fs f)).
  { intros fs fs'. unfold walletAddress. specialize (G fs fs').
    destruct (readDatabase v fs' f') as [d' g'].
    destruct (readDatabase v fs f) as [d g]. cbn [fst] in G.
    rewrite G. destruct (settings d); reflexivity. }
  split; [exact W |].
  intros -> Hf fs. rewrite (W fs fs).
  destruct Hf as [-> | ->]; reflexivity.
Qed.

Lemma wallet_answer_never_changes_witness :
  fst (walletAddress Local true
         (snd (register (fun p s => (s ++ p)%string) Local true 7 "salt"
                        "bob@example.com" "hunter2" Corrupt)))
  = Uncaught.
Proof.
  apply (proj2 (wallet_answer_never_changes
                  (fun p s => (s ++ p)%string) (fun _ _ => true) Local
                  Corrupt _
                  (run_step _ _ Local _ _ _ (run_done _ _ Local Corrupt)
                     (step_register _ _ false Local true 7%Z "salt"%string
                        "bob@example.com"%string "hunter2"%string Corrupt)))
               eq_refl (or_introl eq_refl) true).
Defined.

(** ** The connected scripts and the server *)

Lemma network_error_nonempty (s : Client.front) :
  (Client.network_error s =? "")%string = false.
Proof. destruct s; reflexivity. Qed.

Lemma register_status
      (h : string -> string -> string) (v : variant) (fs_ok : bool) (now : Z)
      (salt email_ password_ : string) (f : file) :
  match fst (register h v fs_ok now salt email_ password_ f) with
  | Json code b =>
      (code = 200%nat /\ exists i e x, b = BRegistered i e x) \/
      ((code = 400%nat \/ code = 500%nat) /\ exists m, b = BError m)
  | Uncaught => False
  end.
Proof.
  unfold register.
  destruct (missing email_ || missing password_); [cbn; right; eauto |].
  destruct (readDatabase v fs_ok f) as [d f1].
  destruct (find _ (users d)); [cbn; right; eauto |].
  destruct (10 <=? _)%nat; [cbn; right; eauto |].
  destruct (writeDatabase fs_ok _ f1) as [[|] f2]; cbn; [left | right]; eauto 10.
Qed.

Lemma login_status
      (c : string -> string -> bool) (v : variant) (fs_ok : bool) (now : Z)
      (email_ password_ : string) (f : file) :
  match fst (login c v fs_ok now email_ password_ f) with
  | Json code b =>
      (code = 200%nat /\ exists i e x y z, b = BLoggedIn i e x y z) \/
      (code = 400%nat /\ exists m, b = BError m)
  | Uncaught => False
  end.
Proof.
  unfold login.
  destruct (missing email_ || missing password_); [cbn; right; eauto |].
  destruct (readDatabase v fs_ok f) as [d f1].
  destruct (find _ (users d)) as [u |]; [| cbn; right; eauto].
  destruct (isActive u) as [[|] |]; try (cbn; right; eauto).
  destruct (negb _); [cbn; right; eauto |].
  destruct (writeDatabase fs_ok _ f1) as [ok f2]. cbn. left.
  split; [reflexivity | eauto 10].
Qed.

Lemma invest_status
      (v : variant) (fs_ok : bool) (now : Z) (userId_ : string)
      (amount_ lockPeriod_ : jsval) (compoundType_ transactionHash_ : string)
      (f : file) :
  match fst (invest v fs_ok now userId_ amount_ lockPeriod_ compoundType_
                    transactionHash_ f) with
  | Json code b =>
      (code = 200%nat /\ exists inv nb, b = BInvested inv nb) \/
      ((code = 400%nat \/ code = 404%nat \/ code = 500%nat)
       /\ exists m, b = BError m)
  | Uncaught => True
  end.
Proof.
  unfold invest.
  destruct (missing userId_ || negb (truthy amount_) || negb (truthy lockPeriod_)
            || missing transactionHash_); [cbn; right; eauto |].
  destruct (readDatabase v fs_ok f) as [d f1].
  destruct (find _ (users d)) as [u |]; [| cbn; right; eauto].
  destruct (lt _ _ || gt _ _); [cbn; right; eauto |].
  destruct (toISOString _); [| exact I].
  destruct (writeDatabase fs_ok _ f1) as [[|] f2]; cbn; [left | right]; eauto 10.
Qed.

Lemma loginUser_result
      (c : string -> string -> bool) (s : Client.front) (v : variant)
      (net fs_ok : bool) (now : Z) (email_ password_ : string)
      (pg : Client.page) (f : file) :
  let result := fst (fst (Client.loginUser c s v net fs_ok now email_
                                           password_ pg f)) in
  (exists i e x y z, result = BLoggedIn i e x y z) \/
  result = BError (Client.network_error s).
Proof.
  cbv zeta. unfold Client.loginUser, Client.request. destruct net.
  - pose proof (login_status c v fs_ok now email_ password_ f) as St.
    destruct (login c v fs_ok now email_ password_ f) as [r f1].
    cbn [fst] in St. destruct r as [code b |]; [| contradiction].
    destruct St as [[-> (i & e & x & y & z & ->)] | [-> (m & ->)]].
    + left. cbn. eauto 10.
    + right. reflexivity.
  - right. reflexivity.
Qed.

(** X15.  The connected scripts never show an error message of the
    server.  Whatever the server answers, and whether or not the network
    works, [loginUser] and [registerUser] return either the user of a
    successful login or the fixed network message of the script, and the
    submit button either accepts the investment or alerts one of three
    messages: not logged in, no transaction hash, or that same network
    message.  "User already exists", "Invalid password" or the amount
    limits are never displayed. *)
Theorem connected_scripts_hide_server_errors
        (h : string -> string -> string) (c : string -> string -> bool)
        (s : Client.front) (v : variant) (pg : Client.page) (f : file) :
  (forall net fs_ok now email_ password_,
      let result := fst (fst (Client.loginUser c s v net fs_ok now email_
                                               password_ pg f)) in
      (exists i e x y z, result = BLoggedIn i e x y z) \/
      result = BError (Client.network_error s)) /\
  (forall net1 fs1 now1 salt net2 fs2 now2 email_ password_,
      let result := fst (fst (Client.registerUser h c s v net1 fs1 now1 salt
                                                  net2 fs2 now2 email_
                                                  password_ pg f)) in
      (exists i e x y z, result = BLoggedIn i e x y z) \/
      result = BError (Client.network_error s)) /\
  (forall net fs_ok now txHash amountText termText compoundType_,
      let outcome := fst (fst (Client.submitTx s v net fs_ok now txHash
                                               amountText termText
                                               compoundType_ pg f)) in
      outcome = Client.Accepted \/
      outcome = Client.Alerted "Please login first" \/
      outcome = Client.Alerted "Please enter your transaction hash" \/
      outcome = Client.Alerted (Client.network_error s)).
Proof.
  split; [| split].
  - intros. apply loginUser_result.
  - intros net1 fs1 now1 salt net2 fs2 now2 email_ password_. cbv zeta.
    unfold Client.registerUser, Client.request. destruct net1.
    + pose proof (register_status h v fs1 now1 salt email_ password_ f) as St.
      destruct (register h v fs1 now1 salt email_ password_ f) as [r f1].
      cbn [fst] in St. destruct r as [code b |]; [| contradiction].
      destruct St as [[-> (i & e & x & ->)] | [[-> | ->] (m & ->)]].
      * cbn [Client.apiRequest Nat.leb andb Client.success].
        apply loginUser_result.
      * right. reflexivity.
      * right. reflexivity.
    + right. reflexivity.
  - intros net fs_ok now txHash amountText termText ct. cbv zeta.
    unfold Client.submitTx.
    destruct (Client.currentUser pg) as [cu |]; [| right; left; reflexivity].
    destruct (all_ws txHash); [right; right; left; reflexivity |].
    unfold Client.request. destruct net.
    + pose proof (invest_status v fs_ok now (Client.v_id cu) (JStr amountText)
                                (JStr termText) ct txHash f) as St.
      destruct (invest v fs_ok now (Client.v_id cu) (JStr amountText)
                       (JStr termText) ct txHash f) as [r f1].
      cbn [fst] in St. destruct r as [code b |].
      * destruct St as [[-> (inv & nb & ->)] | [[-> | [-> | ->]] (m & ->)]].
        -- left. reflexivity.
        -- right; right; right. cbn. now rewrite network_error_nonempty.
        -- right; right; right. cbn. now rewrite network_error_nonempty.
        -- right; right; right. cbn. now rewrite network_error_nonempty.
      * right; right; right. cbn. now rewrite network_error_nonempty.
    + right; right; right. cbn. now rewrite network_error_nonempty.
Qed.

Lemma connected_scripts_hide_server_errors_witness :
  fst (fst (Client.loginUser (fun p hashed => (hashed =? "salt" ++ p)%string)
                             Client.Connected Vercel true true 9
                             "nobody@example.com" "hunter2"
                             (Client.mkPage None None) (Content store1)))
  = BError (Client.network_error Client.Connected).
Proof.
  destruct (proj1 (connected_scripts_hide_server_errors
                     (fun p s => (s ++ p)%string)
                     (fun p hashed => (hashed =? "salt" ++ p)%string)
                     Client.Connected Vercel (Client.mkPage None None)
                     (Content store1))
                  true true 9%Z "nobody@example.com"%string "hunter2"%string)
    as [(i & e & x & y & z & H) | H].
  - cbv - [IZR powerRZ Rmult Ropp Rplus Rminus Rinv Rdiv INR] in H.
    discriminate H.
  - exact H.
Defined.

(** X16.  Registering through a connected script is a registration
    followed by a login.  When the server accepts the registration and
    bcrypt recognises the password it hashed, the script ends logged in as
    the new account, with a zero balance and no investment, provided the
    second request gets through; when the second request does not get
    through, the account exists on the server but the script reports the
    network message and stays as it was. *)
Theorem connected_registration_logs_in
        (h : string -> string -> string) (c : string -> string -> bool)
        (s : Client.front) (v : variant) (fs1 fs2 : bool) (now1 now2 : Z)
        (salt email_ password_ : string) (pg : Client.page) (f f1 : file)
        (b : body) :
  c password_ (h password_ salt) = true ->
  register h v fs1 now1 salt email_ password_ f = (Json 200 b, f1) ->
  let cu := Client.mkView (stamp_id "user_" now1) email_ (Fin 0) (Fin 0) [] in
  (exists f2,
      Client.registerUser h c s v true fs1 now1 salt true fs2 now2 email_
                          password_ pg f
      = (BLoggedIn (stamp_id "user_" now1) email_ (Fin 0) (Fin 0) [],
         Client.mkPage (Some cu) (Some cu), f2)) /\
  Client.registerUser h c s v true fs1 now1 salt false fs2 now2 email_
                      password_ pg f
  = (BError (Client.network_error s), pg, f1).
Proof.
  intros Hc H cu.
  pose proof (register_success _ _ _ _ _ _ _ _ _ _ H) as (_ & _ & _ & _ & _ & Hb & _).
  pose proof (login_after_register h c v fs1 now1 salt email_ password_ f f1 b
                                   fs2 now2 Hc H) as Hlogin.
  unfold Client.registerUser, Client.request. rewrite H, Hb.
  cbn [Client.apiRequest Nat.leb andb Client.success].
  split.
  - unfold Client.loginUser, Client.request.
    destruct (login c v fs2 now2 email_ password_ f1) as [r f2].
    cbn [fst] in Hlogin. subst r.
    exists f2. reflexivity.
  - reflexivity.
Qed.

Lemma connected_registration_logs_in_witness :
  exists f2,
    Client.registerUser (fun p s => (s ++ p)%string)
                        (fun p hashed => (hashed =? "salt" ++ p)%string)
                        Client.Complete Vercel true true 7 "salt" true true 9
                        "bob@example.com" "hunter2"
                        (Client.mkPage None None) (Content store1)
    = (BLoggedIn (stamp_id "user_" 7) "bob@example.com" (Fin 0) (Fin 0) [],
       Client.mkPage
         (Some (Client.mkView (stamp_id "user_" 7) "bob@example.com" (Fin 0)
                              (Fin 0) []))
         (Some (Client.mkView (stamp_id "user_" 7) "bob@example.com" (Fin 0)
                              (Fin 0) [])), f2).
Proof.
  exact (proj1 (connected_registration_logs_in
                  (fun p s => (s ++ p)%string)
                  (fun p hashed => (hashed =? "salt" ++ p)%string)
                  Client.Complete Vercel true true 7%Z 9%Z "salt"%string
                  "bob@example.com"%string "hunter2"%string
                  (Client.mkPage None None) (Content store1) _ _
                  eq_refl register_bob)).
Defined.

(** ** What the page shows and what the server holds *)

Lemma find_by_unique_id (l : list user) (u : user) :
  NoDup (map id l) -> In u l ->
  find (fun w => (id w =? id u)%string) l = Some u.
Proof.
  induction l as [| y r IH]; intros Hnd Hin; [contradiction |].
  cbn [map] in Hnd. inversion Hnd as [| ? ? Hy Hr]; subst.
  cbn [find]. destruct Hin as [-> | Hin].
  - now rewrite String.eqb_refl.
  - destruct (String.eqb_spec (id y) (id u)) as [E | _].
    + exfalso. apply Hy. rewrite E. now apply in_map.
    + now apply IH.
Qed.

(** X17.  The dashboard of a connected script stays in step with the
    server.  After a successful login, if the stored ids are pairwise
    distinct, the account the server finds under the id of [currentUser]
    has the email, balance and investments the page holds; and each
    investment accepted from such a page leaves the page and the server in
    step again, the page holding the new balance and the new investment. *)
Theorem connected_page_stays_in_step
        (c : string -> string -> bool) (s : Client.front) (v : variant) :
  (forall fs_ok now email_ password_ pg d i e x y z pg' f',
      NoDup (map id (users d)) ->
      Client.loginUser c s v true fs_ok now email_ password_ pg (Content d)
      = (BLoggedIn i e x y z, pg', f') ->
      Client.in_sync pg' f' /\
      Client.currentUser pg' = Some (Client.mkView i e x y z)) /\
  (forall net fs_ok now txHash amountText termText compoundType_ pg f pg' f',
      Client.in_sync pg f ->
      Client.submitTx s v net fs_ok now txHash amountText termText
                      compoundType_ pg f
      = (Client.Accepted, pg', f') ->
      Client.in_sync pg' f' /\
      exists cu inv nb,
        Client.currentUser pg = Some cu /\
        Client.currentUser pg'
        = Some (Client.mkView (Client.v_id cu) (Client.v_email cu) nb
                              (Client.v_totalEarnings cu)
                              (Client.v_investments cu ++ [inv])) /\
        amount inv = parseFloat_str amountText /\
        nb = add (Client.v_balance cu) (amount inv)).
Proof.
  split.
  - intros fs_ok now email_ password_ pg d i e x y z pg' f' Hnd H.
    unfold Client.loginUser, Client.request in H.
    unfold login in H.
    destruct (missing email_ || missing password_); [discriminate |].
    cbn [readDatabase] in H.
    destruct (find (fun u => (email u =? email_)%string) (users d))
      as [u |] eqn:Hfind; [| discriminate].
    destruct (isActive u) as [[|] |]; try discriminate.
    destruct (negb _); [discriminate |].
    destruct (update_first_split (fun u => (email u =? email_)%string)
                                 (set_lastLogin now) _ u Hfind)
      as (l1 & l2 & Hl & _ & Hup).
    unfold writeDatabase in H.
    destruct fs_ok; cbn in H; injection H as <- <- <- <- <- <- <-;
      (split; [| reflexivity]); intros cu [= <-];
      cbn [Client.v_id Client.v_email Client.v_balance Client.v_investments].
    + eexists _, (set_lastLogin now u). split; [reflexivity |].
      cbn [set_users users]. split; [| repeat split].
      change (id u) with (id (set_lastLogin now u)).
      apply find_by_unique_id.
      * rewrite Hup.
        replace (map id (l1 ++ set_lastLogin now u :: l2)) with (map id (users d))
          by (rewrite Hl, !map_app; reflexivity).
        exact Hnd.
      * rewrite Hup. apply in_or_app. right. left. reflexivity.
    + exists d, u. split; [reflexivity |].
      split; [| repeat split].
      apply find_by_unique_id; [exact Hnd |].
      rewrite Hl. apply in_or_app. right. left. reflexivity.
  - intros net fs_ok now txHash amountText termText ct pg f pg' f' Hsync H.
    unfold Client.submitTx in H.
    destruct (Client.currentUser pg) as [cu |] eqn:Hcu; [| discriminate].
    destruct (all_ws txHash); [discriminate |].
    destruct (Hsync cu Hcu) as (d & u & -> & Hfind & He & Hb & Hi).
    unfold Client.request in H. destruct net.
    2:{ cbn in H. rewrite network_error_nonempty in H. discriminate. }
    destruct (invest v fs_ok now (Client.v_id cu) (JStr amountText)
                     (JStr termText) ct txHash (Content d))
      as [r f1] eqn:Hinv.
    destruct r as [code b |].
    2:{ cbn in H. rewrite network_error_nonempty in H. discriminate. }
    pose proof (invest_status v fs_ok now (Client.v_id cu) (JStr amountText)
                              (JStr termText) ct txHash (Content d)) as St.
    rewrite Hinv in St. cbn [fst] in St.
    destruct St as [[-> (inv & nb & ->)] | [[-> | [-> | ->]] (m & ->)]];
      try (cbn in H; rewrite network_error_nonempty in H; discriminate).
    cbn [Client.apiRequest Nat.leb andb] in H.
    injection H as <- <-.
    destruct (invest_success _ _ _ _ _ _ _ _ _ _ _ _ Hinv)
      as (u0 & ends & Hf0 & _ & _ & _ & _ & Hnew & Hnb & Hf1).
    cbn [readDatabase fst] in Hf0, Hf1. cbv zeta in Hf1, Hnb.
    rewrite Hfind in Hf0. injection Hf0 as <-.
    assert (Ha : amount inv = parseFloat_str amountText)
      by (rewrite Hnew; reflexivity).
    split.
    + intros cu' [= <-].
      cbn [Client.v_id Client.v_email Client.v_balance Client.v_investments].
      eexists _, _. split; [exact Hf1 | split].
      * cbn [set_users users].
        apply (find_update_first _ _ _ u Hfind).
        rewrite deposit_id. apply (find_some _ _ Hfind).
      * cbn [deposit email balance investments or_empty].
        rewrite Hi. repeat split; [exact He | now rewrite Hnb].
    + exists cu, inv, nb. repeat split; [exact Ha |].
      rewrite Hnb. cbn [deposit balance]. now rewrite Hb.
Qed.

Lemma login_alice :
  Client.loginUser (fun _ _ => true) Client.Connected Vercel true true 5
                   "alice@example.com" "secret" (Client.mkPage None None)
                   (Content store1)
  = (BLoggedIn "user_1" "alice@example.com" (Fin 0) (Fin 0) [],
     Client.mkPage
       (Some (Client.mkView "user_1" "alice@example.com" (Fin 0) (Fin 0) []))
       (Some (Client.mkView "user_1" "alice@example.com" (Fin 0) (Fin 0) [])),
     Content (mkDb [set_lastLogin 5 alice] (Some (mkSettings wallet)))).
Proof. reflexivity. Qed.

Lemma connected_page_stays_in_step_witness :
  Client.in_sync
    (Client.mkPage
       (Some (Client.mkView "user_1" "alice@example.com" (Fin 0) (Fin 0) []))
       (Some (Client.mkView "user_1" "alice@example.com" (Fin 0) (Fin 0) [])))
    (Content (mkDb [set_lastLogin 5 alice] (Some (mkSettings wallet)))).
Proof.
  apply (proj1 (connected_page_stays_in_step (fun _ _ => true)
                  Client.Connected Vercel)
               true 5%Z "alice@example.com"%string "secret"%string
               (Client.mkPage None None) store1 "user_1"%string
               "alice@example.com"%string (Fin 0) (Fin 0) [] _ _).
  - cbn. constructor; [intros [] | constructor].
  - exact login_alice.
Defined.

(** ** The mock page of script.js *)

Lemma mock_register_success (now : Z) (email_ password_ : string)
      (st st' : MockScript.storage) (b : body) :
  MockScript.registerUser now email_ password_ st = (MockScript.Succeeded b, st') ->
  let us := or_empty (MockScript.mockUsers (MockScript.initMockUsers st)) in
  let newUser := mkUser (stamp_id "user_" now) email_ password_ (Some now) None
                        (Fin 0) (Fin 0) (Some []) None None in
  find (fun u => (email u =? email_)%string) us = None /\
  (List.length us < 10)%nat /\
  b = BRegistered (stamp_id "user_" now) email_ (Fin 0) /\
  st' = MockScript.mkStorage (Some (us ++ [newUser])) (Some newUser).
Proof.
  unfold MockScript.registerUser. cbv zeta. intros H.
  destruct (find _ _); [discriminate |].
  destruct (10 <=? _)%nat eqn:Hlen; [discriminate |].
  injection H as <- <-. repeat split. now apply Nat.leb_gt in Hlen.
Qed.

Lemma find_weaker_none {A : Type} (p q : A -> bool) (l : list A) :
  find p l = None -> find (fun x => p x && q x) l = None.
Proof.
  induction l as [| y r IH]; [reflexivity |].
  cbn [find]. destruct (p y); [discriminate |]. cbn [andb]. exact IH.
Qed.

Lemma find_app_mismatch {A : Type} (p q : A -> bool) (l : list A) (x : A) :
  find p l = None -> q x = false ->
  find (fun y => p y && q y) (l ++ [x]) = None.
Proof.
  intros Hn Hq. induction l as [| y r IH].
  - cbn. rewrite Hq. now rewrite andb_false_r.
  - cbn [find app] in *. destruct (p y); [discriminate |]. cbn [andb].
    now apply IH.
Qed.

(** X18.  In script.js registration then login is a round trip: after a
    successful registration a login with the same email and password
    succeeds and returns the new account, with a zero balance and no
    investment, leaving the storage as the registration left it; any other
    password is refused, and so is a second registration of the email. *)
Theorem mock_register_then_login
        (now : Z) (email_ password_ : string) (st st' : MockScript.storage)
        (b : body) :
  MockScript.registerUser now email_ password_ st = (MockScript.Succeeded b, st') ->
  MockScript.loginUser email_ password_ st'
  = (MockScript.Succeeded (BLoggedIn (stamp_id "user_" now) email_ (Fin 0)
                                     (Fin 0) []), st') /\
  (forall password', password' <> password_ ->
      fst (MockScript.loginUser email_ password' st')
      = MockScript.Failed "Invalid email or password") /\
  (forall now' password',
      MockScript.registerUser now' email_ password' st'
      = (MockScript.Failed "User already exists", st')).
Proof.
  intros H.
  destruct (mock_register_success _ _ _ _ _ _ H) as (Hfresh & _ & _ & ->).
  cbv zeta in Hfresh.
  set (us := or_empty (MockScript.mockUsers (MockScript.initMockUsers st))) in *.
  split; [| split].
  - unfold MockScript.loginUser, MockScript.initMockUsers.
    cbn [MockScript.mockUsers or_empty].
    rewrite (find_app_new _ us); [reflexivity | |].
    + now apply find_weaker_none.
    + cbn [email password]. now rewrite !String.eqb_refl.
  - intros password' Hne.
    unfold MockScript.loginUser, MockScript.initMockUsers.
    cbn [MockScript.mockUsers or_empty].
    rewrite find_app_mismatch; [reflexivity | exact Hfresh |].
    cbn [password]. destruct (String.eqb_spec password_ password');
      [now elim Hne | reflexivity].
  - intros now' password'.
    unfold MockScript.registerUser, MockScript.initMockUsers.
    cbn [MockScript.mockUsers or_empty].
    rewrite (find_app_new _ us _ Hfresh); [reflexivity |].
    cbn [email]. apply String.eqb_refl.
Qed.

Lemma mock_register_then_login_witness :
  MockScript.loginUser "bob@example.com" "hunter2"
    (snd (MockScript.registerUser 7 "bob@example.com" "hunter2"
                                  (MockScript.mkStorage None None)))
  = (MockScript.Succeeded (BLoggedIn (stamp_id "user_" 7) "bob@example.com"
                                     (Fin 0) (Fin 0) []),
     snd (MockScript.registerUser 7 "bob@example.com" "hunter2"
                                  (MockScript.mkStorage None None))).
Proof.
  exact (proj1 (mock_register_then_login 7%Z "bob@example.com"%string
                  "hunter2"%string (MockScript.mkStorage None None) _ _
                  eq_refl)).
Defined.

(** X19.  In script.js a login or a registration does not log the page
    in: both write to [localStorage] only, so on a page that was logged
    out the submit button still alerts "Please login first"; the page is
    logged in as that account once it is loaded again. *)
Theorem mock_login_needs_a_reload
        (pg pg1 : MockScript.page) (r : body) :
  MockScript.loggedIn pg = None ->
  (forall email_ password_,
      MockScript.loginSubmit email_ password_ pg = (MockScript.Succeeded r, pg1) ->
      (forall now txHash amountText termText compoundType_,
          MockScript.submitTx now txHash amountText termText compoundType_ pg1
          = (MockScript.Alerted "Please login first", pg1)) /\
      exists u,
        MockScript.loggedIn (MockScript.load (MockScript.stored pg1)) = Some u /\
        email u = email_ /\ password u = password_) /\
  (forall now email_ password_,
      MockScript.registerSubmit now email_ password_ pg
      = (MockScript.Succeeded r, pg1) ->
      (forall now' txHash amountText termText compoundType_,
          MockScript.submitTx now' txHash amountText termText compoundType_ pg1
          = (MockScript.Alerted "Please login first", pg1)) /\
      exists u,
        MockScript.loggedIn (MockScript.load (MockScript.stored pg1)) = Some u /\
        email u = email_ /\ password u = password_).
Proof.
  intros Hout. split.
  - intros email_ password_ H.
    unfold MockScript.loginSubmit, MockScript.loginUser in H. cbv zeta in H.
    destruct (find _ _) as [u |] eqn:Hfind; [| discriminate].
    injection H as _ <-. split.
    + intros. unfold MockScript.submitTx. cbn [MockScript.loggedIn].
      now rewrite Hout.
    + exists u. unfold MockScript.load, MockScript.initMockUsers at 1.
      cbn [MockScript.stored MockScript.mockUsers].
      assert (Hm : exists l, MockScript.mockUsers (MockScript.initMockUsers
                                                    (MockScript.stored pg))
                             = Some l).
      { unfold MockScript.initMockUsers.
        destruct (MockScript.mockUsers (MockScript.stored pg)) eqn:E;
          [rewrite E | cbn]; eauto. }
      destruct Hm as (l & ->). cbn [MockScript.loggedIn MockScript.currentUser].
      split; [reflexivity |].
      apply find_some in Hfind. destruct Hfind as [_ Hp].
      apply andb_true_iff in Hp. destruct Hp as [He Hp].
      apply String.eqb_eq in He, Hp. split; assumption.
  - intros now email_ password_ H.
    unfold MockScript.registerSubmit in H.
    destruct (MockScript.registerUser now email_ password_ (MockScript.stored pg))
      as [o st'] eqn:Hreg.
    injection H as -> <-.
    destruct (mock_register_success _ _ _ _ _ _ Hreg) as (_ & _ & _ & ->).
    split.
    + intros. unfold MockScript.submitTx. cbn [MockScript.loggedIn].
      now rewrite Hout.
    + eexists. unfold MockScript.load, MockScript.initMockUsers.
      cbn [MockScript.stored MockScript.mockUsers MockScript.loggedIn
           MockScript.currentUser].
      split; [reflexivity | split; reflexivity].
Qed.

Lemma mock_login_needs_a_reload_witness :
  MockScript.submitTx 9 "0xabc" "1000" "12" "monthly"
    (snd (MockScript.loginSubmit "demo@yieldfarm.com" "password123"
            (MockScript.mkPage None (MockScript.mkStorage None None))))
  = (MockScript.Alerted "Please login first",
     snd (MockScript.loginSubmit "demo@yieldfarm.com" "password123"
            (MockScript.mkPage None (MockScript.mkStorage None None)))).
Proof.
  apply (proj1 (proj1 (mock_login_needs_a_reload
                         (MockScript.mkPage None (MockScript.mkStorage None None))
                         _ _ eq_refl)
                      "demo@yieldfarm.com"%string "password123"%string eq_refl)).
Defined.

(** X20.  An investment accepted by the mock page changes one stored
    account only, the first with the id of the current user: its balance
    grows by the amount and the investment is appended; the page and the
    saved user become that account.  The stored term is [parseInt] of the
    term field and the stamped APY is the curve at that stored term. *)
Theorem mock_investment_is_recorded
        (now : Z) (txHash amountText termText compoundType_ : string)
        (pg pg' : MockScript.page) :
  MockScript.submitTx now txHash amountText termText compoundType_ pg
  = (MockScript.Accepted, pg') ->
  exists cu l1 u l2 u' inv,
    MockScript.loggedIn pg = Some cu /\
    MockScript.mockUsers (MockScript.stored pg) = Some (l1 ++ u :: l2) /\
    Forall (fun w => (id w =? id cu)%string = false) l1 /\
    id u = id cu /\
    MockScript.mockUsers (MockScript.stored pg') = Some (l1 ++ u' :: l2) /\
    MockScript.loggedIn pg' = Some u' /\
    MockScript.currentUser (MockScript.stored pg') = Some u' /\
    balance u' = add (balance u) (amount inv) /\
    investments u' = Some (or_empty (investments u) ++ [inv]) /\
    id u' = id u /\ email u' = email u /\ password u' = password u /\
    totalEarnings u' = totalEarnings u /\
    amount inv = parseFloat_str amountText /\
    lockPeriod inv = parseInt_str termText /\
    apy inv = apyFromTerm (lockPeriod inv) /\
    status inv = "active"%string /\ totalEarned inv = Some (Fin 0).
Proof.
  unfold MockScript.submitTx. intros H.
  destruct (MockScript.loggedIn pg) as [cu |]; [| discriminate].
  destruct (all_ws txHash); [discriminate |].
  destruct (lt _ _ || gt _ _); [discriminate |].
  destruct (MockScript.mockUsers (MockScript.stored pg)) as [us |];
    [| discriminate].
  destruct (find (fun u => (id u =? id cu)%string) us) as [u |] eqn:Hfind;
    [| discriminate].
  injection H as <-.
  match goal with
  | |- context [MockScript.deposit u ?i] => set (inv := i)
  end.
  destruct (update_first_split (fun u => (id u =? id cu)%string)
                               (fun _ => MockScript.deposit u inv) us u Hfind)
    as (l1 & l2 & -> & Hall & Hup).
  exists cu, l1, u, l2, (MockScript.deposit u inv), inv.
  cbn [MockScript.loggedIn MockScript.stored MockScript.mockUsers
       MockScript.currentUser].
  rewrite Hup.
  repeat split; try assumption.
  apply String.eqb_eq. apply (find_some _ _ Hfind).
Qed.

Lemma mock_investment_is_recorded_witness :
  exists u' inv,
    MockScript.loggedIn
      (snd (MockScript.submitTx 9 "0xabc" "1000" "12" "monthly"
              (MockScript.load (MockScript.mkStorage (Some [alice]) (Some alice)))))
    = Some u'
    /\ investments u' = Some (or_empty (investments alice) ++ [inv]).
Proof.
  assert (E : MockScript.submitTx 9 "0xabc" "1000" "12" "monthly"
                (MockScript.load (MockScript.mkStorage (Some [alice]) (Some alice)))
              = (MockScript.Accepted,
                 snd (MockScript.submitTx 9 "0xabc" "1000" "12" "monthly"
                        (MockScript.load
                           (MockScript.mkStorage (Some [alice]) (Some alice)))))).
  { unfold MockScript.submitTx, MockScript.load, MockScript.initMockUsers.
    cbn [MockScript.mockUsers MockScript.currentUser MockScript.loggedIn
         MockScript.stored].
    change (all_ws "0xabc") with false. cbv iota.
    replace (parseFloat_str "1000") with (Fin 1000) by (symmetry; read_text).
    rewrite amount_test. rdecide. reflexivity. }
  destruct (mock_investment_is_recorded _ _ _ _ _ _ _ E)
    as (cu & l1 & u & l2 & u' & inv & Hcu & Hus & Hall & Hid & _ & Hlog & _ & _
        & Hinv & _).
  exists u', inv. split; [exact Hlog |].
  rewrite Hinv. cbn in Hcu, Hus. injection Hcu as <-.
  destruct l1 as [| w l1].
  - cbn in Hus. injection Hus as <- _. reflexivity.
  - cbn in Hus. injection Hus as <- Hrest.
    inversion Hall as [| ? ? Hw _]. subst. discriminate Hw.
Defined.

(** ** The browser calculators *)

(** X21.  A browser calculator shows its error exactly when the amount
    field does not read, as a whole, as a number within [500, 1,000,000];
    the term and the mode never make it refuse, in any of the four
    scripts. *)
Theorem calc_refuses_only_the_amount
        (v : script) (amountText termText comp : string) :
  calc v amountText termText comp = ShowError <->
  ~ (exists p, ToNumber_str amountText = Fin p /\ 500 <= p <= 1000000).
Proof.
  unfold calc.
  destruct (ToNumber_str amountText) as [| | | p] eqn:E.
  - cbn. split; [intros _ (p & Hp & _); discriminate | reflexivity].
  - cbn. split; [intros _ (p & Hp & _); discriminate | reflexivity].
  - cbn. split; [intros _ (p & Hp & _); discriminate | reflexivity].
  - cbn [isNaN orb]. rewrite amount_test.
    destruct (Rle_dec 500 p) as [H1 | H1]; destruct (Rle_dec p 1000000) as [H2 | H2].
    + rewrite !Rleb_true by assumption. cbn [andb negb].
      split; [discriminate |].
      intros C. exfalso. apply C. exists p. repeat split; assumption.
    + rewrite (Rleb_false p 1000000) by lra. rewrite andb_false_r. cbn [negb].
      split; [intros _ (q & [= <-] & Hq); lra | reflexivity].
    + rewrite (Rleb_false 500 p) by lra. cbn [andb negb].
      split; [intros _ (q & [= <-] & Hq); lra | reflexivity].
    + rewrite (Rleb_false 500 p) by lra. cbn [andb negb].
      split; [intros _ (q & [= <-] & Hq); lra | reflexivity].
Qed.

Lemma calc_refuses_only_the_amount_witness :
  calc ConnectedScript "abc" "12" "monthly" = ShowError.
Proof.
  apply (proj2 (calc_refuses_only_the_amount ConnectedScript "abc"%string
                  "12"%string "monthly"%string)).
  intros (p & Hp & _).
  cbv - [IZR powerRZ Rmult Ropp Rplus Rminus Rinv Rdiv INR] in Hp.
  discriminate Hp.
Defined.

(** X22.  For a term between 1 and 600 months the monthly projection of
    the oldest script lies strictly between the principal and the monthly
    projection of the three current scripts, which all show the same
    amount; in any other mode the four scripts agree.  The bounds keep
    the projections far inside the range of binary64 and the three
    amounts well apart. *)
Theorem oldest_script_projects_less
        (p t : R) (amountText termText : string) :
  500 <= p <= 1000000 ->
  ToNumber_str amountText = Fin p ->
  ToNumber_str termText = Fin t ->
  1 <= t <= 600 ->
  (exists a fo fc,
      calc LegacyScript amountText termText "monthly"
      = ShowResult (Fin a) (Fin fo) (Fin (fo - p)) /\
      (forall v, v <> LegacyScript ->
         calc v amountText termText "monthly"
         = ShowResult (Fin a) (Fin fc) (Fin (fc - p))) /\
      p < fo < fc) /\
  (forall v comp, (comp =? "monthly")%string = false ->
      calc v amountText termText comp = calc LegacyScript amountText termText comp).
Proof.
  intros Hp Ha Ht Hpos. split.
  - exists (apy_spec t), (p * Rpower (1 + apy_spec t) (t / 12)),
      (project_final p (apy_spec t) t monthly).
    split; [now apply calc_legacy_monthly |].
    split; [intros v Hv; now apply calc_canonical_monthly |].
    pose proof (apy_spec_range t) as Hr. unfold project_final.
    assert (H1 : 1 < Rpower (1 + apy_spec t) (t / 12)).
    { rewrite <- (Rpower_O (1 + apy_spec t)) at 1 by lra.
      apply Rpower_lt; lra. }
    assert (H2 : Rpower (1 + apy_spec t) (t / 12) < Rpower (1 + apy_spec t) t).
    { apply Rpower_lt; lra. }
    split; nra.
  - intros v comp Hc.
    rewrite (calc_simple v p t amountText termText comp Hc Hp Ha Ht).
    rewrite (calc_simple LegacyScript p t amountText termText comp Hc Hp Ha Ht).
    reflexivity.
Qed.

Lemma oldest_script_projects_less_witness :
  exists a fo fc,
    calc LegacyScript "1000" "12" "monthly"
    = ShowResult (Fin a) (Fin fo) (Fin (fo - 1000))
    /\ (forall v, v <> LegacyScript ->
          calc v "1000" "12" "monthly"
          = ShowResult (Fin a) (Fin fc) (Fin (fc - 1000)))
    /\ 1000 < fo < fc.
Proof.
  apply (proj1 (oldest_script_projects_less 1000 12 "1000" "12"
                  ltac:(lra) text_1000 text_12 ltac:(lra))).
Defined.

(** ** More on the servers *)

(** X23.  In the in-memory server registration then login is a round
    trip, given that bcrypt recognises the password it hashed: the login
    returns the new account with a zero balance and no investment, and no
    login, successful or not, changes the accounts. *)
Theorem memory_register_then_login
        (h : string -> string -> string) (c : string -> string -> bool)
        (now : Z) (salt email_ password_ : string) (us us' : list user)
        (b : body) :
  c password_ (h password_ salt) = true ->
  MemoryServer.register h now salt email_ password_ us = (Json 200 b, us') ->
  MemoryServer.login c email_ password_ us'
  = (Json 200 (BLoggedIn (stamp_id "user_" now) email_ (Fin 0) (Fin 0) []), us') /\
  (forall email' password',
      snd (MemoryServer.login c email' password' us') = us').
Proof.
  intros Hc H.
  destruct (memory_register_success _ _ _ _ _ _ _ _ H)
    as (He & Hp & Hfresh & _ & ->).
  split; [| intros; apply memory_login_is_read_only].
  unfold MemoryServer.login. rewrite He, Hp. cbn [orb].
  rewrite (find_app_new _ _ _ Hfresh) by (cbn [email]; apply String.eqb_refl).
  cbn [password]. rewrite Hc. reflexivity.
Qed.

Lemma memory_register_bob :
  MemoryServer.register (fun p s => (s ++ p)%string) 7 "salt" "bob@example.com"
                        "hunter2" [alice]
  = (Json 200 (BRegistered (stamp_id "user_" 7) "bob@example.com" (Fin 0)),
     [alice;
      mkUser (stamp_id "user_" 7) "bob@example.com" "salthunter2"
             (Some 7%Z) None (Fin 0) (Fin 0) (Some []) None None]).
Proof. reflexivity. Qed.

Lemma memory_register_then_login_witness :
  fst (MemoryServer.login (fun p hashed => (hashed =? "salt" ++ p)%string)
                          "bob@example.com" "hunter2"
                          (snd (MemoryServer.register
                                  (fun p s => (s ++ p)%string) 7 "salt"
                                  "bob@example.com" "hunter2" [alice])))
  = Json 200 (BLoggedIn (stamp_id "user_" 7) "bob@example.com" (Fin 0) (Fin 0) []).
Proof.
  rewrite memory_register_bob. cbn [snd].
  exact (f_equal fst
           (proj1 (memory_register_then_login
                     (fun p s => (s ++ p)%string)
                     (fun p hashed => (hashed =? "salt" ++ p)%string)
                     7%Z "salt"%string "bob@example.com"%string "hunter2"%string
                     [alice] _ _ eq_refl memory_register_bob))).
Defined.

(** With the five clock reads at one instant, [invest_clocked] is
    [invest]. *)
Lemma invest_clocked_same_instant
      (v : variant) (fs_ok : bool) (now : Z) (userId_ : string)
      (amount_ lockPeriod_ : jsval) (compoundType_ transactionHash_ : string)
      (f : file) :
  invest_clocked v fs_ok (same_instant now) userId_ amount_ lockPeriod_
                 compoundType_ transactionHash_ f
  = invest v fs_ok now userId_ amount_ lockPeriod_ compoundType_
           transactionHash_ f.
Proof. reflexivity. Qed.

(** X24.  A month of lock term is thirty days, counted from the clock
    read of the end date.  The handler reads the clock once for the start
    date and once more for the end date; when the submitted term reads as
    a whole number k and the second read is a valid time value, the
    investment a file-backed server creates starts at the first read and
    ends exactly k times 30 days after the second, an instant within the
    range of valid dates.  So the lock lasts k times 30 days plus the time
    between the two reads, and exactly k times 30 days when both reads
    give the same millisecond. *)
Theorem a_month_is_thirty_days
        (v : variant) (fs_ok : bool) (clk : clock) (userId_ : string)
        (amount_ lockPeriod_ : jsval) (compoundType_ transactionHash_ : string)
        (f f' : file) (inv : investment) (nb : jsnum) (k : Z) :
  invest_clocked v fs_ok clk userId_ amount_ lockPeriod_ compoundType_
                 transactionHash_ f
  = (Json 200 (BInvested inv nb), f') ->
  ToNumber lockPeriod_ = Fin (IZR k) ->
  (0 <= at_end clk <= 8640000000000000)%Z ->
  let month := (30 * 24 * 60 * 60 * 1000)%Z in
  startDate inv = at_start clk /\
  endDate inv = Some (at_end clk + k * month)%Z /\
  (Z.abs (at_end clk + k * month) <= 8640000000000000)%Z /\
  (forall ends, endDate inv = Some ends ->
     (ends - startDate inv = k * month + (at_end clk - at_start clk))%Z) /\
  (at_start clk = at_end clk ->
   forall ends, endDate inv = Some ends ->
     (ends - startDate inv = k * month)%Z).
Proof.
  intros H Hk _ month.
  assert (G : startDate inv = at_start clk /\
              endDate inv = Some (at_end clk + k * month)%Z /\
              (Z.abs (at_end clk + k * month) <= 8640000000000000)%Z).
  { unfold invest_clocked in H.
    destruct (missing userId_ || negb (truthy amount_)
              || negb (truthy lockPeriod_) || missing transactionHash_);
      [discriminate |].
    destruct (readDatabase v fs_ok f) as [d f1].
    destruct (find (fun u => (id u =? userId_)%string) (users d)) as [u |];
      [| discriminate].
    destruct (lt (parseFloat amount_) (Fin 500)
              || gt (parseFloat amount_) (Fin 1000000)); [discriminate |].
    rewrite (end_time_whole (at_end clk) k lockPeriod_ Hk) in H.
    change 2592000000%Z with month in H.
    set (z := (at_end clk + k * month)%Z) in *.
    unfold toISOString in H.
    destruct (Rleb (Rabs (IZR z)) 8640000000000000) eqn:Hle; [| discriminate].
    rewrite Rtrunc_IZR in H.
    unfold writeDatabase in H. destruct fs_ok; [| discriminate].
    injection H as <- _ _. cbn [startDate endDate].
    split; [reflexivity | split; [reflexivity |]].
    unfold Rleb in Hle. destruct (Rle_dec _ _) as [Hr |]; [| discriminate].
    rewrite <- abs_IZR in Hr. now apply le_IZR. }
  destruct G as (Hs & He & Hv).
  split; [exact Hs | split; [exact He | split; [exact Hv | split]]].
  - intros ends Hends. rewrite He in Hends. injection Hends as <-.
    rewrite Hs. lia.
  - intros Hsame ends Hends. rewrite He in Hends. injection Hends as <-.
    rewrite Hs, Hsame. lia.
Qed.

Lemma a_month_is_thirty_days_witness :
  endDate (new_investment Vercel 1700000000000 "user_1" (JStr "1000") (JStr "1")
                          "monthly" "0xabc" (1700000000000 + 1 * 2592000000))
  = Some (1700000000000 + 1 * (30 * 24 * 60 * 60 * 1000))%Z.
Proof.
  exact (proj1 (proj2 (a_month_is_thirty_days Vercel true
                         (same_instant 1700000000000) "user_1"%string
                         (JStr "1000") (JStr "1") "monthly"%string
                         "0xabc"%string (Content store1) _ _ _ 1%Z
                         (invest_term_1 Vercel) text_term_1
                         ltac:(cbn; lia)))).
Defined.

Lemma Forall2_map_right {A : Type} (R : A -> A -> Prop) (g : A -> A) (l : list A) :
  (forall x, R x (g x)) -> Forall2 R l (map g l).
Proof.
  intros H. induction l as [| x r IH]; cbn [map]; constructor; auto.
Qed.

Lemma accrued_same_terms (v : variant) (now : Z) (inv : investment) :
  same_terms inv (accrued v now inv).
Proof.
  unfold accrued, accrue_investment.
  destruct (is_active inv); cbn [snd]; repeat split.
Qed.

Lemma accrue_user_same_identity (v : variant) (now : Z) (u : user) :
  same_identity u (accrue_user v now u).
Proof.
  destruct (investments u) as [l |] eqn:E.
  - rewrite (accrue_user_spec v now u l E).
    unfold same_identity.
    cbn [id email password createdAt lastLogin transactions isActive investments].
    rewrite E. cbn [or_empty]. repeat split.
    apply Forall2_map_right. apply accrued_same_terms.
  - unfold accrue_user. rewrite E. unfold same_identity. repeat split.
    rewrite E. constructor.
Qed.

(** X25.  An accrual tick touches nothing but money: it keeps the
    settings, the number and order of the accounts and, for each account,
    its id, email, password, dates, transactions and flag, and the number
    and order of its investments, each of which keeps its id, principal,
    term, mode, APY, transaction hash, dates and status. *)
Theorem tick_keeps_accounts_and_terms
        (v : variant) (fs_ok : bool) (now : Z) (f f' : file) (r : body) :
  updateEarnings v fs_ok now f = (Json 200 r, f') ->
  exists d',
    f' = Content d' /\
    settings d' = settings (fst (readDatabase v fs_ok f)) /\
    Forall2 same_identity (users (fst (readDatabase v fs_ok f))) (users d').
Proof.
  unfold updateEarnings.
  destruct (readDatabase v fs_ok f) as [d f1]. cbn [fst].
  unfold writeDatabase. destruct fs_ok; [| discriminate].
  intros [= _ <-]. eexists. split; [reflexivity |].
  cbn [set_users settings users]. split; [reflexivity |].
  apply Forall2_map_right. apply accrue_user_same_identity.
Qed.

Lemma tick_keeps_accounts_and_terms_witness :
  exists d',
    snd (updateEarnings Local true 9 (Content (mkDb [carol] None))) = Content d'
    /\ Forall2 same_identity [carol] (users d').
Proof.
  destruct (tick_keeps_accounts_and_terms Local true 9%Z
              (Content (mkDb [carol] None)) _ _
              (updateEarnings_written Local 9%Z (mkDb [carol] None)))
    as (d' & Hd & _ & Hall).
  exists d'. rewrite updateEarnings_written. cbn [snd].
  split; [exact Hd | exact Hall].
Defined.
(** ** The curve in binary64 *)

(** The values of the curve that C2 names are exact in binary64
    arithmetic as well. *)
Import Floats.PrimFloat.
Set Warnings "-inexact-float".

Lemma apyFromTerm_binary64_points :
  (Binary64.apyFromTerm 3 = 0.30 /\
   Binary64.apyFromTerm 24 = 2.00 /\
   Binary64.apyFromTerm 13.5 = 1.15 /\
   Binary64.apyFromTerm 1 = Binary64.apyFromTerm 3 /\
   Binary64.apyFromTerm 100 = Binary64.apyFromTerm 24)%float.
Proof. vm_compute. repeat split. Qed.
